(** * Token Alerting Service: webhook gateway, processing worker and
      notification filters

    A shallow embedding of the event pipeline of the Token Alerting Service
    ([ingestion_service.py], [processing_worker.py], [notification_worker.py])
    together with the properties of its specification that can be settled on
    the code.

    Conventions.
    - Python values that travel through JSON are terms of [value]; a Python
      dict is an association list in insertion order.
    - Python [int] is [Z]; a Python [float] is a finite double, written as
      the rational [Q] it denotes (the conversion of an [int] is computed,
      the rounded operations are parameters); [str] is a [string] of
      bytes, and the case conversions are those of ASCII text.
    - A Python exception is a term of [exn]; a computation that may raise
      returns a [result]. *)

From Stdlib Require Import List String Ascii Bool ZArith QArith Lia.
From Stdlib Require Import DecimalString Sorted.
From Stdlib.Strings Require Import Byte.
Import ListNotations.
Local Open Scope string_scope.
Local Open Scope Z_scope.

Set Implicit Arguments.
Set Warnings "-register-all".

(* ===================================================================== *)
(** * Python values *)
(* ===================================================================== *)

Module Py.

Inductive value : Type :=
| VNone
| VBool (b : bool)
| VInt (n : Z)
| VFloat (q : Q)
| VStr (s : string)
| VList (l : list value)
| VDict (d : list (string * value)).

Definition dict := list (string * value).

(** Exceptions: the class name and [str(e)]; [APIError] carries the
    PostgREST error code, [HTTPException] the status. *)
Inductive exn : Type :=
| Exc (cls msg : string)
| APIError (code msg : string)
| HTTPException (status : Z) (detail : string).

(** [str(n)] of an [int] *)
Definition str_int (n : Z) : string := NilZero.string_of_int (Z.to_int n).

(** [str(e)]; the framework prints an [HTTPException] as its status, a
    colon and its detail. *)
Definition str_exn (e : exn) : string :=
  match e with
  | Exc _ m => m
  | APIError _ m => m
  | HTTPException status d => str_int status ++ ": " ++ d
  end.

(** The class an [except (ValueError, TypeError)] clause tests. *)
Definition exn_class (e : exn) : string :=
  match e with
  | Exc cls _ => cls
  | APIError _ _ => "APIError"
  | HTTPException _ _ => "HTTPException"
  end.

Inductive result (A : Type) : Type :=
| Ok (a : A)
| Err (e : exn).
Arguments Ok {A} a.
Arguments Err {A} e.

Definition rbind {A B} (r : result A) (f : A -> result B) : result B :=
  match r with
  | Ok a => f a
  | Err e => Err e
  end.

Declare Scope result_scope.
Delimit Scope result_scope with result.
Notation "x <- c ;; k" := (rbind c (fun x => k))
  (at level 61, c at next level, right associativity) : result_scope.

(** ** Truthiness, [bool(v)] *)
Definition truthy (v : value) : bool :=
  match v with
  | VNone => false
  | VBool b => b
  | VInt n => negb (n =? 0)
  | VFloat q => negb (Qeq_bool q 0)
  | VStr s => negb (s =? "")%string
  | VList l => match l with [] => false | _ => true end
  | VDict d => match d with [] => false | _ => true end
  end.

(** ** Structural equality (the equality of the JSON texts) *)
Definition Q_eqb (a b : Q) : bool :=
  (Qnum a =? Qnum b) && (Pos.eqb (Qden a) (Qden b)).

Fixpoint value_eqb (a b : value) {struct a} : bool :=
  match a, b with
  | VNone, VNone => true
  | VBool x, VBool y => Bool.eqb x y
  | VInt x, VInt y => x =? y
  | VFloat x, VFloat y => Q_eqb x y
  | VStr x, VStr y => (x =? y)%string
  | VList x, VList y =>
      (fix go (l1 l2 : list value) {struct l1} : bool :=
         match l1, l2 with
         | [], [] => true
         | u :: l1', v :: l2' => value_eqb u v && go l1' l2'
         | _, _ => false
         end) x y
  | VDict x, VDict y =>
      (fix go (l1 l2 : list (string * value)) {struct l1} : bool :=
         match l1, l2 with
         | [], [] => true
         | (k1, u) :: l1', (k2, v) :: l2' =>
             (k1 =? k2)%string && value_eqb u v && go l1' l2'
         | _, _ => false
         end) x y
  | _, _ => false
  end.

(** ** Dictionaries *)
Fixpoint dict_get (d : dict) (k : string) : option value :=
  match d with
  | [] => None
  | (k', v) :: d' => if (k' =? k)%string then Some v else dict_get d' k
  end.

(** [d[k] = v]: an existing key keeps its position, a new key goes last. *)
Fixpoint dict_set (d : dict) (k : string) (v : value) : dict :=
  match d with
  | [] => [(k, v)]
  | (k', v') :: d' =>
      if (k' =? k)%string then (k', v) :: d' else (k', v') :: dict_set d' k v
  end.

(** [d.update(d2)] *)
Definition dict_update (d d2 : dict) : dict :=
  fold_left (fun acc kv => dict_set acc (fst kv) (snd kv)) d2 d.

(** [d.get(k, dflt)] and [d.get(k)] on a dict. *)
Definition get_default (d : dict) (k : string) (dflt : value) : value :=
  match dict_get d k with
  | Some v => v
  | None => dflt
  end.

Definition get (d : dict) (k : string) : value := get_default d k VNone.

(** [d[k]] on a dict. *)
Definition subscript (d : dict) (k : string) : result value :=
  match dict_get d k with
  | Some v => Ok v
  | None => Err (Exc "KeyError" ("'" ++ k ++ "'"))
  end.

(** [v.get(k, dflt)] on an arbitrary value: only dicts have [.get]. *)
Definition py_get (v : value) (k : string) (dflt : value) : result value :=
  match v with
  | VDict d => Ok (get_default d k dflt)
  | _ => Err (Exc "AttributeError" "object has no attribute 'get'")
  end.

(** [v[k]] with a string key on an arbitrary value. *)
Definition py_item (v : value) (k : string) : result value :=
  match v with
  | VDict d => subscript d k
  | _ => Err (Exc "TypeError" "indices must be integers")
  end.

(** ** ASCII strings *)

(** Text whose characters are all ASCII; on such text [lower] and
    [capitalize] below are [str.lower] and [str.capitalize]. *)
Fixpoint is_ascii (s : string) : bool :=
  match s with
  | EmptyString => true
  | String c s' => Nat.ltb (nat_of_ascii c) 128 && is_ascii s'
  end.

Definition lower_char (c : ascii) : ascii :=
  let n := nat_of_ascii c in
  if andb (Nat.leb 65 n) (Nat.leb n 90) then ascii_of_nat (n + 32) else c.

Definition upper_char (c : ascii) : ascii :=
  let n := nat_of_ascii c in
  if andb (Nat.leb 97 n) (Nat.leb n 122) then ascii_of_nat (n - 32) else c.

Fixpoint lower (s : string) : string :=
  match s with
  | EmptyString => EmptyString
  | String c s' => String (lower_char c) (lower s')
  end.

(** [s.capitalize()] *)
Definition capitalize (s : string) : string :=
  match s with
  | EmptyString => EmptyString
  | String c s' => String (upper_char c) (lower s')
  end.

(** [v.lower()]: only strings have it. *)
Definition str_lower (v : value) : result string :=
  match v with
  | VStr s => Ok (lower s)
  | _ => Err (Exc "AttributeError" "object has no attribute 'lower'")
  end.

Fixpoint drop (n : nat) (s : string) : string :=
  match n, s with
  | O, _ => s
  | S n', String _ s' => drop n' s'
  | S _, EmptyString => EmptyString
  end.

(** [s[a:b]] for [0 <= a <= b] *)
Definition slice (a b : nat) (s : string) : string :=
  substring a (b - a) s.

(** [s[-n:]] *)
Definition last_n (n : nat) (s : string) : string :=
  drop (String.length s - n) s.

(** [s.startswith(p)] *)
Fixpoint startswith (p s : string) : bool :=
  match p with
  | EmptyString => true
  | String a p' =>
      match s with
      | String b s' => Ascii.eqb a b && startswith p' s'
      | EmptyString => false
      end
  end.

(** [sub in s] *)
Fixpoint contains (sub s : string) : bool :=
  if startswith sub s then true
  else match s with
       | EmptyString => false
       | String _ s' => contains sub s'
       end.

Definition is_space (c : ascii) : bool :=
  let n := nat_of_ascii c in
  orb (Nat.eqb n 32) (andb (Nat.leb 9 n) (Nat.leb n 13)) ||
  andb (Nat.leb 28 n) (Nat.leb n 31).

Fixpoint lstrip (s : string) : string :=
  match s with
  | String c s' => if is_space c then lstrip s' else s
  | EmptyString => EmptyString
  end.

Fixpoint rev_string (s acc : string) : string :=
  match s with
  | EmptyString => acc
  | String c s' => rev_string s' (String c acc)
  end.

(** [s.strip()] *)
Definition strip (s : string) : string :=
  rev_string (lstrip (rev_string (lstrip s) "")) "".

(** [s.replace(c, '')] for a one-character [c] *)
Fixpoint remove_char (c : ascii) (s : string) : string :=
  match s with
  | EmptyString => EmptyString
  | String c' s' =>
      if Ascii.eqb c c' then remove_char c s' else String c' (remove_char c s')
  end.

Fixpoint chars (s : string) : list string :=
  match s with
  | EmptyString => []
  | String c s' => String c EmptyString :: chars s'
  end.

(** Numeric value of a Python number ([bool] is a subclass of [int]);
    comparisons between an [int] and a [float] are exact. *)
Definition to_num (v : value) : option Q :=
  match v with
  | VBool b => Some (if b then 1%Q else 0%Q)
  | VInt n => Some (inject_Z n)
  | VFloat q => Some q
  | _ => None
  end.

(** ** Numbers *)

(** [float(n)] of an [int]: the nearest double, ties to the even
    significand; [OverflowError] when that is [2^1024] or more. *)
Definition float_of_int (n : Z) : result Q :=
  let a := Z.abs n in
  if a <? 2 ^ 53 then Ok (inject_Z n)
  else
    let shift := Z.log2 a - 52 in
    let q := Z.shiftr a shift in
    let rest := a - Z.shiftl q shift in
    let half := Z.shiftl 1 (shift - 1) in
    let q' := if (rest <? half) || ((rest =? half) && Z.even q)
              then q else q + 1 in
    let m := Z.shiftl q' shift in
    if 2 ^ 1024 <=? m
    then Err (Exc "OverflowError" "int too large to convert to float")
    else Ok (inject_Z (Z.sgn n * m)).

(** An [int] or a [float]. *)
Inductive number : Type :=
| NInt (n : Z)
| NFloat (q : Q).

Definition as_number (v : value) : option number :=
  match v with
  | VBool b => Some (NInt (if b then 1 else 0))
  | VInt n => Some (NInt n)
  | VFloat q => Some (NFloat q)
  | _ => None
  end.

Definition of_number (x : number) : value :=
  match x with
  | NInt n => VInt n
  | NFloat q => VFloat q
  end.

(** The operand of a float operation. *)
Definition to_float (x : number) : result Q :=
  match x with
  | NInt n => float_of_int n
  | NFloat q => Ok q
  end.

End Py.
Import Py.

(* ===================================================================== *)
(** * Notification filters ([notification_worker.py]) *)
(* ===================================================================== *)

Module Filters.

Local Open Scope result_scope.

(** [chain_id_mapping] *)
Definition chain_id_mapping : list (string * string) :=
  [("0x1", "Ethereum"); ("0xaa36a7", "Sepolia Testnet")].

(** [risk_level_mapping] of [apply_filters] *)
Definition risk_level_mapping : list (string * Z) :=
  [("Safe", 0); ("Low", 1); ("Medium", 2); ("High", 3)].

Fixpoint assoc {A} (l : list (string * A)) (k : string) : option A :=
  match l with
  | [] => None
  | (k', a) :: l' => if (k' =? k)%string then Some a else assoc l' k
  end.

(** [risk_level_mapping.get(s.capitalize(), -1)] *)
Definition risk_value (s : string) : Z :=
  match assoc risk_level_mapping (capitalize s) with
  | Some n => n
  | None => -1
  end.

(** [chain_id_mapping.get(v)]: the key must be hashable. *)
Definition chain_id_mapping_get (v : value) : result value :=
  match v with
  | VStr s => Ok (match assoc chain_id_mapping s with
                  | Some b => VStr b
                  | None => VNone
                  end)
  | VList _ | VDict _ => Err (Exc "TypeError" "unhashable type")
  | _ => Ok VNone
  end.

(** [check_socials_exist] *)
Definition check_socials_exist (token_data : dict) : bool :=
  existsb (fun key => truthy (get token_data key))
          ["twitter"; "telegram"; "discord"; "website"].

(** [x is True] *)
Definition is_True (v : value) : bool :=
  match v with
  | VBool true => true
  | _ => false
  end.

Fixpoint lower_all (l : list value) : result (list string) :=
  match l with
  | [] => Ok []
  | v :: l' => s <- str_lower v ;; r <- lower_all l' ;; Ok (s :: r)
  end.

(** [[b.lower() for b in v]] *)
Definition iter_lower (v : value) : result (list string) :=
  match v with
  | VList l => lower_all l
  | VStr s => Ok (map lower (chars s))
  | VDict d => Ok (map (fun kv => lower (fst kv)) d)
  | _ => Err (Exc "TypeError" "object is not iterable")
  end.

Definition Qlt_bool (a b : Q) : bool := negb (Qle_bool b a).

Section WithFloat.

(** [float(s)] on text is the interpreter's; it is a parameter here. *)
Variable float_of_string : string -> option Q.

(** [float(v)] *)
Definition py_float (v : value) : result Q :=
  match v with
  | VStr s => match float_of_string s with
              | Some q => Ok q
              | None => Err (Exc "ValueError" "could not convert string to float")
              end
  | VNone | VList _ | VDict _ =>
      Err (Exc "TypeError" "float() argument must be a string or a real number")
  | VBool b => Ok (if b then 1%Q else 0%Q)
  | VInt n => float_of_int n
  | VFloat q => Ok q
  end.

(** [float(str(v).replace('%', '').strip()) > ceiling].  The text of a
    [float] reads as that float; the text of an [int] reads as the
    nearest double, and as an infinity when it is too large for one; the
    text of any other value that is not a string is not a number. *)
Definition tax_above (ceiling : Q) (v : value) : result bool :=
  match v with
  | VStr s =>
      x <- py_float (VStr (strip (remove_char "%"%char s))) ;;
      Ok (Qlt_bool ceiling x)
  | VInt n =>
      match float_of_int n with
      | Ok x => Ok (Qlt_bool ceiling x)
      | Err _ => Ok (0 <? n)
      end
  | VFloat q => Ok (Qlt_bool ceiling q)
  | _ => Err (Exc "ValueError" "could not convert string to float")
  end.

(** [v < q] for a float [q] *)
Definition lt_float (v : value) (q : Q) : result bool :=
  match to_num v with
  | Some x => Ok (Qlt_bool x q)
  | None => Err (Exc "TypeError" "'<' not supported")
  end.

(** The blockchain allow-list test (line 325). *)
Definition blockchain_excludes (filter_blockchain message_blockchain : value)
  : result bool :=
  if truthy filter_blockchain && truthy message_blockchain then
    mb <- str_lower message_blockchain ;;
    allowed <- iter_lower filter_blockchain ;;
    Ok (negb (existsb (String.eqb mb) allowed))
  else Ok false.

(** The event-type selector (lines 334-338). *)
Definition event_type_excludes (filter_event_type message_event_type : string)
  : bool :=
  if negb (filter_event_type =? "all")%string then
    if (filter_event_type =? "new tge")%string
       && negb (message_event_type =? "new_token")%string then true
    else if (filter_event_type =? "new dex listing")%string
            && negb (message_event_type =? "new_pair")%string then true
    else false
  else false.

(** The locked-liquidity floor (lines 341-349); a parse or comparison
    error is caught and excludes. *)
Definition locked_lp_excludes (filter_locked_lp : value)
    (filter_event_type message_event_type : string) (message_locked_lp : value)
  : bool :=
  if negb (message_event_type =? "new_token")%string then
    if truthy filter_locked_lp && negb (filter_event_type =? "new tge")%string
    then
      match (min_locked_percentage <- py_float filter_locked_lp ;;
             lt_float message_locked_lp min_locked_percentage) with
      | Ok b => b
      | Err _ => true
      end
    else false
  else false.

(** The classification rule (lines 352-357). *)
Definition classification_excludes
    (filter_classification message_classification : string) : bool :=
  if negb (filter_classification =? "all")%string then
    if (filter_classification =? "exclude memecoins")%string then
      (message_classification =? "memecoins")%string
    else negb (filter_classification =? message_classification)%string
  else false.

(** The risk ceiling (lines 364-368). *)
Definition risk_ceiling_excludes (filter_risk_level message_risk_level : string)
  : bool :=
  if negb (filter_risk_level =? "")%string then
    let message_risk_value := risk_value message_risk_level in
    let filter_risk_value := risk_value filter_risk_level in
    message_risk_value >? filter_risk_value
  else false.

(** A tax ceiling (lines 371-380 and 383-392). *)
Definition tax_excludes (filter_tax message_tax : value) : bool :=
  if truthy filter_tax then
    match (filter_tax_value <- py_float filter_tax ;;
           if truthy message_tax then tax_above filter_tax_value message_tax
           else Ok false) with
    | Ok b => b
    | Err _ => true
    end
  else false.

(** [apply_filters(filters, message_data)] *)
Definition apply_filters (filters message_data : dict) : result bool :=
  (* Extract filters *)
  let filter_buy_tax := get filters "buy_tax" in
  let filter_sell_tax := get filters "sell_tax" in
  filter_risk_level <- str_lower (get_default filters "risk_level" (VStr "")) ;;
  let filter_contract_verified := get filters "contract_verified" in
  filter_classification <-
    str_lower (get_default filters "classification" (VStr "")) ;;
  filter_event_type <- str_lower (get_default filters "alert_type" (VStr "")) ;;
  let filter_has_social := get filters "has_social" in
  let filter_blockchain := get_default filters "blockchains" (VList []) in
  let filter_locked_lp := get filters "locked_lp" in
  (* Extract message data *)
  let message_buy_tax := get_default message_data "buy_tax" (VStr "") in
  let message_sell_tax := get_default message_data "sell_tax" (VStr "") in
  message_risk_level <-
    str_lower (get_default message_data "risk_level" (VStr "")) ;;
  let message_contract_verified :=
    get_default message_data "contract_verified" (VBool false) in
  message_classification <-
    str_lower (get_default message_data "classification" (VStr "")) ;;
  message_event_type <-
    str_lower (get_default message_data "event_type" (VStr "")) ;;
  let message_socials := check_socials_exist message_data in
  message_blockchain <- chain_id_mapping_get (get message_data "chain_id") ;;
  let message_locked_lp := get_default message_data "locked_lp" (VFloat 0) in
  (* Checks, in order; the first that excludes returns False *)
  excluded <- blockchain_excludes filter_blockchain message_blockchain ;;
  if excluded then Ok false
  else if is_True filter_has_social && negb message_socials then Ok false
  else if event_type_excludes filter_event_type message_event_type then Ok false
  else if locked_lp_excludes filter_locked_lp filter_event_type
            message_event_type message_locked_lp then Ok false
  else if classification_excludes filter_classification message_classification
       then Ok false
  else if is_True filter_contract_verified
          && negb (truthy message_contract_verified) then Ok false
  else if risk_ceiling_excludes filter_risk_level message_risk_level
       then Ok false
  else if tax_excludes filter_buy_tax message_buy_tax then Ok false
  else if tax_excludes filter_sell_tax message_sell_tax then Ok false
  else Ok true.

End WithFloat.

End Filters.

(* ===================================================================== *)
(** * Keccak-256 and UTF-8 (the library functions behind [Web3.keccak]
      and [bytes.decode]) *)
(* ===================================================================== *)

Module Keccak.

Local Open Scope N_scope.

Definition mask64 : N := N.ones 64.

Definition rotl64 (x : N) (n : N) : N :=
  N.land (N.lor (N.shiftl x n) (N.shiftr x (64 - n))) mask64.

Definition not64 (x : N) : N := N.lxor x mask64.

(** The state is 25 lanes of 64 bits; lane (x, y) is at index x + 5 y. *)
Definition lane (st : list N) (x y : nat) : N :=
  nth ((x mod 5) + 5 * (y mod 5))%nat st 0.

Definition rotation_offsets : list N :=
  [ 0;  1; 62; 28; 27;
   36; 44;  6; 55; 20;
    3; 10; 43; 25; 39;
   41; 45; 15; 21;  8;
   18;  2; 61; 56; 14].

Definition round_constants : list N :=
  [0x0000000000000001; 0x0000000000008082; 0x800000000000808A;
   0x8000000080008000; 0x000000000000808B; 0x0000000080000001;
   0x8000000080008081; 0x8000000000008009; 0x000000000000008A;
   0x0000000000000088; 0x0000000080008009; 0x000000008000000A;
   0x000000008000808B; 0x800000000000008B; 0x8000000000008089;
   0x8000000000008003; 0x8000000000008002; 0x8000000000000080;
   0x000000000000800A; 0x800000008000000A; 0x8000000080008081;
   0x8000000000008080; 0x0000000080000001; 0x8000000080008008].

Definition theta (st : list N) : list N :=
  let C x := fold_left N.lxor (map (lane st x) (seq 0 5)) 0 in
  let D x := N.lxor (C ((x + 4) mod 5)%nat) (rotl64 (C ((x + 1) mod 5)%nat) 1) in
  map (fun i => N.lxor (nth i st 0) (D (i mod 5)%nat)) (seq 0 25).

Definition rho_pi (st : list N) : list N :=
  map (fun i =>
         let X := (i mod 5)%nat in
         let Y := (i / 5)%nat in
         let x := ((X + 3 * Y) mod 5)%nat in
         rotl64 (lane st x X) (nth (x + 5 * X)%nat rotation_offsets 0))
      (seq 0 25).

Definition chi (st : list N) : list N :=
  map (fun i =>
         let x := (i mod 5)%nat in
         let y := (i / 5)%nat in
         N.lxor (lane st x y)
                (N.land (not64 (lane st (x + 1) y)) (lane st (x + 2) y)))
      (seq 0 25).

Definition iota (rc : N) (st : list N) : list N :=
  match st with
  | [] => []
  | a :: st' => N.lxor a rc :: st'
  end.

Definition keccak_round (st : list N) (rc : N) : list N :=
  iota rc (chi (rho_pi (theta st))).

Definition keccak_f (st : list N) : list N :=
  fold_left keccak_round round_constants st.

(** Rate of Keccak-256 in bytes. *)
Definition rate : nat := 136.

(** pad10*1 with the Keccak domain byte 0x01. *)
Definition pad (msg : list N) : list N :=
  let q := (rate - (List.length msg mod rate))%nat in
  match q with
  | 1%nat => msg ++ [0x81]
  | _ => msg ++ [0x01] ++ repeat 0 (q - 2) ++ [0x80]
  end.

Fixpoint le_lane (bytes : list N) : N :=
  match bytes with
  | [] => 0
  | b :: r => b + 256 * le_lane r
  end.

Fixpoint lanes_of (n : nat) (bytes : list N) : list N :=
  match n with
  | O => []
  | S n' => le_lane (firstn 8 bytes) :: lanes_of n' (skipn 8 bytes)
  end.

Fixpoint xor_into (st block : list N) : list N :=
  match st, block with
  | a :: st', b :: block' => N.lxor a b :: xor_into st' block'
  | _, _ => st
  end.

Fixpoint absorb (fuel : nat) (st : list N) (msg : list N) : list N :=
  match fuel with
  | O => st
  | S fuel' =>
      match msg with
      | [] => st
      | _ => absorb fuel'
               (keccak_f (xor_into st (lanes_of 17 (firstn rate msg))))
               (skipn rate msg)
      end
  end.

Fixpoint lane_bytes (n : nat) (x : N) : list N :=
  match n with
  | O => []
  | S n' => (x mod 256) :: lane_bytes n' (x / 256)
  end.

(** The 32-byte digest of a byte string. *)
Definition keccak256 (msg : list N) : list N :=
  let p := pad msg in
  let st := absorb (List.length p) (repeat 0 25) p in
  flat_map (lane_bytes 8) (firstn 4 st).

Definition hex_char (n : N) : ascii :=
  ascii_of_N (if n <? 10 then 48 + n else 87 + n).

(** [bytes.hex()]: lower-case, two digits per byte. *)
Fixpoint hex (bytes : list N) : string :=
  match bytes with
  | [] => EmptyString
  | b :: r => String (hex_char (b / 16)) (String (hex_char (b mod 16)) (hex r))
  end.

Definition bytes_of_string (s : string) : list N :=
  map Byte.to_N (list_byte_of_string s).

Definition continuation (b : N) : bool := (0x80 <=? b) && (b <=? 0xBF).

(** Well-formed UTF-8, as the strict decoder of [bytes.decode()] accepts. *)
Fixpoint utf8_valid (l : list N) : bool :=
  match l with
  | [] => true
  | b0 :: r0 =>
      if b0 <=? 0x7F then utf8_valid r0
      else match r0 with
      | [] => false
      | b1 :: r1 =>
          if (0xC2 <=? b0) && (b0 <=? 0xDF) then continuation b1 && utf8_valid r1
          else match r1 with
          | [] => false
          | b2 :: r2 =>
              if (0xE0 <=? b0) && (b0 <=? 0xEF) then
                (if b0 =? 0xE0 then (0xA0 <=? b1) && (b1 <=? 0xBF)
                 else if b0 =? 0xED then (0x80 <=? b1) && (b1 <=? 0x9F)
                 else continuation b1)
                && continuation b2 && utf8_valid r2
              else match r2 with
              | [] => false
              | b3 :: r3 =>
                  if (0xF0 <=? b0) && (b0 <=? 0xF4) then
                    (if b0 =? 0xF0 then (0x90 <=? b1) && (b1 <=? 0xBF)
                     else if b0 =? 0xF4 then (0x80 <=? b1) && (b1 <=? 0x8F)
                     else continuation b1)
                    && continuation b2 && continuation b3 && utf8_valid r3
                  else false
              end
          end
      end
  end.

End Keccak.

(* ===================================================================== *)
(** * Statements with state, exceptions and early [return] *)
(* ===================================================================== *)

Module Eff.

(** Outcome of running a block of statements of a function whose return
    type is [R]: it falls through with a value, executes [return r], or
    raises.  Effects made before an exception stay. *)
Inductive outcome (R A : Type) : Type :=
| Normal (a : A)
| Return (r : R)
| Raise (e : exn).
Arguments Normal {R A} a.
Arguments Return {R A} r.
Arguments Raise {R A} e.

Definition M (S R A : Type) : Type := S -> outcome R A * S.

Definition ret {S R A} (a : A) : M S R A := fun s => (Normal a, s).

Definition bind {S R A B} (m : M S R A) (f : A -> M S R B) : M S R B :=
  fun s =>
    match m s with
    | (Normal a, s') => f a s'
    | (Return r, s') => (Return r, s')
    | (Raise e, s') => (Raise e, s')
    end.

Definition return_ {S R A} (r : R) : M S R A := fun s => (Return r, s).

Definition raise {S R A} (e : exn) : M S R A := fun s => (Raise e, s).

(** An expression that may raise and has no effect on the state. *)
Definition lift {S R A} (r : result A) : M S R A :=
  fun s => match r with
           | Ok a => (Normal a, s)
           | Err e => (Raise e, s)
           end.

Definition modify {S R} (f : S -> S) : M S R unit := fun s => (Normal tt, f s).

(** [try: body  except Exception as e: handler e] *)
Definition try_except {S R A} (body : M S R A) (handler : exn -> M S R A)
  : M S R A :=
  fun s =>
    match body s with
    | (Raise e, s') => handler e s'
    | other => other
    end.

Definition when {S R} (c : bool) (m : M S R unit) : M S R unit :=
  if c then m else ret tt.

(** [for x in l: body x] *)
Fixpoint for_each {S R X} (l : list X) (body : X -> M S R unit) : M S R unit :=
  match l with
  | [] => ret tt
  | x :: l' => bind (body x) (fun _ => for_each l' body)
  end.

(** A call: the body of a function run to its result; falling off the end
    returns [none]. *)
Definition call {S R} (none : R) (body : M S R unit) (s : S) : result R * S :=
  match body s with
  | (Normal _, s') => (Ok none, s')
  | (Return r, s') => (Ok r, s')
  | (Raise e, s') => (Err e, s')
  end.

(** The result of a call used as an expression of the caller. *)
Definition of_call {S R A} (c : S -> result A * S) : M S R A :=
  fun s => match c s with
           | (Ok a, s') => (Normal a, s')
           | (Err e, s') => (Raise e, s')
           end.

(** The outcome of a task awaited with [return_exceptions=True]: an
    exception comes back as a value. *)
Definition gathered {S R A} (c : S -> result A * S) : M S R (result A) :=
  fun s => let '(r, s') := c s in (Normal r, s').

(** [inv I Qr m]: from a state in [I], the block [m] leaves the state in
    [I] when it falls through or raises, and establishes [Qr r] when it
    executes [return r]. *)
Definition inv {S R A} (I : S -> Prop) (Qr : R -> S -> Prop) (m : M S R A)
  : Prop :=
  forall s, I s ->
    match m s with
    | (Normal _, s') => I s'
    | (Return r, s') => Qr r s'
    | (Raise _, s') => I s'
    end.

Declare Scope eff_scope.
Delimit Scope eff_scope with eff.
Notation "x <- c ;; k" := (bind c (fun x => k))
  (at level 61, c at next level, right associativity) : eff_scope.
Notation "c ;; k" := (bind c (fun _ => k))
  (at level 61, right associativity) : eff_scope.

End Eff.
Import Eff.

(* ===================================================================== *)
(** * The shared key-value store: the three queue structures and the
      notification queue *)
(* ===================================================================== *)

Module Redis.

(** A queued JSON text is kept as the value it encodes.  [retry_queue] is
    the sorted set, listed in its order ([precedes] below). *)
Record redis : Type := mk_redis {
  webhook_queue : list value;
  retry_queue : list (value * Q);
  failed_events : list value;
  notification_queue : list value
}.

Definition empty : redis := mk_redis [] [] [] [].

(** [rpush('webhook_queue', v)] *)
Definition rpush_webhook_queue (v : value) (r : redis) : redis :=
  mk_redis (webhook_queue r ++ [v]) (retry_queue r) (failed_events r)
           (notification_queue r).

(** [rpush('failed_events', v)] *)
Definition rpush_failed_events (v : value) (r : redis) : redis :=
  mk_redis (webhook_queue r) (retry_queue r) (failed_events r ++ [v])
           (notification_queue r).

(** [rpush('notification_queue', v)] *)
Definition rpush_notification_queue (v : value) (r : redis) : redis :=
  mk_redis (webhook_queue r) (retry_queue r) (failed_events r)
           (notification_queue r ++ [v]).

(** The order of a sorted set: by score, and among equal scores by the
    bytes of the member.  The member of a job is its JSON text, [text]. *)
Definition precedes (text : value -> string) (a b : value * Q) : bool :=
  negb (Qle_bool (snd b) (snd a))
  || (Qeq_bool (snd a) (snd b) && String.ltb (text (fst a)) (text (fst b))).

Fixpoint insert_by_score (text : value -> string) (x : value * Q)
    (l : list (value * Q)) : list (value * Q) :=
  match l with
  | [] => [x]
  | y :: l' =>
      if precedes text y x then y :: insert_by_score text x l'
      else x :: l
  end.

(** [zadd('retry_queue', {text m: score})]: a member already present is
    moved to its new score. *)
Definition zadd_retry_queue (text : value -> string) (m : value) (score : Q)
    (r : redis) : redis :=
  mk_redis (webhook_queue r)
           (insert_by_score text (m, score)
              (filter (fun e => negb (text (fst e) =? text m)%string)
                      (retry_queue r)))
           (failed_events r) (notification_queue r).

Definition in_range (lo hi : Q) (e : value * Q) : bool :=
  Qle_bool lo (snd e) && Qle_bool (snd e) hi.

(** [zrangebyscore('retry_queue', lo, hi)] *)
Definition zrangebyscore_retry_queue (lo hi : Q) (r : redis) : list value :=
  map fst (filter (in_range lo hi) (retry_queue r)).

(** [zremrangebyscore('retry_queue', lo, hi)] *)
Definition zremrangebyscore_retry_queue (lo hi : Q) (r : redis) : redis :=
  mk_redis (webhook_queue r)
           (filter (fun e => negb (in_range lo hi e)) (retry_queue r))
           (failed_events r) (notification_queue r).


End Redis.
Import Redis.

(* ===================================================================== *)
(** * Webhook gateway ([ingestion_service.py]) *)
(* ===================================================================== *)

Module Gateway.

(** [config.settings] and the [DEV_MODE] environment switch.  An unset
    secret is the empty string (both fail [if not secret]). *)
Record config : Type := mk_config {
  DEV_MODE : bool;
  MORALIS_SECRET_KEY : string;
  OWNERSHIP_TRANSFERRED_SIGNATURE : string;
  PAIR_CREATED_SIGNATURE : string;
  LOCK_LP_FUNCTION_SIGNATURE : string;
  RENOUNCED_ADDRESSES : list string
}.

(** What the handler reads of a request: the [x-signature] header, the raw
    body, and the outcome of [await request.json()]. *)
Record request : Type := mk_request {
  x_signature : option string;
  body : list Byte.byte;
  json : result value
}.

(** Collaborators outside the file: [moralis_helper_functions], [Web3],
    the clock (one reading per queued job), [str()] of a non-string value,
    the iteration order of a [set], and the rounded quotient [a / b] of
    two [int]s. *)
Record env : Type := mk_env {
  get_token_from_pair : value -> result value;
  to_checksum_address : string -> result string;
  utcnow_timestamp : nat -> string;
  utcnow_isoformat : nat -> string;
  py_repr : value -> string;
  set_order : list value -> list value;
  int_truediv : Z -> Z -> result Q
}.

Definition is_str (v : value) : bool :=
  match v with
  | VStr _ => true
  | _ => false
  end.

(** What the language promises of [list(set(l))] for a list of strings:
    no element twice, and the elements of [l]; the order is not
    specified. *)
Definition set_order_ok (e : env) : Prop :=
  forall l, forallb is_str l = true ->
    NoDup (set_order e l) /\ (forall x, In x (set_order e l) <-> In x l).

Inductive response : Type :=
| JSONResponse (status_code : Z) (content : value).

Local Open Scope result_scope.

(** ** [int(s, 16)] *)
Definition hex_digit_value (c : ascii) : option Z :=
  let n := Z.of_nat (nat_of_ascii c) in
  if (48 <=? n) && (n <=? 57) then Some (n - 48)
  else if (97 <=? n) && (n <=? 102) then Some (n - 87)
  else if (65 <=? n) && (n <=? 70) then Some (n - 55)
  else None.

Inductive lex : Type := NoDigit | AfterPrefix | AfterDigit | AfterUnderscore.

Fixpoint hex_digits (s : string) (acc : Z) (st : lex) : option Z :=
  match s with
  | EmptyString => match st with AfterDigit => Some acc | _ => None end
  | String c s' =>
      if Ascii.eqb c "_" then
        match st with
        | AfterDigit | AfterPrefix => hex_digits s' acc AfterUnderscore
        | _ => None
        end
      else match hex_digit_value c with
           | Some d => hex_digits s' (16 * acc + d) AfterDigit
           | None => None
           end
  end.

Definition int16 (s : string) : result Z :=
  let s := strip s in
  let '(neg, s) := match s with
                   | String "-" r => (true, r)
                   | String "+" r => (false, r)
                   | _ => (false, s)
                   end in
  let '(st, s) := if startswith "0x" s || startswith "0X" s
                  then (AfterPrefix, drop 2 s) else (NoDigit, s) in
  match hex_digits s 0 st with
  | Some n => Ok (if neg then - n else n)
  | None => Err (Exc "ValueError" "invalid literal for int() with base 16")
  end.

(** ** Small pieces of Python *)

(** [v[0]] *)
Definition py_first (v : value) : result value :=
  match v with
  | VList (x :: _) => Ok x
  | VList [] => Err (Exc "IndexError" "list index out of range")
  | VStr (String c _) => Ok (VStr (String c EmptyString))
  | VStr EmptyString => Err (Exc "IndexError" "string index out of range")
  | VDict _ => Err (Exc "KeyError" "0")
  | _ => Err (Exc "TypeError" "object is not subscriptable")
  end.

(** [for x in v] *)
Definition py_iter (v : value) : result (list value) :=
  match v with
  | VList l => Ok l
  | VStr s => Ok (map VStr (chars s))
  | VDict d => Ok (map (fun kv => VStr (fst kv)) d)
  | _ => Err (Exc "TypeError" "object is not iterable")
  end.

Definition as_str (v : value) (attr : string) : result string :=
  match v with
  | VStr s => Ok s
  | _ => Err (Exc "AttributeError" attr)
  end.

(** [v == s] for a string [s] *)
Definition eq_str (v : value) (s : string) : bool :=
  match v with
  | VStr s' => (s' =? s)%string
  | _ => false
  end.

Definition hashable (v : value) : bool :=
  match v with
  | VList _ | VDict _ => false
  | _ => true
  end.

(** [str(v)] *)
Definition py_str (e : env) (v : value) : string :=
  match v with
  | VStr s => s
  | _ => py_repr e v
  end.

Fixpoint traverse {A B} (f : A -> result B) (l : list A) : result (list B) :=
  match l with
  | [] => Ok []
  | a :: l' => b <- f a ;; r <- traverse f l' ;; Ok (b :: r)
  end.

(** ** [extract_addresses_from_logs] *)
Definition log_addresses (logs : value) : result (list value) :=
  ls <- py_iter logs ;;
  addrs <- traverse (fun log => py_get log "address" VNone) ls ;;
  Ok (filter truthy addrs).

Definition extract_addresses_from_logs (e : env) (logs : value) : list value :=
  match log_addresses logs with
  | Ok addresses =>
      if forallb hashable addresses then set_order e addresses
      else []                      (* TypeError: unhashable, caught *)
  | Err _ => []
  end.

(** ** [verify_moralis_signature] *)
Definition strip_0x (s : string) : string :=
  if startswith "0x" s then drop 2 s else s.

(** [Web3.keccak(text=data.decode()).hex()] of well-formed UTF-8 [data];
    [HexBytes.hex()] is lower-case (its [0x] prefix, when the library
    version gives one, is stripped by the caller). *)
Definition keccak_hex (data : list N) : string :=
  "0x" ++ Keccak.hex (Keccak.keccak256 data).

Definition verify_moralis_signature (cfg : config) (req : request) : bool :=
  if DEV_MODE cfg then true
  else
    match x_signature req with
    | None => false
    | Some provided_signature =>
        if (provided_signature =? "")%string then false
        else
          let provided_signature := strip_0x provided_signature in
          let secret := MORALIS_SECRET_KEY cfg in
          if (secret =? "")%string then false
          else
            let data := (map Byte.to_N (body req)
                         ++ Keccak.bytes_of_string secret)%list in
            if Keccak.utf8_valid data then
              let signature := strip_0x (keccak_hex data) in
              (provided_signature =? signature)%string
            else false       (* UnicodeDecodeError, caught *)
    end.

(** ** [get_event_type] *)
Definition lock_lp_amount (input_data : string) : result Z :=
  let clean_data := drop 10 input_data in
  int16 (slice 64 128 clean_data).

(** Lines 100-116: [Some "lock_lp"] when the branch returns. *)
Definition abi_event_type (cfg : config) (data : dict)
  : result (option string) :=
  match dict_get data "abi" with
  | Some abi =>
      if truthy abi then
        abi0 <- py_first abi ;;
        event_name <- py_get abi0 "name" VNone ;;
        if eq_str event_name "LockLPToken" then
          txs <- subscript data "txs" ;;
          tx <- py_first txs ;;
          input <- py_get tx "input" (VStr "") ;;
          input_data <- as_str input "startswith" ;;
          if startswith (LOCK_LP_FUNCTION_SIGNATURE cfg) input_data then
            match lock_lp_amount input_data with
            | Ok amount => if amount >? 0 then Ok (Some "lock_lp") else Ok None
            | Err _ => Ok None
            end
          else Ok None
        else Ok None
      else Ok None
  | None => Ok None
  end.

(** Lines 120-134. *)
Definition log_event_type (cfg : config) (data : dict) : result (option string) :=
  match dict_get data "logs" with
  | Some logs =>
      if truthy logs then
        log <- py_first logs ;;
        event_signature <- py_get log "topic0" VNone ;;
        if eq_str event_signature (OWNERSHIP_TRANSFERRED_SIGNATURE cfg) then
          topic2 <- py_get log "topic2" (VStr "") ;;
          t <- match topic2 with
               | VStr t => Ok t
               | _ => Err (Exc "TypeError" "can only concatenate str")
               end ;;
          let new_owner := "0x" ++ last_n 40 t in
          if existsb (String.eqb (lower new_owner))
                     (map lower (RENOUNCED_ADDRESSES cfg))
          then Ok (Some "ownership_renounced")
          else Ok (Some "new_token")
        else if eq_str event_signature (PAIR_CREATED_SIGNATURE cfg) then
          Ok (Some "new_pair")
        else Ok None
      else Ok None
  | None => Ok None
  end.

Definition get_event_type (cfg : config) (data : dict) : result string :=
  a <- abi_event_type cfg data ;;
  match a with
  | Some t => Ok t
  | None =>
      l <- log_event_type cfg data ;;
      match l with
      | Some t => Ok t
      | None => Ok "unknown"
      end
  end.

(** [is_confirmed] *)
Definition is_confirmed (data : dict) : value :=
  get_default data "confirmed" (VBool false).

(** ** [decode_lock_lp_input] and [transform_lock_lp_data]; [None] is
    [VNone]. *)
Definition decode_lock_lp_input (e : env) (input_data : value) : value :=
  match (s <- match input_data with
              | VStr s => Ok s
              | _ => Err (Exc "TypeError" "not a hex string")
              end ;;
         let clean_data := drop 10 s in
         let lp_token := "0x" ++ last_n 40 (slice 0 64 clean_data) in
         raw_amount <- int16 (slice 64 128 clean_data) ;;
         amount <- int_truediv e raw_amount (10 ^ 18) ;;
         unlock_time <- int16 (slice 128 192 clean_data) ;;
         checksummed <- to_checksum_address e lp_token ;;
         Ok (VDict [("lp_token", VStr checksummed);
                    ("amount", VFloat amount);
                    ("raw_amount", VInt raw_amount);
                    ("unlock_time", VInt unlock_time)])) with
  | Ok v => v
  | Err _ => VNone
  end.

Definition transform_lock_lp_data (e : env) (data : dict) : value :=
  match (txs <- subscript data "txs" ;;
         tx <- py_first txs ;;
         input_data <- py_item tx "input" ;;
         let decoded := decode_lock_lp_input e input_data in
         if negb (truthy decoded) then Ok VNone
         else
           block_number <- py_get (get_default data "block" (VDict []))
                                  "number" VNone ;;
           hash <- py_get tx "hash" VNone ;;
           locker <- py_get tx "toAddress" VNone ;;
           user <- py_get tx "fromAddress" VNone ;;
           lp_token <- py_item decoded "lp_token" ;;
           amount <- py_item decoded "amount" ;;
           unlock_time <- py_item decoded "unlock_time" ;;
           Ok (VDict [("chain_id", get data "chainId");
                      ("block_number", block_number);
                      ("transaction_hash", hash);
                      ("locker", locker);
                      ("user", user);
                      ("lp_token", lp_token);
                      ("amount", amount);
                      ("unlock_time", unlock_time)])) with
  | Ok v => v
  | Err _ => VNone
  end.

(** ** The handler [process_webhook] *)

(** [v[n]] *)
Definition py_index (v : value) (n : nat) : result value :=
  match v with
  | VList l => match nth_error l n with
               | Some x => Ok x
               | None => Err (Exc "IndexError" "list index out of range")
               end
  | VStr s => match nth_error (chars s) n with
              | Some c => Ok (VStr c)
              | None => Err (Exc "IndexError" "string index out of range")
              end
  | VDict _ => Err (Exc "KeyError" "index")
  | _ => Err (Exc "TypeError" "object is not subscriptable")
  end.

Definition skip_response (message : string) : response :=
  JSONResponse 200 (VDict [("status", VStr "success");
                           ("message", VStr message)]).

(** [data.get('block', {}).get('number')] *)
Definition block_number_of (data : dict) : result value :=
  py_get (get_default data "block" (VDict [])) "number" VNone.

(** [data.get('id', str(datetime.utcnow().timestamp()))] *)
Definition webhook_id (e : env) (data : dict) (i : nat) : value :=
  get_default data "id" (VStr (utcnow_timestamp e i)).

(** The job queued for one address of a [new_token] payload
    (lines 201-214). *)
Definition new_token_job (e : env) (data : dict) (event_type : string)
    (i : nat) (address : value) : result value :=
  let event_id := py_str e (webhook_id e data i) ++ "_" ++ py_str e address in
  block_number <- block_number_of data ;;
  logs <- py_iter (get_default data "logs" (VList [])) ;;
  tagged <- traverse (fun log => a <- py_get log "address" VNone ;;
                                 Ok (log, a)) logs ;;
  let own_logs :=
    map fst (filter (fun la => value_eqb (snd la) address) tagged) in
  Ok (VDict [("event_id", VStr event_id);
             ("event_type", VStr event_type);
             ("chain_id", get data "chainId");
             ("block_number", block_number);
             ("received_at", VStr (utcnow_isoformat e i));
             ("address", address);
             ("raw_data", VDict [("logs", VList own_logs);
                                 ("block", get data "block");
                                 ("chainId", get data "chainId")]);
             ("retry_count", VInt 0)]).

(** The job queued for one address of an [ownership_renounced] payload
    (lines 308-316). *)
Definition ownership_renounced_job (e : env) (data : dict)
    (event_type : string) (i : nat) (address : value) : result value :=
  let event_id := py_str e (webhook_id e data i) ++ "_" ++ py_str e address in
  block_number <- block_number_of data ;;
  Ok (VDict [("event_id", VStr event_id);
             ("event_type", VStr event_type);
             ("chain_id", get data "chainId");
             ("block_number", block_number);
             ("received_at", VStr (utcnow_isoformat e i));
             ("token_address", address);
             ("retry_count", VInt 0)]).

(** The job of a [new_pair] payload (lines 232-246). *)
Definition new_pair_job (e : env) (data : dict) (event_type : string)
  : result value :=
  block_number <- block_number_of data ;;
  let event_data :=
    [("event_id", webhook_id e data 0);
     ("event_type", VStr event_type);
     ("chain_id", get data "chainId");
     ("block_number", block_number);
     ("received_at", VStr (utcnow_isoformat e 0));
     ("raw_data", VDict data);
     ("retry_count", VInt 0)] in
  pair_data <- get_token_from_pair e (VDict data) ;;
  if truthy pair_data then
    token_address <- py_index pair_data 0 ;;
    let event_data := dict_set event_data "token_address" token_address in
    pair_address <- py_index pair_data 1 ;;
    Ok (VDict (dict_set event_data "pair_address" pair_address))
  else Ok (VDict event_data).

(** The job of a [lock_lp] payload (lines 271-280). *)
Definition lock_lp_job (e : env) (data : dict) (event_type : string)
    (block_data : value) : result value :=
  block_number <- block_number_of data ;;
  Ok (VDict [("event_id", webhook_id e data 0);
             ("event_type", VStr event_type);
             ("chain_id", get data "chainId");
             ("block_number", block_number);
             ("received_at", VStr (utcnow_isoformat e 0));
             ("transformed_data", block_data);
             ("raw_data", VDict data);
             ("retry_count", VInt 0)]).

Local Open Scope eff_scope.

(** [for address in addresses: ... rpush ... queued_events.append ...] *)
Fixpoint queue_each (job : nat -> value -> result value) (i : nat)
    (addresses : list value) (queued_events : list value)
  : M redis response (list value) :=
  match addresses with
  | [] => ret queued_events
  | address :: rest =>
      event_data <- lift (job i address) ;;
      modify (rpush_webhook_queue event_data) ;;
      event_id <- lift (py_item event_data "event_id") ;;
      queue_each job (S i) rest (queued_events ++ [event_id])
  end.

Definition accepted_many (event_type : string) (queued_events : list value)
  : response :=
  JSONResponse 202 (VDict [("status", VStr "accepted");
                           ("event_type", VStr event_type);
                           ("queued_events", VList queued_events)]).

Definition accepted_one (event_type : string) (event_data : value)
  : result response :=
  (event_id <- py_item event_data "event_id" ;;
   Ok (JSONResponse 202 (VDict [("status", VStr "accepted");
                                ("event_type", VStr event_type);
                                ("webhook_id", event_id)])))%result.

(** Lines 149-329, the body of the [try]. *)
Definition process_webhook_body (cfg : config) (e : env) (req : request)
  : M redis response unit :=
  when (negb (verify_moralis_signature cfg req))
       (return_ (skip_response "Nice try")) ;;
  data <- lift (json req) ;;
  when (negb (truthy data))
       (raise (HTTPException 400 "No data received")) ;;
  data <- lift (match data with
                | VDict d => Ok d
                | _ => Err (Exc "AttributeError"
                                "object has no attribute 'get'")
                end) ;;
  when (negb (truthy (is_confirmed data)))
       (return_ (skip_response "Block not confirmed")) ;;
  event_type <- lift (get_event_type cfg data) ;;
  when (event_type =? "unknown")%string
       (return_ (skip_response "Unknown event type")) ;;
  if (event_type =? "new_token")%string then
    let addresses :=
      extract_addresses_from_logs e (get_default data "logs" (VList [])) in
    when (negb (truthy (VList addresses)))
         (return_ (skip_response "No addresses found")) ;;
    queued_events <-
      queue_each (new_token_job e data event_type) 0 addresses [] ;;
    return_ (accepted_many event_type queued_events)
  else if (event_type =? "new_pair")%string then
    event_data <- lift (new_pair_job e data event_type) ;;
    modify (rpush_webhook_queue event_data) ;;
    resp <- lift (accepted_one event_type event_data) ;;
    return_ resp
  else if (event_type =? "lock_lp")%string then
    let block_data := transform_lock_lp_data e data in
    when (negb (truthy block_data))
         (return_ (skip_response "Failed to transform LP lock data")) ;;
    event_data <- lift (lock_lp_job e data event_type block_data) ;;
    modify (rpush_webhook_queue event_data) ;;
    resp <- lift (accepted_one event_type event_data) ;;
    return_ resp
  else if (event_type =? "ownership_renounced")%string then
    let addresses :=
      extract_addresses_from_logs e (get_default data "logs" (VList [])) in
    when (negb (truthy (VList addresses)))
         (return_ (skip_response "No addresses found")) ;;
    queued_events <-
      queue_each (ownership_renounced_job e data event_type) 0 addresses [] ;;
    return_ (accepted_many event_type queued_events)
  else ret tt.

(** The route handler: any exception of the body, the 400 included, is
    re-raised as [HTTPException(500)]; a handler that falls off its end
    answers 200 with [null]. *)
Definition process_webhook (cfg : config) (e : env) (req : request)
    (r : redis) : result response * redis :=
  call (JSONResponse 200 VNone)
       (try_except (process_webhook_body cfg e req)
          (fun ex => raise (HTTPException 500 (str_exn ex))))
       r.


End Gateway.

(* ===================================================================== *)
(** * Processing worker ([processing_worker.py]) *)
(* ===================================================================== *)

Module Worker.

(** [MAX_RETRIES] and [RETRY_DELAY] of [config.settings]; the delay is an
    [int] or a [float]. *)
Record config : Type := mk_config {
  MAX_RETRIES : Z;
  RETRY_DELAY : number
}.

(** A mutating request sent to the relational store. *)
Inductive db_write : Type :=
| Insert (table : string) (row : dict)
| Upsert (table : string) (row : dict)
| Update (table : string) (row : dict) (filters : list (string * value)).

(** What one job run sees of the outside: the clock, the float
    arithmetic of the platform (the rounded sum, product and quotient of
    two floats, and [2.0 ** x], which raises [OverflowError] out of
    range), [float()] and [json.dumps], the helper modules
    ([data_transform_helper_functions], [infura_helper_functions],
    [etherscan_helper_functions], [gopluslabs_helper_functions],
    [contract_scraper_functions], [ai_classification_functions]), and the
    answers of the relational store and of the counter document.  A helper
    called through [fetch_with_retry] answers per attempt. *)
Record env : Type := mk_env {
  time_time : Q;
  utcnow_isoformat : string;
  now_isoformat : string;
  float_add : Q -> Q -> Q;
  float_mul : Q -> Q -> Q;
  float_div : Q -> Q -> Q;
  float_pow2 : Q -> result Q;
  float_of_string : string -> option Q;
  json_dumps : value -> string;
  convert_chain_id_to_blockchain : value -> result value;
  initialize_infura_web3_object : value -> result unit;
  to_checksum_address : value -> result value;
  get_eth_contract_info : value -> nat -> result value;
  get_contract_source_code : value -> nat -> result value;
  get_token_socials : value -> result value;
  get_eth_token_security_info : value -> value -> string -> nat -> result value;
  get_token_classification : value -> value -> result (value * value);
  db_select : string -> list string -> list (string * value)
              -> result (list value);
  db_response : db_write -> result (list value);
  firestore_update : string -> result unit
}.

(** The state a job run acts on: the key-value store, the requests sent
    to the relational store, and the counters incremented. *)
Record world : Type := mk_world {
  redis_of : redis;
  db_log : list db_write;
  firestore_log : list string
}.

Definition on_redis (f : redis -> redis) (w : world) : world :=
  mk_world (f (redis_of w)) (db_log w) (firestore_log w).

Definition log_db (op : db_write) (w : world) : world :=
  mk_world (redis_of w) (db_log w ++ [op]) (firestore_log w).

Definition log_firestore (field : string) (w : world) : world :=
  mk_world (redis_of w) (db_log w) (firestore_log w ++ [field]).

Local Open Scope eff_scope.

Definition W (R A : Type) := M world R A.

(** [supabase.table(t).insert/upsert/update(...).execute().data] *)
Definition db_exec {R} (e : env) (op : db_write) : W R (list value) :=
  modify (log_db op) ;; lift (db_response e op).

(** [supabase.table(t).select(cols).eq(...).execute().data] *)
Definition db_query {R} (e : env) (table : string) (columns : list string)
    (filters : list (string * value)) : W R (list value) :=
  lift (db_select e table columns filters).

(** ** [fetch_with_retry] *)
Fixpoint fetch_loop (api_call : nat -> result value) (max_retries attempt : nat)
    (fuel : nat) : result value :=
  match fuel with
  | O => Ok VNone
  | S fuel' =>
      match api_call attempt with
      | Ok v => Ok v
      | Err ex =>
          if contains "429" (str_exn ex)
             && Nat.ltb attempt (max_retries - 1)
          then fetch_loop api_call max_retries (S attempt) fuel'
          else Err ex
      end
  end.

Definition fetch_with_retry (api_call : nat -> result value) : result value :=
  fetch_loop api_call 3 0 3.

(** ** [handle_failed_event] *)

(** [a + b], [a - b] and [a * b] on numbers: exact on two [int]s,
    otherwise the float operation on the operands converted to [float]. *)
Definition num_add (e : env) (a b : number) : result number :=
  match a, b with
  | NInt x, NInt y => Ok (NInt (x + y))
  | _, _ =>
      (x <- to_float a ;; y <- to_float b ;;
       Ok (NFloat (float_add e x y)))%result
  end.

Definition num_sub (e : env) (a b : number) : result number :=
  match a, b with
  | NInt x, NInt y => Ok (NInt (x - y))
  | _, _ =>
      (x <- to_float a ;; y <- to_float b ;;
       Ok (NFloat (float_add e x (- y))))%result
  end.

Definition num_mul (e : env) (a b : number) : result number :=
  match a, b with
  | NInt x, NInt y => Ok (NInt (x * y))
  | _, _ =>
      (x <- to_float a ;; y <- to_float b ;;
       Ok (NFloat (float_mul e x y)))%result
  end.

(** [2 ** x]: an [int] for an [int] [x >= 0], otherwise the float power
    of [float(x)]. *)
Definition pow2 (e : env) (x : number) : result number :=
  match x with
  | NInt k =>
      if 0 <=? k then Ok (NInt (2 ^ k))
      else (y <- float_of_int k ;; r <- float_pow2 e y ;;
            Ok (NFloat r))%result
  | NFloat y => (r <- float_pow2 e y ;; Ok (NFloat r))%result
  end.

(** [event_data.get('retry_count', 0) + 1] *)
Definition incr_retry_count (e : env) (event_data : dict) : result value :=
  match as_number (get_default event_data "retry_count" (VInt 0)) with
  | Some c => (c' <- num_add e c (NInt 1) ;; Ok (of_number c'))%result
  | None => Err (Exc "TypeError" "unsupported operand type(s) for +")
  end.

(** Line 93, [RETRY_DELAY * (2 ** (retry_count - 1))] *)
Definition backoff_delay (cfg : config) (e : env) (retry_count : value)
  : result number :=
  match as_number retry_count with
  | Some c =>
      (exponent <- num_sub e c (NInt 1) ;;
       factor <- pow2 e exponent ;;
       num_mul e (RETRY_DELAY cfg) factor)%result
  | None => Err (Exc "TypeError" "unsupported operand type(s) for -")
  end.

(** Line 94, [time.time() + delay] *)
Definition retry_time (e : env) (delay : number) : result Q :=
  (d <- to_float delay ;; Ok (float_add e (time_time e) d))%result.

(** [retry_count <= MAX_RETRIES] *)
Definition within_retries (cfg : config) (retry_count : value) : bool :=
  match to_num retry_count with
  | Some q => Qle_bool q (inject_Z (MAX_RETRIES cfg))
  | None => false
  end.

(** The job record after lines 87-90. *)
Definition mark_failed (e : env) (event_data : dict) (retry_count : value)
    (error : string) : dict :=
  dict_set (dict_set (dict_set event_data "retry_count" retry_count)
                     "last_error" (VStr error))
           "last_retry" (VStr (utcnow_isoformat e)).

(** The job record is passed by value.  The source writes lines 88-90 on
    the caller's dict, which no statement reads again once the call has
    returned; only a handler that catches an exception of lines 93-94
    would find the marks on it, and here starts from the record it was
    given. *)
Definition handle_failed_event {R} (cfg : config) (e : env)
    (event_data : dict) (error : string) : W R unit :=
  retry_count <- lift (incr_retry_count e event_data) ;;
  let event_data := mark_failed e event_data retry_count error in
  if within_retries cfg retry_count then
    delay <- lift (backoff_delay cfg e retry_count) ;;
    retry_at <- lift (retry_time e delay) ;;
    modify (on_redis (zadd_retry_queue (json_dumps e) (VDict event_data)
                        retry_at))
  else
    modify (on_redis (rpush_failed_events (VDict event_data))).

(** The job record after its first [k] failures, the [i]-th of them
    handled in the environment [es i] with the error text [errs i]. *)
Fixpoint record_after (es : nat -> env) (errs : nat -> string) (k : nat)
    (event_data : dict) : result dict :=
  match k with
  | O => Ok event_data
  | S k' =>
      (event_data' <- record_after es errs k' event_data ;;
       retry_count <- incr_retry_count (es k') event_data' ;;
       Ok (mark_failed (es k') event_data' retry_count (errs k')))%result
  end.

(** ** Helpers of the store routines *)

(** [check_socials_exist] *)
Definition check_socials_exist (token_data : dict) : bool :=
  existsb (fun key => truthy (get token_data key))
          ["twitter"; "telegram"; "discord"; "website"].

(** [is_ownership_renounced] *)
Definition is_ownership_renounced (owner_address : value) : bool :=
  match owner_address with
  | VStr s => (lower s =? "0x0000000000000000000000000000000000000000")%string
  | _ => false
  end.

(** [d.update(v)] for a dict [v] *)
Definition py_update (d : dict) (v : value) : result dict :=
  match v with
  | VDict d2 => Ok (dict_update d d2)
  | _ => Err (Exc "TypeError" "object is not iterable")
  end.

(** [rows[0]] of a [.data] *)
Definition first_row (rows : list value) : result value :=
  Gateway.py_first (VList rows).

(** [is_token_renounced]: every exception is caught and gives [False]. *)
Definition is_token_renounced (e : env) (address chain_id : value) : bool :=
  match (blockchain <- convert_chain_id_to_blockchain e chain_id ;;
         checksummed_address <- to_checksum_address e address ;;
         rows <- db_select e "tokens" ["is_renounced"]
                   [("address", checksummed_address);
                    ("blockchain", blockchain)] ;;
         match rows with
         | [] => Ok false
         | row :: _ =>
             r <- py_get row "is_renounced" VNone ;; Ok (truthy r)
         end)%result with
  | Ok b => b
  | Err _ => false
  end.

(** [increment_firestore_counter]: exceptions are caught inside. *)
Definition increment_firestore_counter {R} (e : env) (token_data : dict)
  : W R unit :=
  try_except
    (modify (log_firestore "total_counter") ;;
     lift (firestore_update e "total_counter") ;;
     if Gateway.eq_str (get token_data "risk_level") "High" then
       modify (log_firestore "scams_counter") ;;
       lift (firestore_update e "scams_counter")
     else if Gateway.eq_str (get token_data "risk_level") "Medium" then
       modify (log_firestore "risky_counter") ;;
       lift (firestore_update e "risky_counter")
     else ret tt)
    (fun _ => ret tt).

(** [sum_locked_lp_percent] *)

(** [holder.get('is_locked') == 1] *)
Definition is_locked_holder (is_locked : value) : bool :=
  match to_num is_locked with
  | Some q => Qeq_bool q 1
  | None => false
  end.

(** The percentage a holder adds, [None] for a holder that is not
    locked. *)
Definition holder_locked_percent (e : env) (holder : value)
  : result (option Q) :=
  (is_locked <- py_get holder "is_locked" VNone ;;
   if is_locked_holder is_locked then
     percent <- py_get holder "percent" (VInt 0) ;;
     p <- Filters.py_float (float_of_string e) percent ;;
     Ok (Some p)
   else Ok None)%result.

Fixpoint sum_holders (e : env) (holders : list value) (acc : Q) : result Q :=
  match holders with
  | [] => Ok acc
  | h :: rest =>
      (p <- holder_locked_percent e h ;;
       sum_holders e rest (match p with
                           | Some p => float_add e acc p
                           | None => acc
                           end))%result
  end.

Definition Qmax (a b : Q) : Q := if Qle_bool a b then b else a.

Definition sum_locked_lp_percent (e : env) (raw_results transformed_data : value)
  : Q :=
  match (lp_holders <-
           (if truthy raw_results
            then py_get raw_results "lp_holders" (VList [])
            else Ok (VList [])) ;;
         method_1_percent <-
           (if truthy lp_holders then
              hs <- Gateway.py_iter lp_holders ;;
              s <- sum_holders e hs 0 ;;
              Ok (float_mul e s 100)
            else Ok 0%Q) ;;
         method_2_percent <-
           (if truthy transformed_data && truthy raw_results then
              lock_amount <- py_get transformed_data "amount" VNone ;;
              total_supply <- py_get raw_results "lp_total_supply" VNone ;;
              if truthy lock_amount && truthy total_supply then
                match (la <- Filters.py_float (float_of_string e) lock_amount ;;
                       ts <- Filters.py_float (float_of_string e) total_supply ;;
                       Ok (la, ts)) with
                | Ok (la, ts) =>
                    if Filters.Qlt_bool 0 ts
                    then Ok (float_mul e (float_div e la ts) 100)
                    else Ok 0%Q
                | Err ex =>          (* except (ValueError, TypeError) *)
                    if (exn_class ex =? "ValueError")%string
                       || (exn_class ex =? "TypeError")%string
                    then Ok 0%Q else Err ex
                end
              else Ok 0%Q
            else Ok 0%Q) ;;
         Ok (Qmax method_2_percent method_1_percent))%result with
  | Ok q => q
  | Err _ => 0%Q
  end.

(** ** The store routines *)

Definition set_if_truthy (d : dict) (k : string) (v : value) : dict :=
  if truthy v then dict_set d k v else d.

Definition is_None (v : value) : bool :=
  match v with
  | VNone => true
  | _ => false
  end.

(** [rows[0]['id']] *)
Definition first_id (rows : list value) : result value :=
  (row <- first_row rows ;; py_item row "id")%result.

Definition socials_row (token_data : dict) : dict :=
  [("website", get token_data "website");
   ("twitter", get token_data "twitter");
   ("telegram", get token_data "telegram");
   ("discord", get token_data "discord")].

Definition audit_row (token_data : dict) : dict :=
  [("detailed_audit_results", get token_data "detailed_audit");
   ("raw_results", get token_data "raw_results")].

(** Lines 676-743 of [store_new_token_in_supabase]; lines 864-929 of
    [store_new_pair_data_in_supabase] are the same statements.  The ids a
    stored token already links are copied first, and a child row that has
    an id is updated in place. *)
Definition link_child_records {R} (e : env) (token_data : dict)
    (supabase_token_data : dict) (address blockchain : value) : W R dict :=
  existing_token_result <-
    db_query e "tokens" ["gpl_audit_id"; "source_code_id"; "token_information_id"]
             [("address", address); ("blockchain", blockchain)] ;;
  supabase_token_data <-
    (if truthy (VList existing_token_result) then
       existing_token_data <- lift (first_row existing_token_result) ;;
       source_code_id <- lift (py_get existing_token_data "source_code_id" VNone) ;;
       let d := set_if_truthy supabase_token_data "source_code_id" source_code_id in
       gpl_audit_id <- lift (py_get existing_token_data "gpl_audit_id" VNone) ;;
       let d := set_if_truthy d "gpl_audit_id" gpl_audit_id in
       token_information_id <-
         lift (py_get existing_token_data "token_information_id" VNone) ;;
       ret (set_if_truthy d "token_information_id" token_information_id)
     else ret supabase_token_data) ;;
  (* source code *)
  supabase_token_data <-
    (if truthy (get supabase_token_data "contract_verified")
        && is_None (get supabase_token_data "source_code_id") then
       source_code_result <-
         db_exec e (Upsert "source_code" [("code", get token_data "source_code")]) ;;
       if truthy (VList source_code_result) then
         id <- lift (first_id source_code_result) ;;
         ret (dict_set supabase_token_data "source_code_id" id)
       else ret supabase_token_data
     else ret supabase_token_data) ;;
  (* socials *)
  supabase_token_data <-
    (if check_socials_exist token_data then
       if truthy (get supabase_token_data "token_information_id") then
         id <- lift (subscript supabase_token_data "token_information_id") ;;
         db_exec e (Update "token_information"
                      (dict_set (socials_row token_data) "updated_at"
                                (VStr (now_isoformat e)))
                      [("id", id)]) ;;
         ret supabase_token_data
       else
         info_result <- db_exec e (Upsert "token_information" (socials_row token_data)) ;;
         if truthy (VList info_result) then
           id <- lift (first_id info_result) ;;
           ret (dict_set supabase_token_data "token_information_id" id)
         else ret supabase_token_data
     else ret supabase_token_data) ;;
  (* audit *)
  if truthy (get token_data "raw_results") then
    if truthy (get supabase_token_data "gpl_audit_id") then
      id <- lift (subscript supabase_token_data "gpl_audit_id") ;;
      db_exec e (Update "gpl_audit"
                   (dict_set (audit_row token_data) "updated_at"
                             (VStr (now_isoformat e)))
                   [("id", id)]) ;;
      ret supabase_token_data
    else
      audit_result <- db_exec e (Upsert "gpl_audit" (audit_row token_data)) ;;
      if truthy (VList audit_result) then
        id <- lift (first_id audit_result) ;;
        ret (dict_set supabase_token_data "gpl_audit_id" id)
      else ret supabase_token_data
  else ret supabase_token_data.

(** Lines 745-761 (and 931-947): insert, on a unique violation update.
    [return None] of the source is [return_ none]. *)
Definition insert_or_update_token {R} (e : env) (none : R)
    (supabase_token_data : dict) (address blockchain : value) : W R value :=
  token_result <-
    try_except
      (token_result <- db_exec e (Insert "tokens" supabase_token_data) ;;
       when (negb (truthy (VList token_result))) (return_ none) ;;
       ret token_result)
      (fun ex =>
         match ex with
         | APIError code _ =>
             if (code =? "23505")%string then
               let supabase_token_data :=
                 dict_set supabase_token_data "updated_at"
                          (VStr (now_isoformat e)) in
               token_result <-
                 db_exec e (Update "tokens" supabase_token_data
                              [("address", address); ("blockchain", blockchain)]) ;;
               when (negb (truthy (VList token_result))) (return_ none) ;;
               ret token_result
             else raise ex
         | _ => raise ex
         end) ;;
  row <- lift (first_row token_result) ;;
  lift (py_item row "address").

(** [store_new_token_in_supabase] *)
Definition store_new_token_in_supabase (e : env) (token_data : dict)
  : world -> result value * world :=
  let supabase_token_data :=
    [("address", get token_data "address");
     ("blockchain", get token_data "blockchain");
     ("block_number", get token_data "block_number");
     ("name", get token_data "name");
     ("symbol", get token_data "symbol");
     ("classification", get token_data "classification");
     ("classification_certainty", get token_data "classification_certainty");
     ("contract_verified", get token_data "contract_verified");
     ("creator_address", get token_data "creator_address");
     ("creator_percent", get token_data "creator_percent");
     ("risk_level", get token_data "risk_level");
     ("is_scam", get token_data "is_scam");
     ("buy_tax", get token_data "buy_tax");
     ("sell_tax", get token_data "sell_tax");
     ("creator_security", get token_data "creator_security")] in
  call VNone
    (try_except
       (let address := get supabase_token_data "address" in
        let blockchain := get supabase_token_data "blockchain" in
        when (negb (truthy address) || negb (truthy blockchain))
             (return_ VNone) ;;
        supabase_token_data <-
          link_child_records e token_data supabase_token_data address blockchain ;;
        a <- insert_or_update_token e VNone supabase_token_data address blockchain ;;
        return_ a)
       (fun _ => return_ VNone)).

(** [store_new_pair_data_in_supabase]; it sets [is_renounced] on the
    caller's [token_data], so the token data comes back with the result. *)
Definition store_new_pair_data_in_supabase (e : env) (token_data : dict)
  : world -> result (dict * value) * world :=
  call (token_data, VNone)
    (address0 <- lift (subscript token_data "address") ;;
     chain_id <- lift (subscript token_data "chain_id") ;;
     let token_data :=
       if is_token_renounced e address0 chain_id
       then dict_set token_data "is_renounced" (VBool true) else token_data in
     let supabase_token_data :=
       [("address", get token_data "address");
        ("blockchain", get token_data "blockchain");
        ("block_number", get token_data "block_number");
        ("name", get token_data "name");
        ("symbol", get token_data "symbol");
        ("classification", get token_data "classification");
        ("classification_certainty", get token_data "classification_certainty");
        ("contract_verified", get token_data "contract_verified");
        ("creator_address", get token_data "creator_address");
        ("creator_percent", get token_data "creator_percent");
        ("risk_level", get token_data "risk_level");
        ("buy_tax", get token_data "buy_tax");
        ("sell_tax", get token_data "sell_tax");
        ("dex_pair", get token_data "dex_pair");
        ("is_renounced", get token_data "is_renounced");
        ("liquidity_locked", get token_data "locked_lp");
        ("creator_security", get token_data "creator_security")] in
     try_except
       (let address := get supabase_token_data "address" in
        let blockchain := get supabase_token_data "blockchain" in
        let supabase_token_data :=
          set_if_truthy supabase_token_data "is_scam" (get token_data "is_scam") in
        when (negb (truthy address) || negb (truthy blockchain))
             (return_ (token_data, VNone)) ;;
        supabase_token_data <-
          link_child_records e token_data supabase_token_data address blockchain ;;
        a <- insert_or_update_token e (token_data, VNone) supabase_token_data
               address blockchain ;;
        return_ (token_data, a))
       (fun _ => return_ (token_data, VNone))).

(** [update_pair_data_in_supabase]; no exception is caught here. *)
Definition update_pair_data_in_supabase (e : env) (token_data : dict)
    (source_code_id gpl_audit_id token_information_id : value)
  : world -> result (dict * value) * world :=
  call (token_data, VNone)
    (address0 <- lift (subscript token_data "address") ;;
     chain_id <- lift (subscript token_data "chain_id") ;;
     let token_data :=
       if is_token_renounced e address0 chain_id
       then dict_set token_data "is_renounced" (VBool true) else token_data in
     let supabase_token_data :=
       [("block_number", get token_data "block_number");
        ("contract_verified", get token_data "contract_verified");
        ("creator_percent", get token_data "creator_percent");
        ("risk_level", get token_data "risk_level");
        ("is_scam", get token_data "is_scam");
        ("buy_tax", get token_data "buy_tax");
        ("sell_tax", get token_data "sell_tax");
        ("dex_pair", get token_data "dex_pair");
        ("is_renounced", get token_data "is_renounced");
        ("liquidity_locked", get token_data "locked_lp");
        ("updated_at", VStr (now_isoformat e))] in
     let supabase_token_data :=
       set_if_truthy supabase_token_data "source_code_id" source_code_id in
     let supabase_token_data :=
       set_if_truthy supabase_token_data "gpl_audit_id" gpl_audit_id in
     let supabase_token_data :=
       set_if_truthy supabase_token_data "token_information_id"
                     token_information_id in
     let address := get token_data "address" in
     blockchain <- lift (convert_chain_id_to_blockchain e (get token_data "chain_id")) ;;
     when (negb (truthy address) || negb (truthy blockchain))
          (return_ (token_data, VNone)) ;;
     (* source code, when none was linked and the contract is verified *)
     supabase_token_data <-
       (if negb (truthy source_code_id)
           && truthy (get token_data "contract_verified") then
          source_code_result <-
            db_exec e (Upsert "source_code"
                         [("code", get token_data "source_code")]) ;;
          if truthy (VList source_code_result) then
            id <- lift (first_id source_code_result) ;;
            ret (dict_set supabase_token_data "source_code_id" id)
          else ret supabase_token_data
        else ret supabase_token_data) ;;
     (* token information, when none was linked and socials exist *)
     supabase_token_data <-
       (if negb (truthy token_information_id)
           && check_socials_exist token_data then
          info_result <-
            db_exec e (Upsert "token_information" (socials_row token_data)) ;;
          if truthy (VList info_result) then
            id <- lift (first_id info_result) ;;
            ret (dict_set supabase_token_data "token_information_id" id)
          else ret supabase_token_data
        else ret supabase_token_data) ;;
     (* audit: the test reads the key 'gpl_audit_results' (line 1020) *)
     supabase_token_data <-
       (if truthy (get token_data "raw_results") then
          if truthy (get supabase_token_data "gpl_audit_results") then
            id <- lift (subscript supabase_token_data "gpl_audit_id") ;;
            db_exec e (Update "gpl_audit"
                         (dict_set (audit_row token_data) "updated_at"
                                   (VStr (now_isoformat e)))
                         [("id", id)]) ;;
            ret supabase_token_data
          else
            audit_result <-
              db_exec e (Upsert "gpl_audit" (audit_row token_data)) ;;
            if truthy (VList audit_result) then
              id <- lift (first_id audit_result) ;;
              ret (dict_set supabase_token_data "gpl_audit_id" id)
            else ret supabase_token_data
        else ret supabase_token_data) ;;
     let supabase_token_data :=
       dict_set supabase_token_data "updated_at" (VStr (now_isoformat e)) in
     token_result <-
       db_exec e (Update "tokens" supabase_token_data
                    [("address", address); ("blockchain", blockchain)]) ;;
     row <- lift (first_row token_result) ;;
     a <- lift (py_item row "address") ;;
     return_ (token_data, a)).

(** [update_renounced_status_in_supabase]: logs and re-raises. *)
Definition update_renounced_status_in_supabase (e : env)
    (token_address chain_id : value) : world -> result value * world :=
  call VNone
    (blockchain <- lift (convert_chain_id_to_blockchain e chain_id) ;;
     address <- lift (to_checksum_address e token_address) ;;
     rows <- db_exec e (Update "tokens"
                          [("is_renounced", VBool true);
                           ("updated_at", VStr (now_isoformat e))]
                          [("address", address); ("blockchain", blockchain)]) ;;
     if truthy (VList rows) then
       row <- lift (first_row rows) ;;
       a <- lift (py_item row "address") ;;
       return_ a
     else return_ VNone).

(** ** The enrichment steps shared by the event handlers *)

Definition or_empty (v : value) : value :=
  if truthy v then v else VDict [].

(** The source-code step (lines 131-141, 254-263, 319-328, 453-462): on
    any exception [contract_verified] is set to [False]; what was merged
    before the exception stays. *)
Definition refresh_source_code (e : env) (address : value) (token_data : dict)
  : dict :=
  match fetch_with_retry (get_contract_source_code e address) with
  | Err _ => dict_set token_data "contract_verified" (VBool false)
  | Ok source_code_info =>
      match py_update token_data (or_empty source_code_info) with
      | Err _ => dict_set token_data "contract_verified" (VBool false)
      | Ok token_data =>
          if truthy (get token_data "contract_verified")
             && truthy (get token_data "source_code") then
            match (social_results <-
                     get_token_socials e (get token_data "source_code") ;;
                   py_update token_data social_results)%result with
            | Ok token_data' => token_data'
            | Err _ => dict_set token_data "contract_verified" (VBool false)
            end
          else token_data
      end
  end.

(** The audit step of an already stored token (lines 266-286 and 465-487);
    exceptions are logged only. *)
Definition refresh_security (e : env) (event_type : string)
    (transformed_data : value) (token_data : dict) : dict :=
  match fetch_with_retry
          (get_eth_token_security_info e (get token_data "address")
             (get_default token_data "contract_verified" (VBool false))
             event_type) with
  | Err _ => token_data
  | Ok security_info =>
      match py_update token_data (or_empty security_info) with
      | Err _ => token_data
      | Ok token_data =>
          match (raw_results <- subscript token_data "raw_results" ;;
                 py_get raw_results "owner_address" VNone)%result with
          | Err _ => token_data
          | Ok owner_address =>
              let token_data :=
                dict_set token_data "is_renounced"
                         (VBool (is_ownership_renounced owner_address)) in
              dict_set token_data "locked_lp"
                (VFloat (sum_locked_lp_percent e (get token_data "raw_results")
                           transformed_data))
          end
      end
  end.

(** Step 4 of [process_new_token] (lines 156-164). *)
Definition classify (e : env) (token_data : dict) : dict :=
  match (name <- subscript token_data "name" ;;
         symbol <- subscript token_data "symbol" ;;
         get_token_classification e name symbol)%result with
  | Ok (classification, certainty) =>
      dict_set (dict_set token_data "classification" classification)
               "classification_certainty" certainty
  | Err _ => token_data
  end.

(** [rpush('notification_queue', json.dumps({...}))] *)
Definition notify {R} (event_type : string) (token_data : dict) : W R unit :=
  modify (on_redis (rpush_notification_queue
                      (VDict [("event_type", VStr event_type);
                              ("token_data", VDict token_data)]))).

(** ** [process_new_token] *)
Definition process_new_token (cfg : config) (e : env) (event_data : dict)
  : world -> result value * world :=
  call VNone
    (try_except
       (chain_id <- lift (subscript event_data "chain_id") ;;
        block_number <- lift (subscript event_data "block_number") ;;
        event_id <- lift (subscript event_data "event_id") ;;
        let token_data :=
          [("chain_id", chain_id); ("block_number", block_number);
           ("event_type", VStr "new_token"); ("event_id", event_id)] in
        blockchain <- lift (convert_chain_id_to_blockchain e chain_id) ;;
        let token_data := dict_set token_data "blockchain" blockchain in
        lift (initialize_infura_web3_object e blockchain) ;;
        raw_address <- lift (subscript event_data "address") ;;
        address <- lift (to_checksum_address e raw_address) ;;
        let token_data := dict_set token_data "address" address in
        (* Step 1 *)
        basic_info <- lift (fetch_with_retry (get_eth_contract_info e address)) ;;
        when (negb (truthy basic_info)) (return_ (VBool true)) ;;
        token_data <- lift (py_update token_data basic_info) ;;
        (* Step 2 *)
        let token_data := refresh_source_code e address token_data in
        (* Step 3 *)
        let token_data :=
          match (security_info <-
                   fetch_with_retry
                     (get_eth_token_security_info e address
                        (get_default token_data "contract_verified" (VBool false))
                        "new_token") ;;
                 py_update token_data security_info)%result with
          | Ok token_data' => token_data'
          | Err _ => token_data
          end in
        (* Step 4 *)
        let token_data := classify e token_data in
        (* Step 5 *)
        increment_firestore_counter e token_data ;;
        supabase_result <-
          gathered (store_new_token_in_supabase e token_data) ;;
        match supabase_result with
        | Err ex =>
            handle_failed_event cfg e event_data (str_exn ex) ;;
            return_ (VBool false)
        | Ok _ =>
            (* Step 6 *)
            when (negb (truthy (get token_data "is_scam")))
                 (notify "new_token" token_data) ;;
            return_ (VBool true)
        end)
       (fun ex =>
          handle_failed_event cfg e event_data (str_exn ex) ;;
          return_ (VBool false))).

(** ** [process_new_pair] *)

(** Lines 244-306: the token is stored and not a scam. *)
Definition update_existing_pair (cfg : config) (e : env) (event_data : dict)
    (event_type : string) (transformed_data : value)
    (token_data : dict) (existing_data : value) : W value dict :=
  source_code_id <- lift (py_get existing_data "source_code_id" VNone) ;;
  let token_data :=
    if negb (truthy source_code_id)
    then refresh_source_code e (get token_data "address") token_data
    else token_data in
  let token_data := refresh_security e event_type transformed_data token_data in
  try_except
    (gpl_audit_id <- lift (py_get existing_data "gpl_audit_id" VNone) ;;
     token_information_id <-
       lift (py_get existing_data "token_information_id" VNone) ;;
     r <- of_call (update_pair_data_in_supabase e token_data source_code_id
                     gpl_audit_id token_information_id) ;;
     let '(token_data, supabase_result) := r in
     when (negb (truthy supabase_result))
          (handle_failed_event cfg e event_data "Failed to update pair data" ;;
           return_ (VBool false)) ;;
     ret token_data)
    (fun ex =>
       handle_failed_event cfg e event_data (str_exn ex) ;;
       return_ (VBool false)).

(** Lines 309-385: the token is not stored yet. *)
Definition store_fresh_pair (cfg : config) (e : env) (event_data : dict)
    (token_data : dict) : W value dict :=
  basic_info <-
    lift (fetch_with_retry (get_eth_contract_info e (get token_data "address"))) ;;
  when (negb (truthy basic_info)) (return_ (VBool true)) ;;
  token_data <- lift (py_update token_data basic_info) ;;
  let token_data := refresh_source_code e (get token_data "address") token_data in
  let token_data :=
    match fetch_with_retry
            (get_eth_token_security_info e (get token_data "address")
               (get_default token_data "contract_verified" (VBool false))
               "new_pair") with
    | Err _ => token_data
    | Ok security_info =>
        match py_update token_data security_info with
        | Err _ => token_data
        | Ok token_data =>
            match (name <- subscript token_data "name" ;;
                   symbol <- subscript token_data "symbol" ;;
                   get_token_classification e name symbol)%result with
            | Err _ => token_data
            | Ok (classification, certainty) =>
                let token_data :=
                  dict_set (dict_set token_data "classification" classification)
                           "classification_certainty" certainty in
                match (raw_results <- py_get security_info "raw_results" VNone ;;
                       if truthy raw_results then
                         owner_address <- py_get raw_results "owner_address" VNone ;;
                         Ok (Some (raw_results, owner_address))
                       else Ok None)%result with
                | Ok (Some (raw_results, owner_address)) =>
                    let token_data :=
                      dict_set token_data "is_renounced"
                        (VBool (if truthy owner_address
                                then is_ownership_renounced owner_address
                                else false)) in
                    dict_set token_data "locked_lp"
                      (VFloat (sum_locked_lp_percent e raw_results VNone))
                | _ => token_data
                end
            end
        end
    end in
  try_except
    (increment_firestore_counter e token_data ;;
     r <- of_call (store_new_pair_data_in_supabase e token_data) ;;
     let '(token_data, supabase_result) := r in
     when (negb (truthy supabase_result))
          (raise (Exc "Exception" "Failed to store new pair data")) ;;
     ret token_data)
    (fun ex =>
       handle_failed_event cfg e event_data (str_exn ex) ;;
       return_ (VBool false)).

Definition hydrate (token_data : dict) (existing_data : value) : result dict :=
  (name <- py_get existing_data "name" VNone ;;
   symbol <- py_get existing_data "symbol" VNone ;;
   classification <- py_get existing_data "classification" VNone ;;
   certainty <- py_get existing_data "classification_certainty" VNone ;;
   contract_verified <- py_get existing_data "contract_verified" VNone ;;
   Ok (dict_update token_data
         [("name", name); ("symbol", symbol);
          ("classification", classification);
          ("classification_certainty", certainty);
          ("contract_verified", contract_verified)]))%result.

Definition process_new_pair (cfg : config) (e : env) (event_data : dict)
  : world -> result value * world :=
  call VNone
    (try_except
       (chain_id <- lift (subscript event_data "chain_id") ;;
        block_number <- lift (subscript event_data "block_number") ;;
        event_id <- lift (subscript event_data "event_id") ;;
        pair_address <- lift (subscript event_data "pair_address") ;;
        let token_data :=
          [("chain_id", chain_id); ("block_number", block_number);
           ("event_type", VStr "new_pair"); ("event_id", event_id);
           ("dex_pair", pair_address)] in
        blockchain <- lift (convert_chain_id_to_blockchain e chain_id) ;;
        let token_data := dict_set token_data "blockchain" blockchain in
        lift (initialize_infura_web3_object e blockchain) ;;
        token_address <- lift (subscript event_data "token_address") ;;
        address <- lift (to_checksum_address e token_address) ;;
        let token_data := dict_set token_data "address" address in
        existing_token <-
          db_query e "tokens"
            ["name"; "symbol"; "contract_verified"; "classification";
             "classification_certainty"; "is_scam"; "source_code_id";
             "gpl_audit_id"; "token_information_id"]
            [("address", address); ("blockchain", blockchain)] ;;
        token_data <-
          (if truthy (VList existing_token) then
             existing_data <- lift (first_row existing_token) ;;
             is_scam <- lift (py_get existing_data "is_scam" VNone) ;;
             when (truthy is_scam) (return_ (VBool true)) ;;
             token_data <- lift (hydrate token_data existing_data) ;;
             update_existing_pair cfg e event_data "new_pair" VNone
                                  token_data existing_data
           else store_fresh_pair cfg e event_data token_data) ;;
        when (negb (truthy (get token_data "is_scam")))
             (notify "new_pair" token_data) ;;
        return_ (VBool true))
       (fun ex =>
          handle_failed_event cfg e event_data (str_exn ex) ;;
          return_ (VBool false))).

(** ** [process_lock_lp] *)

(** Lines 408-409: [event_data.get('transformed_data', {}).get('lp_token')] *)
Definition lp_token_of (event_data : dict) : result value :=
  py_get (get_default event_data "transformed_data" (VDict [])) "lp_token" VNone.

Definition process_lock_lp (cfg : config) (e : env) (event_data : dict)
  : world -> result value * world :=
  call VNone
    (try_except
       (lp_token <- lift (lp_token_of event_data) ;;
        when (negb (truthy lp_token)) (return_ (VBool false)) ;;
        chain_id <- lift (subscript event_data "chain_id") ;;
        blockchain <- lift (convert_chain_id_to_blockchain e chain_id) ;;
        existing_token <-
          db_query e "tokens"
            ["address"; "name"; "symbol"; "contract_verified"; "classification";
             "classification_certainty"; "is_scam"; "source_code_id";
             "gpl_audit_id"; "token_information_id"]
            [("dex_pair", lp_token); ("blockchain", blockchain)] ;;
        when (negb (truthy (VList existing_token))) (return_ (VBool true)) ;;
        existing_data <- lift (first_row existing_token) ;;
        is_scam <- lift (py_get existing_data "is_scam" VNone) ;;
        when (truthy is_scam) (return_ (VBool true)) ;;
        block_number <- lift (subscript event_data "block_number") ;;
        event_id <- lift (subscript event_data "event_id") ;;
        let token_data :=
          [("chain_id", chain_id); ("block_number", block_number);
           ("event_type", VStr "lock_lp"); ("event_id", event_id);
           ("dex_pair", lp_token); ("blockchain", blockchain)] in
        address <- lift (py_get existing_data "address" VNone) ;;
        let token_data := dict_set token_data "address" address in
        token_data <- lift (hydrate token_data existing_data) ;;
        token_data <-
          update_existing_pair cfg e event_data "lock_lp"
            (get event_data "transformed_data") token_data existing_data ;;
        when (negb (truthy (get token_data "is_scam")))
             (notify "lock_lp" token_data) ;;
        return_ (VBool true))
       (fun ex =>
          handle_failed_event cfg e event_data (str_exn ex) ;;
          return_ (VBool false))).

(** ** [process_ownership_renounced] *)
Definition process_ownership_renounced (cfg : config) (e : env)
    (event_data : dict) : world -> result value * world :=
  call VNone
    (try_except
       (token_address <- lift (subscript event_data "token_address") ;;
        chain_id <- lift (subscript event_data "chain_id") ;;
        try_except
          (result <- of_call (update_renounced_status_in_supabase e
                                token_address chain_id) ;;
           when (negb (truthy result)) (return_ (VBool true)) ;;
           return_ (VBool true))
          (fun ex =>
             handle_failed_event cfg e event_data (str_exn ex) ;;
             return_ (VBool false)))
       (fun ex =>
          handle_failed_event cfg e event_data (str_exn ex) ;;
          return_ (VBool false))).

(** ** [process_webhook]: dispatch on the event type *)
Definition process_webhook (cfg : config) (e : env) (event_data : dict)
  : world -> result value * world :=
  call VNone
    (try_except
       (let event_type := get event_data "event_type" in
        if Gateway.eq_str event_type "new_token" then
          r <- of_call (process_new_token cfg e event_data) ;; return_ r
        else if Gateway.eq_str event_type "new_pair" then
          r <- of_call (process_new_pair cfg e event_data) ;; return_ r
        else if Gateway.eq_str event_type "lock_lp" then
          r <- of_call (process_lock_lp cfg e event_data) ;; return_ r
        else if Gateway.eq_str event_type "ownership_renounced" then
          r <- of_call (process_ownership_renounced cfg e event_data) ;;
          return_ r
        else return_ (VBool false))
       (fun ex =>
          handle_failed_event cfg e event_data (str_exn ex) ;;
          return_ (VBool false))).

(** ** [process_retry_queue] and the worker loop *)

(** [json.loads(event_json)] followed by [event_data.get(...)]: the queued
    text must be an object. *)
Definition as_job (v : value) : result dict :=
  match v with
  | VDict d => Ok d
  | _ => Err (Exc "AttributeError" "object has no attribute 'get'")
  end.

(** [for event_json in ready_events: ... await process_webhook(event_data)];
    the [i]-th job meets the environment [envs i]. *)
Fixpoint retry_each (cfg : config) (envs : nat -> env) (i : nat)
    (ready_events : list value) : W unit unit :=
  match ready_events with
  | [] => ret tt
  | event_json :: rest =>
      event_data <- lift (as_job event_json) ;;
      of_call (process_webhook cfg (envs i) event_data) ;;
      retry_each cfg envs (S i) rest
  end.

(** [process_retry_queue]; [now] is its reading of [time.time()]. *)
Definition process_retry_queue (cfg : config) (now : Q) (envs : nat -> env)
  : world -> result unit * world :=
  call tt
    (fun w =>
       let ready_events := zrangebyscore_retry_queue 0 now (redis_of w) in
       (if truthy (VList ready_events) then
          modify (on_redis (zremrangebyscore_retry_queue 0 now)) ;;
          retry_each cfg envs 0 ready_events
        else ret tt) w).


(** The job, as a failure whose count was [n] records it, is in the retry
    set or in the dead-letter list. *)
Definition routed (e : env) (event_data : dict) (n : Z) (w : world) : Prop :=
  exists error,
    let failed := VDict (mark_failed e event_data (VInt (n + 1)) error) in
    In failed (map fst (retry_queue (redis_of w)))
    \/ In failed (failed_events (redis_of w)).

End Worker.

(* ===================================================================== *)
(** * Concrete configurations, payloads and jobs used below *)
(* ===================================================================== *)

Module Examples.

(** Payload texts are written with an apostrophe where the JSON text has a
    double quote. *)
Fixpoint dq (s : string) : string :=
  match s with
  | EmptyString => EmptyString
  | String c r =>
      String (if Ascii.eqb c "'" then ascii_of_nat 34 else c) (dq r)
  end.

Definition bytes (s : string) : list Byte.byte := list_byte_of_string (dq s).

(** A [set] listed in order of first occurrence. *)
Fixpoint first_seen (l : list value) : list value :=
  match l with
  | [] => []
  | x :: r => x :: filter (fun y => negb (value_eqb x y)) (first_seen r)
  end.

Definition gateway_cfg : Gateway.config :=
  Gateway.mk_config false "s3cret"
    "0x8be0079c531659141344cd1fd0a4f28419497f9722a3daafe3b4186f6b6457e0"
    "0x0d3648bd0f6ba80134a33ba9275ac585d9d315f0ad8355cddefde31afa28d0e9"
    "0x8af416f6"
    ["0x0000000000000000000000000000000000000000";
     "0x000000000000000000000000000000000000dEaD"].

(** On the numbers of the examples the sums, products and quotients are
    doubles, so the float operations are the exact ones there. *)
Definition gateway_env : Gateway.env :=
  Gateway.mk_env (fun _ => Ok VNone) (fun s => Ok s)
    (fun _ => "1700000000.0") (fun _ => "2023-11-14T22:13:20")
    (fun _ => "") first_seen
    (fun a b => Ok (Qred (inject_Z a / inject_Z b))).

(** An empty JSON object, correctly signed. *)
Definition empty_object_request : Gateway.request :=
  Gateway.mk_request
    (Some "99da121113dc6055bd953d8912e36b23664a6fa306e61bd3f2d73884e669d18d")
    (bytes "{}") (Ok (VDict [])).



(** The same body with the same digest written in upper case. *)
Definition upper_case_request : Gateway.request :=
  Gateway.mk_request
    (Some "99DA121113DC6055BD953D8912E36B23664A6FA306E61BD3F2D73884E669D18D")
    (bytes "{}") (Ok (VDict [])).

(** A confirmed [LockLPToken] call whose input carries the selector, the
    LP token and a non-zero amount, and stops there. *)
Definition short_lock_input : string :=
  "0x8af416f6"
  ++ "000000000000000000000000a478c2975ab1ea89e8196811f51a7b7ade33eb11"
  ++ "0000000000000000000000000000000000000000000000000de0b6b3a7640000".

Definition short_lock_payload : dict :=
  [("confirmed", VBool true);
   ("abi", VList [VDict [("name", VStr "LockLPToken")]]);
   ("txs", VList [VDict [("input", VStr short_lock_input)]])].

Definition short_lock_request : Gateway.request :=
  Gateway.mk_request
    (Some "c928f08c47ae8d0a5ef8683663605fcc0d8fa4ca3c4d35a82c551a7d53c3c578")
    (bytes ("{'confirmed':true,'abi':[{'name':'LockLPToken'}],'txs':[{'input':'"
            ++ short_lock_input ++ "'}]}"))
    (Ok (VDict short_lock_payload)).

(** A confirmed ownership transfer to an ordinary owner, with three logs
    over two addresses. *)
Definition transfer_payload : dict :=
  [("confirmed", VBool true);
   ("id", VStr "evt1");
   ("chainId", VStr "0x1");
   ("block", VDict [("number", VStr "100")]);
   ("logs",
    VList
      [VDict [("address", VStr "0xaaa");
              ("topic0", VStr (Gateway.OWNERSHIP_TRANSFERRED_SIGNATURE gateway_cfg));
              ("topic2", VStr "0x0000000000000000000000001111111111111111111111111111111111111111")];
       VDict [("address", VStr "0xbbb")];
       VDict [("address", VStr "0xaaa")]])].

Definition transfer_request : Gateway.request :=
  Gateway.mk_request
    (Some "804aa827b00a0b0485fedb8125e066514b9f5cb35ffba1512877e217a582a6ca")
    (bytes ("{'confirmed':true,'id':'evt1','chainId':'0x1',"
            ++ "'block':{'number':'100'},'logs':[{'address':'0xaaa','topic0':'"
            ++ Gateway.OWNERSHIP_TRANSFERRED_SIGNATURE gateway_cfg
            ++ "','topic2':'0x0000000000000000000000001111111111111111111111111111111111111111'},"
            ++ "{'address':'0xbbb'},{'address':'0xaaa'}]}"))
    (Ok (VDict transfer_payload)).

(** *** The worker *)

Definition worker_cfg : Worker.config := Worker.mk_config 3 (NInt 60).

(** The member text of a job in the examples: its [event_id]. *)
Definition job_text (v : value) : string :=
  match py_get v "event_id" (VStr "") with
  | Ok (VStr s) => s
  | _ => ""
  end.

(** A token row as the store returns it. *)
Definition token_row (is_scam : bool) : dict :=
  [("address", VStr "0xToken");
   ("name", VStr "Token"); ("symbol", VStr "TKN");
   ("contract_verified", VBool true);
   ("classification", VStr "Memecoins");
   ("classification_certainty", VFloat 0.9);
   ("is_scam", VBool is_scam);
   ("is_renounced", VBool false);
   ("source_code_id", VStr "src-1");
   ("gpl_audit_id", VStr "audit-1");
   ("token_information_id", VStr "info-1")].

Definition audit_answer : value :=
  VDict [("risk_level", VStr "Low");
         ("is_scam", VBool false);
         ("detailed_audit", VStr "ok");
         ("raw_results", VDict [("owner_address", VStr "0xowner")])].

(** An environment in which every collaborator answers; the store holds
    [rows] for the token, gives a new child record the id [audit-2], and
    returns the token row for an insert or update of [tokens]. *)
Definition worker_env (rows : list value) : Worker.env :=
  Worker.mk_env 1700000000 "2023-11-14T22:13:20" "2023-11-14T22:13:20+00:00"
    Qplus Qmult Qdiv (fun _ => Ok 1%Q) (fun _ => None) job_text
    (fun _ => Ok (VStr "ethereum"))
    (fun _ => Ok tt)
    (fun a => Ok a)
    (fun _ _ => Ok (VDict [("name", VStr "Token"); ("symbol", VStr "TKN")]))
    (fun _ _ => Ok (VDict []))
    (fun _ => Ok (VDict []))
    (fun _ _ _ _ => Ok audit_answer)
    (fun _ _ => Ok (VStr "Memecoins", VFloat 0.9))
    (fun _ _ _ => Ok rows)
    (fun op =>
       match op with
       | Worker.Upsert _ _ => Ok [VDict [("id", VStr "audit-2")]]
       | _ => Ok [VDict [("address", VStr "0xToken")]]
       end)
    (fun _ => Ok tt).

Definition world0 : Worker.world := Worker.mk_world Redis.empty [] [].

Definition new_pair_job : dict :=
  [("event_id", VStr "evt2"); ("event_type", VStr "new_pair");
   ("chain_id", VStr "0x1"); ("block_number", VStr "101");
   ("token_address", VStr "0xToken"); ("pair_address", VStr "0xPair");
   ("retry_count", VInt 0)].

(** A [lock_lp] job that carries no decoded lock data. *)
Definition bare_lock_lp_job : dict :=
  [("event_id", VStr "evt3"); ("event_type", VStr "lock_lp");
   ("chain_id", VStr "0x1"); ("block_number", VStr "102");
   ("retry_count", VInt 0)].

(** A job of a type the worker does not know. *)
Definition unknown_job : dict :=
  [("event_id", VStr "evt4"); ("event_type", VStr "token_burn");
   ("chain_id", VStr "0x1"); ("retry_count", VInt 0)].

Definition renounced_job : dict :=
  [("event_id", VStr "evt5_0xToken"); ("event_type", VStr "ownership_renounced");
   ("chain_id", VStr "0x1"); ("block_number", VStr "103");
   ("token_address", VStr "0xToken"); ("retry_count", VInt 1)].

(** A store that cannot be reached. *)
Definition failing_env : Worker.env :=
  Worker.mk_env 1700000000 "2023-11-14T22:13:20" "2023-11-14T22:13:20+00:00"
    Qplus Qmult Qdiv (fun _ => Ok 1%Q) (fun _ => None) job_text
    (fun _ => Ok (VStr "ethereum"))
    (fun _ => Ok tt)
    (fun a => Ok a)
    (fun _ _ => Ok VNone)
    (fun _ _ => Ok (VDict []))
    (fun _ => Ok (VDict []))
    (fun _ _ _ _ => Ok audit_answer)
    (fun _ _ => Ok (VStr "Memecoins", VFloat 0.9))
    (fun _ _ _ => Err (Exc "ConnectionError" "store unreachable"))
    (fun _ => Err (Exc "ConnectionError" "store unreachable"))
    (fun _ => Ok tt).



End Examples.

(* ===================================================================== *)
(** * Notification worker ([notification_worker.py]): sending and
      dispatch *)
(* ===================================================================== *)

Module Notifier.

Record config : Type := mk_config {
  DEV_MODE : bool
}.

(** One call of [send_telegram_message] seen from outside, per attempt:
    the status code [requests.post] answers or the exception it raises,
    the outcome of reading [retry_after] from a 429 answer and sleeping,
    the outcome of [response.json()] on a 200 answer (read for the log in
    development mode), and the test
    [isinstance(e, requests.RequestException)]. *)
Record telegram : Type := mk_telegram {
  post : nat -> result Z;
  retry_after_sleep : nat -> result unit;
  response_json : nat -> result unit;
  is_request_exception : exn -> bool
}.

(** The loop of [send_telegram_message] (lines 73-116): the result and the
    number of requests made. *)
Fixpoint send_loop (cfg : config) (tg : telegram)
    (max_retries attempt fuel : nat) : bool * nat :=
  match fuel with
  | O => (false, attempt)
  | S fuel' =>
      let on_exception (ex : exn) :=
        if is_request_exception tg ex then
          if Nat.eqb attempt (max_retries - 1) then (false, S attempt)
          else send_loop cfg tg max_retries (S attempt) fuel'
        else (false, S attempt) in
      match post tg attempt with
      | Err ex => on_exception ex
      | Ok status_code =>
          if status_code =? 429 then
            match retry_after_sleep tg attempt with
            | Ok _ => send_loop cfg tg max_retries (S attempt) fuel'
            | Err ex => on_exception ex
            end
          else if negb (status_code =? 200) then (false, S attempt)
          else if DEV_MODE cfg then
            match response_json tg attempt with
            | Ok _ => (true, S attempt)
            | Err ex => on_exception ex
            end
          else (true, S attempt)
      end
  end.

Definition send_telegram_message (cfg : config) (tg : telegram) : bool * nat :=
  send_loop cfg tg 3 0 3.

(** ** [message_consumer]: one message *)

(** A user hash as [hgetall] returns it: field names and raw values. *)
Definition user_hash : Type := list (string * list Byte.byte).

Fixpoint hash_get (h : user_hash) (field : string) : option (list Byte.byte) :=
  match h with
  | [] => None
  | (f, v) :: h' => if (f =? field)%string then Some v else hash_get h' field
  end.

(** [b.decode('utf-8')] *)
Definition decode_utf8 (b : list Byte.byte) : result string :=
  if Keccak.utf8_valid (map Byte.to_N b) then Ok (string_of_list_byte b)
  else Err (Exc "UnicodeDecodeError" "invalid start byte").

(** Collaborators: [json.loads], [format_message] of
    [display_helper_functions], and [float()] on text. *)
Record env : Type := mk_env {
  json_loads : string -> result value;
  format_message : value -> value -> result string;
  float_of_string : string -> option Q
}.

Local Open Scope result_scope.

(** [apply_filters] called on two JSON values: a value that is not an
    object has no [get]. *)
Definition apply_filters_value (e : env) (filters message_data : value)
  : result bool :=
  match filters with
  | VDict f =>
      match message_data with
      | VDict m => Filters.apply_filters (float_of_string e) f m
      | _ =>
          _ <- str_lower (get_default f "risk_level" (VStr "")) ;;
          _ <- str_lower (get_default f "classification" (VStr "")) ;;
          _ <- str_lower (get_default f "alert_type" (VStr "")) ;;
          Err (Exc "AttributeError" "object has no attribute 'get'")
      end
  | _ => Err (Exc "AttributeError" "object has no attribute 'get'")
  end.

Local Open Scope eff_scope.

(** The messages handed to [send_telegram_message], as chat id and text. *)
Definition outbox : Type := list (string * string).

(** The body of the loop over the user keys (lines 159-184).  The pause
    of the rate limiter changes no value read here. *)
Definition notify_user (e : env) (message_data : value) (user_data : user_hash)
  : M outbox unit unit :=
  match user_data with
  | [] => ret tt                                            (* continue *)
  | _ =>
      text <- lift (match hash_get user_data "filters" with
                    | Some b => decode_utf8 b
                    | None =>
                        Err (Exc "AttributeError"
                                 "'str' object has no attribute 'decode'")
                    end) ;;
      filters <- lift (json_loads e text) ;;
      match hash_get user_data "telegram_id" with
      | None | Some [] => ret tt                            (* continue *)
      | Some tg_id =>
          pass <- lift (apply_filters_value e filters message_data) ;;
          when pass
            (display_preference <-
               lift (py_get filters "display_preference" (VStr "standard")) ;;
             display_message <-
               lift (format_message e display_preference message_data) ;;
             chat_id <- lift (decode_utf8 tg_id) ;;
             modify (fun sent => sent ++ [(chat_id, display_message)])%list)
      end
  end.

(** Lines 143-189 for one message taken from the queue: an exception is
    logged and the consumer goes on with the next message. *)
Definition process_message (e : env) (message : value) (users : list user_hash)
  : outbox -> result unit * outbox :=
  call tt
    (try_except
       (message_data <- lift (py_get message "token_data" (VDict [])) ;;
        for_each users (notify_user e message_data))
       (fun _ => ret tt)).

(** ** [initialize_user_cache]: the filters stored for a user *)

Definition bookkeeping_fields : list string :=
  ["id"; "user_wallet_id"; "created_at"; "updated_at"].

(** Lines 249-255: the bookkeeping columns are dropped and a NULL column
    is stored as the empty string. *)
Definition cached_filters (user_filters : dict) : dict :=
  map (fun kv => (fst kv, match snd kv with VNone => VStr "" | v => v end))
      (filter (fun kv => negb (existsb (String.eqb (fst kv)) bookkeeping_fields))
              user_filters).

End Notifier.

(* ===================================================================== *)
(** * Notification worker: the user cache *)
(* ===================================================================== *)

Module Cache.

(** What the cache holds under a key: a hash ([user:<id>]) or a string
    ([telegram_map:<telegram id>]). *)
Inductive entry : Type :=
| Hash (h : Notifier.user_hash)
| Str (b : list Byte.byte).

Definition store : Type := list (string * entry).

Fixpoint lookup (s : store) (k : string) : option entry :=
  match s with
  | [] => None
  | (k', v) :: s' => if (k' =? k)%string then Some v else lookup s' k
  end.

Fixpoint put (k : string) (v : entry) (s : store) : store :=
  match s with
  | [] => [(k, v)]
  | (k', v') :: s' =>
      if (k' =? k)%string then (k', v) :: s' else (k', v') :: put k v s'
  end.

(** [delete(k)] *)
Definition del (k : string) (s : store) : store :=
  filter (fun kv => negb (fst kv =? k)%string) s.

Definition wrong_type : exn :=
  Exc "ResponseError"
      "WRONGTYPE Operation against a key holding the wrong kind of value".

(** [hgetall(k)]: a missing key gives the empty hash. *)
Definition hgetall (k : string) (s : store) : result Notifier.user_hash :=
  match lookup s k with
  | None => Ok []
  | Some (Hash h) => Ok h
  | Some (Str _) => Err wrong_type
  end.

Fixpoint hash_set (h : Notifier.user_hash) (field : string)
    (v : list Byte.byte) : Notifier.user_hash :=
  match h with
  | [] => [(field, v)]
  | (f, v') :: h' =>
      if (f =? field)%string then (f, v) :: h' else (f, v') :: hash_set h' field v
  end.

(** [hmset(k, {"filters": f, "telegram_id": t})] with both values encoded *)
Definition hmset (k : string) (filters telegram_id : list Byte.byte) (s : store)
  : result store :=
  match hgetall k s with
  | Ok h =>
      Ok (put k (Hash (hash_set (hash_set h "filters" filters)
                                "telegram_id" telegram_id)) s)
  | Err ex => Err ex
  end.

(** Collaborators: the query for one user of [user_wallets], [json.dumps],
    and [str()] of a value that is not a string. *)
Record env : Type := mk_env {
  select_user : value -> result (list value);
  json_dumps : value -> string;
  py_repr : value -> string
}.

(** [f"{v}"] *)
Definition format (e : env) (v : value) : string :=
  match v with
  | VStr s => s
  | _ => py_repr e v
  end.

(** The client's encoding of a value sent to the cache: text and numbers
    only. *)
Definition encode (e : env) (v : value) : result (list Byte.byte) :=
  match v with
  | VStr s => Ok (list_byte_of_string s)
  | VInt _ | VFloat _ => Ok (list_byte_of_string (py_repr e v))
  | _ => Err (Exc "DataError" "Invalid input")
  end.

Local Open Scope eff_scope.

(** An expression that reads the cache. *)
Definition reading {R A} (f : store -> result A) : M store R A :=
  fun s => lift (f s) s.

(** A command that may be refused. *)
Definition writing {R} (f : store -> result store) : M store R unit :=
  fun s => match f s with
           | Ok s' => (Normal tt, s')
           | Err ex => (Raise ex, s)
           end.

(** The telegram account among the linked accounts (lines 236-239 and
    526-529). *)
Definition is_telegram_account (acc : value) : bool :=
  match acc with
  | VDict d => Gateway.eq_str (get d "provider") "telegram"
  | _ => false
  end.

Definition find_telegram_account (linked_accounts : value) : option value :=
  find is_telegram_account
       (match linked_accounts with
        | VList l => l
        | v => [v]
        end).

(** Lines 245-255 and 543-553. *)
Definition stored_filters (user_filters : value) : result dict :=
  if truthy user_filters then
    match user_filters with
    | VDict f => Ok (Notifier.cached_filters f)
    | VList _ => Err (Exc "TypeError" "pop expected at most 1 argument, got 2")
    | _ => Err (Exc "AttributeError" "object has no attribute 'pop'")
    end
  else Ok [].

(** Lines 257-267 and 555-564: the user hash and the telegram mapping. *)
Definition store_user {R} (e : env) (user_id user telegram_account : value)
  : M store R unit :=
  user_filters <- lift (py_get user "user_filters" VNone) ;;
  filters <- lift (stored_filters user_filters) ;;
  tg_id <- lift (py_item telegram_account "provider_id") ;;
  let redis_key := "user:" ++ format e user_id in
  filters_text <- lift (encode e (VStr (json_dumps e (VDict filters)))) ;;
  tg_bytes <- lift (encode e tg_id) ;;
  writing (hmset redis_key filters_text tg_bytes) ;;
  id_bytes <- lift (encode e user_id) ;;
  modify (put ("telegram_map:" ++ format e tg_id) (Str id_bytes)).

(** ** [initialize_user_cache]: the body of the loop over the users of a
    page (lines 210-270); [continue] is [return_ tt]. *)
Definition cache_user (e : env) (user : value) : store -> result unit * store :=
  call tt
    (user_id <- lift (py_get user "id" VNone) ;;
     subscriptions <- lift (py_get user "user_subscriptions" VNone) ;;
     when (negb (truthy subscriptions)) (return_ tt) ;;
     user_info <- lift (py_get user "user_information" VNone) ;;
     when (negb (truthy user_info)) (return_ tt) ;;
     linked_accounts <- lift (py_get user_info "linked_accounts" (VList [])) ;;
     when (Worker.is_None linked_accounts) (return_ tt) ;;
     match find_telegram_account linked_accounts with
     | None => return_ tt
     | Some telegram_account => store_user e user_id user telegram_account
     end).

(** ** [handle_user_changes] *)

(** The removal of a user (lines 474-479, repeated at 487, 500, 513 and
    534). *)
Definition drop_user {R} (redis_key : string) : M store R unit :=
  current_data <- reading (hgetall redis_key) ;;
  match current_data with
  | [] => ret tt
  | _ =>
      match Notifier.hash_get current_data "telegram_id" with
      | None | Some [] => ret tt
      | Some tg_id =>
          chat <- lift (Notifier.decode_utf8 tg_id) ;;
          modify (del ("telegram_map:" ++ chat))
      end
  end ;;
  modify (del redis_key).

Definition handle_user_changes (e : env) (payload : value)
  : store -> result unit * store :=
  call tt
    (data <- lift (py_get payload "data" (VDict [])) ;;
     _ <- lift (py_get data "table" VNone) ;;
     _ <- lift (py_get data "type" VNone) ;;
     record <- lift (py_get data "record" (VDict [])) ;;
     wallet_id <- lift (py_get record "user_wallet_id" VNone) ;;
     user_id <- (if truthy wallet_id then ret wallet_id
                 else lift (py_get record "id" VNone)) ;;
     when (negb (truthy user_id)) (return_ tt) ;;
     let redis_key := "user:" ++ format e user_id in
     rows <- lift (select_user e user_id) ;;
     when (negb (truthy (VList rows))) (drop_user redis_key ;; return_ tt) ;;
     user <- lift (Worker.first_row rows) ;;
     subscriptions <- lift (py_get user "user_subscriptions" VNone) ;;
     when (negb (truthy subscriptions)) (drop_user redis_key ;; return_ tt) ;;
     user_info <- lift (py_get user "user_information" VNone) ;;
     when (negb (truthy user_info)) (drop_user redis_key ;; return_ tt) ;;
     linked_accounts <- lift (py_get user_info "linked_accounts" (VList [])) ;;
     when (Worker.is_None linked_accounts) (drop_user redis_key ;; return_ tt) ;;
     match find_telegram_account linked_accounts with
     | None => drop_user redis_key ;; return_ tt
     | Some telegram_account => store_user e user_id user telegram_account
     end).

End Cache.


(* ===================================================================== *)
(** * Specifications of blocks of statements *)
(* ===================================================================== *)

Module Hoare.

(** [triple P m Qn Qr Qe]: from a state in [P], the block [m] establishes
    [Qn a] when it falls through with [a], [Qr r] when it executes
    [return r], and [Qe ex] when it raises [ex]. *)
Definition triple {S R A} (P : S -> Prop) (m : M S R A)
    (Qn : A -> S -> Prop) (Qr : R -> S -> Prop) (Qe : exn -> S -> Prop)
  : Prop :=
  forall s, P s ->
    match m s with
    | (Normal a, s') => Qn a s'
    | (Return r, s') => Qr r s'
    | (Raise ex, s') => Qe ex s'
    end.

End Hoare.
Import Hoare.

(* ===================================================================== *)
(** * Further payloads and jobs *)
(* ===================================================================== *)

Module MoreExamples.

(** A [LockLPToken] call whose input carries the selector, the LP token,
    the amount 10^18 and an unlock time. *)
Definition full_lock_input : string :=
  Examples.short_lock_input
  ++ "0000000000000000000000000000000000000000000000000000000065a0c800".

Definition full_lock_payload : dict :=
  [("confirmed", VBool true);
   ("id", VStr "evt9");
   ("chainId", VStr "0x1");
   ("block", VDict [("number", VStr "104")]);
   ("abi", VList [VDict [("name", VStr "LockLPToken")]]);
   ("txs", VList [VDict [("hash", VStr "0xhash");
                         ("toAddress", VStr "0xlocker");
                         ("fromAddress", VStr "0xuser");
                         ("input", VStr full_lock_input)]])].

(** An entry of [lp_holders] in an audit answer. *)
Definition lp_holder (is_locked : Z) (percent : Q) : value :=
  VDict [("address", VStr "0xholder");
         ("is_locked", VInt is_locked);
         ("percent", VFloat percent)].

(** Two locked holders and one that is not, as pairs of [is_locked] and
    [percent]. *)
Definition holders : list (Z * Q) :=
  [(1, 0.25%Q); (0, 0.5%Q); (1, 0.125%Q)].

(** A stored token row that is marked renounced, and the data of a pair
    event for it whose audit says otherwise. *)
Definition renounced_row : dict :=
  [("address", VStr "0xToken"); ("is_renounced", VBool true)].

Definition fresh_pair_data : dict :=
  [("address", VStr "0xToken"); ("chain_id", VStr "0x1");
   ("blockchain", VStr "ethereum"); ("dex_pair", VStr "0xPair");
   ("is_renounced", VBool false)].

(** A [lock_lp] job as the gateway queues it. *)
Definition lock_lp_job : dict :=
  [("event_id", VStr "evt9"); ("event_type", VStr "lock_lp");
   ("chain_id", VStr "0x1"); ("block_number", VStr "104");
   ("transformed_data",
    VDict [("lp_token", VStr "0xPair"); ("amount", VFloat 1)]);
   ("retry_count", VInt 0)].

(** A [new_token] job, and collaborators that answer while the
    relational store cannot be reached. *)
Definition new_token_job : dict :=
  [("event_id", VStr "evt1_0xToken"); ("event_type", VStr "new_token");
   ("chain_id", VStr "0x1"); ("block_number", VStr "100");
   ("address", VStr "0xToken"); ("retry_count", VInt 0)].

Definition store_down_env : Worker.env :=
  Worker.mk_env 1700000000 "2023-11-14T22:13:20" "2023-11-14T22:13:20+00:00"
    Qplus Qmult Qdiv (fun _ => Ok 1%Q) (fun _ => None) Examples.job_text
    (fun _ => Ok (VStr "ethereum"))
    (fun _ => Ok tt)
    (fun a => Ok a)
    (fun _ _ => Ok (VDict [("name", VStr "Token"); ("symbol", VStr "TKN")]))
    (fun _ _ => Ok (VDict []))
    (fun _ => Ok (VDict []))
    (fun _ _ _ _ => Ok Examples.audit_answer)
    (fun _ _ => Ok (VStr "Memecoins", VFloat 0.9))
    (fun _ _ _ => Err (Exc "ConnectionError" "store unreachable"))
    (fun _ => Err (Exc "ConnectionError" "store unreachable"))
    (fun _ => Ok tt).

(** A store that answers a query with no row and refuses every write. *)
Definition refusing_store_env : Worker.env :=
  Worker.mk_env 1700000000 "2023-11-14T22:13:20" "2023-11-14T22:13:20+00:00"
    Qplus Qmult Qdiv (fun _ => Ok 1%Q) (fun _ => None) Examples.job_text
    (fun _ => Ok (VStr "ethereum"))
    (fun _ => Ok tt)
    (fun a => Ok a)
    (fun _ _ => Ok (VDict [("name", VStr "Token"); ("symbol", VStr "TKN")]))
    (fun _ _ => Ok (VDict []))
    (fun _ => Ok (VDict []))
    (fun _ _ _ _ => Ok Examples.audit_answer)
    (fun _ _ => Ok (VStr "Memecoins", VFloat 0.9))
    (fun _ _ _ => Ok [])
    (fun _ => Err (Exc "ConnectionError" "store unreachable"))
    (fun _ => Ok tt).

(** *** The notification worker *)

(** The stored filters are either the empty object or do not parse. *)
Definition notifier_env : Notifier.env :=
  Notifier.mk_env
    (fun text => if (text =? "{}")%string then Ok (VDict [])
                 else Err (Exc "JSONDecodeError" "Expecting value"))
    (fun _ _ => Ok "New pair")
    (fun _ => None).

Definition notification : value :=
  VDict [("event_type", VStr "new_pair");
         ("token_data", VDict [("event_type", VStr "new_pair");
                               ("chain_id", VStr "0x1")])].

(** A user with empty filters, and a user hash without a [filters]
    field. *)
Definition subscriber : Notifier.user_hash :=
  [("filters", list_byte_of_string "{}");
   ("telegram_id", list_byte_of_string "4242")].

(** A row of [user_filters] with NULL columns. *)
Definition filter_row : dict :=
  [("id", VInt 7); ("user_wallet_id", VStr "w-1");
   ("risk_level", VNone); ("classification", VStr "All");
   ("buy_tax", VNone); ("blockchains", VNone);
   ("created_at", VStr "2024-01-01")].

(** The cache: a store that knows one user, the change notice for that
    user, and a cache that holds the user under an old telegram id. *)
Definition cached_user_row : value :=
  VDict [("id", VStr "u1");
         ("user_subscriptions", VList [VDict [("subscription_id", VStr "s1")]]);
         ("user_information",
          VDict [("linked_accounts",
                  VList [VDict [("provider", VStr "telegram");
                                ("provider_id", VStr "4242")]])]);
         ("user_filters", VDict filter_row)].


Definition cache_env (rows : list value) : Cache.env :=
  Cache.mk_env (fun _ => Ok rows) (fun _ => "{}") (fun _ => "").

Definition change_notice : value :=
  VDict [("data", VDict [("table", VStr "user_filters");
                         ("type", VStr "UPDATE");
                         ("record", VDict [("id", VInt 7);
                                           ("user_wallet_id", VStr "u1")])])].

Definition warm_cache : Cache.store :=
  [("user:u1", Cache.Hash subscriber);
   ("telegram_map:4242", Cache.Str (list_byte_of_string "u1"));
   ("user:u2", Cache.Hash subscriber)].

Definition broken_user : Notifier.user_hash :=
  [("telegram_id", list_byte_of_string "777")].

End MoreExamples.

(* ===================================================================== *)
(** * Shapes of queue contents *)
(* ===================================================================== *)

Module Shape.

(** A job as the gateway queues it: an object with an [event_id], one of
    the four event types, and a retry count of zero. *)
Definition fresh_job (j : value) : Prop :=
  exists dj et id,
    j = VDict dj
    /\ dict_get dj "event_id" = Some id
    /\ dict_get dj "event_type" = Some (VStr et)
    /\ In et ["new_token"; "new_pair"; "lock_lp"; "ownership_renounced"]
    /\ dict_get dj "retry_count" = Some (VInt 0).

(** [r'] is [r] with fresh jobs appended to [webhook_queue]. *)
Definition jobs_appended (r r' : redis) : Prop :=
  retry_queue r' = retry_queue r
  /\ failed_events r' = failed_events r
  /\ notification_queue r' = notification_queue r
  /\ exists jobs, webhook_queue r' = (webhook_queue r ++ jobs)%list
                  /\ Forall fresh_job jobs.

Definition is_str (v : value) : Prop := exists s, v = VStr s.

(** A notification as the worker queues it, for a token whose [is_scam]
    is not set. *)
Definition clean_notification (v : value) : Prop :=
  exists event_type token_data,
    v = VDict [("event_type", VStr event_type);
               ("token_data", VDict token_data)]
    /\ truthy (get token_data "is_scam") = false.

(** The result of a job run that ended with [True] or [False]. *)
Definition is_verdict (r : result value) : Prop := exists b, r = Ok (VBool b).

(** A token row that links the child records [s], [g] and [t]. *)
Definition linked (s g t : value) (row : dict) : Prop :=
  dict_get row "source_code_id" = Some s
  /\ dict_get row "gpl_audit_id" = Some g
  /\ dict_get row "token_information_id" = Some t.

(** A request that keeps the links [s], [g], [t] of a token: no child
    record is created, the token row is written with the three ids, and
    the linked records are updated in place. *)
Definition keeps_links (s g t : value) (op : Worker.db_write) : Prop :=
  match op with
  | Worker.Upsert _ _ => False
  | Worker.Insert table row => table = "tokens" /\ linked s g t row
  | Worker.Update table row filters =>
      (table = "tokens" /\ linked s g t row)
      \/ (table = "token_information" /\ filters = [("id", t)])
      \/ (table = "gpl_audit" /\ filters = [("id", g)])
  end.

(** A request that writes a token row only with [is_renounced] set. *)
Definition writes_renounced (op : Worker.db_write) : Prop :=
  match op with
  | Worker.Upsert table row | Worker.Insert table row
  | Worker.Update table row _ =>
      table = "tokens" -> dict_get row "is_renounced" = Some (VBool true)
  end.

(** The requests sent to the relational store since [w0] all satisfy
    [okw]. *)
Definition sent_since (okw : Worker.db_write -> Prop) (w0 w : Worker.world)
  : Prop :=
  exists new,
    Worker.db_log w = (Worker.db_log w0 ++ new)%list /\ Forall okw new.

(** Attempt [j] of a send ended in a way the loop retries: a 429 answer
    whose pause went through, or a request exception, raised by the
    request, by the pause after a 429 answer or, in development mode, by
    reading the body of a 200 answer. *)
Definition retried (cfg : Notifier.config) (tg : Notifier.telegram) (j : nat)
  : Prop :=
  (Notifier.post tg j = Ok 429
   /\ exists u, Notifier.retry_after_sleep tg j = Ok u)
  \/ exists ex,
       Notifier.is_request_exception tg ex = true
       /\ (Notifier.post tg j = Err ex
           \/ (Notifier.post tg j = Ok 429
               /\ Notifier.retry_after_sleep tg j = Err ex)
           \/ (Notifier.DEV_MODE cfg = true
               /\ Notifier.post tg j = Ok 200
               /\ Notifier.response_json tg j = Err ex)).

(** The message [(chat_id, text)] goes to a user of [users] whose stored
    filters accept [message_data]. *)
Definition accepted (e : Notifier.env) (message_data : value)
    (users : list Notifier.user_hash) (m : string * string) : Prop :=
  exists user_data raw text filters tg_id display_preference,
    In user_data users
    /\ Notifier.hash_get user_data "filters" = Some raw
    /\ Notifier.decode_utf8 raw = Ok text
    /\ Notifier.json_loads e text = Ok filters
    /\ Notifier.apply_filters_value e filters message_data = Ok true
    /\ Notifier.hash_get user_data "telegram_id" = Some tg_id
    /\ Notifier.decode_utf8 tg_id = Ok (fst m)
    /\ py_get filters "display_preference" (VStr "standard")
       = Ok display_preference
    /\ Notifier.format_message e display_preference message_data
       = Ok (snd m).

(** The telegram account that makes a user row eligible for the cache:
    the row has a subscription and user information whose linked accounts
    hold an account of provider [telegram]. *)
Definition telegram_account_of (user : value) : result (option value) :=
  rbind (py_get user "user_subscriptions" VNone) (fun subscriptions =>
  if negb (truthy subscriptions) then Ok None
  else
    rbind (py_get user "user_information" VNone) (fun user_info =>
    if negb (truthy user_info) then Ok None
    else
      rbind (py_get user_info "linked_accounts" (VList [])) (fun linked =>
      if Worker.is_None linked then Ok None
      else Ok (Cache.find_telegram_account linked)))).

(** The user a change notice names: [user_wallet_id] of its record, or
    else [id]. *)
Definition names_user (payload user_id : value) : Prop :=
  exists data record,
    py_get payload "data" (VDict []) = Ok (VDict data)
    /\ get_default data "record" (VDict []) = VDict record
    /\ user_id = (if truthy (get record "user_wallet_id")
                  then get record "user_wallet_id" else get record "id")
    /\ truthy user_id = true.

(** [l'] is [l] with entries appended. *)
Definition extends {A} (l l' : list A) : Prop := exists new, l' = (l ++ new)%list.

(** [delay] is the float that the back-off [RETRY_DELAY * 2 ** k] adds to
    the reading of the clock: for an [int] setting the product converted
    to [float], for a [float] setting its float product with [2 ** k]
    converted.  The conversions fail on a number too large for a double. *)
Definition backoff_float (e : Worker.env) (retry_delay : number) (k : Z)
    (delay : Q) : Prop :=
  match retry_delay with
  | NInt d => float_of_int (d * 2 ^ k) = Ok delay
  | NFloat q =>
      exists p, float_of_int (2 ^ k) = Ok p /\ delay = Worker.float_mul e q p
  end.

(** [r'] is [r] with [jobs] appended to [webhook_queue]. *)
Definition queued (r : redis) (jobs : list value) (r' : redis) : Prop :=
  r' = mk_redis (webhook_queue r ++ jobs) (retry_queue r) (failed_events r)
                (notification_queue r).


End Shape.


(* ===================================================================== *)
(** * Properties *)
(* ===================================================================== *)

(** ** Dictionaries and strings *)

Lemma dict_get_set_same (d : dict) (k : string) (v : value) :
  dict_get (dict_set d k v) k = Some v.
Proof.
  induction d as [| [k' v'] d IH]; simpl.
  - now rewrite String.eqb_refl.
  - destruct (String.eqb k' k) eqn:E; simpl; rewrite E; auto.
Qed.

Lemma dict_get_set_other (d : dict) (k k' : string) (v : value) :
  k <> k' -> dict_get (dict_set d k v) k' = dict_get d k'.
Proof.
  intros Hne. induction d as [| [k0 v0] d IH]; simpl.
  - destruct (String.eqb_spec k k'); [contradiction | reflexivity].
  - destruct (String.eqb_spec k0 k) as [-> | Hk]; simpl.
    + destruct (String.eqb_spec k k'); [contradiction | reflexivity].
    + now rewrite IH.
Qed.





(** ** Notification filters *)

Section FilterFacts.

Variable float_of_string : string -> option Q.




(** C4 (the code departs from it): with the empty filter record a snapshot
    that carries a classification is rejected, because the blank
    classification filter is compared for equality with the snapshot's
    classification instead of being skipped. *)
Theorem apply_filters_empty_filter_rejects_classified :
  Filters.apply_filters float_of_string []
    [("event_type", VStr "new_token"); ("chain_id", VStr "0x1");
     ("classification", VStr "Memecoins"); ("risk_level", VStr "Low")]
  = Ok false.
Proof. reflexivity. Qed.


End FilterFacts.



(** ** Blocks of statements *)

Section InvRules.

Context {S R : Type}.
Variable I : S -> Prop.
Variable Qr : R -> S -> Prop.

Lemma inv_ret {A} (a : A) : inv I Qr (ret a).
Proof. intros s Hs. exact Hs. Qed.

Lemma inv_raise {A} (ex : exn) : inv I Qr (raise ex : M S R A).
Proof. intros s Hs. exact Hs. Qed.

Lemma inv_lift {A} (r : result A) : inv I Qr (lift r).
Proof. intros s Hs. unfold lift. destruct r; exact Hs. Qed.

Lemma inv_return {A} (r : R) :
  (forall s, I s -> Qr r s) -> inv I Qr (return_ r : M S R A).
Proof. intros H s Hs. now apply H. Qed.

Lemma inv_modify (f : S -> S) :
  (forall s, I s -> I (f s)) -> inv I Qr (modify f).
Proof. intros H s Hs. now apply H. Qed.

Lemma inv_bind {A B} (m : M S R A) (f : A -> M S R B) :
  inv I Qr m -> (forall a, inv I Qr (f a)) -> inv I Qr (bind m f).
Proof.
  intros Hm Hf s Hs. unfold bind. specialize (Hm s Hs).
  destruct (m s) as [[a | r | ex] s']; auto. now apply Hf.
Qed.

(** The value bound from an expression is the one it evaluates to. *)
Lemma inv_bind_lift {A B} (r : result A) (f : A -> M S R B) :
  (forall a, r = Ok a -> inv I Qr (f a)) -> inv I Qr (bind (lift r) f).
Proof.
  intros Hf s Hs. unfold bind, lift. destruct r as [a | ex]; [| exact Hs].
  now apply Hf.
Qed.

Lemma inv_gathered {A} (c : S -> result A * S) :
  (forall s, I s -> I (snd (c s))) -> inv I Qr (gathered c).
Proof.
  intros H s Hs. unfold gathered. specialize (H s Hs).
  destruct (c s) as [r s']. exact H.
Qed.

Lemma inv_try {A} (m : M S R A) (h : exn -> M S R A) :
  inv I Qr m -> (forall ex, inv I Qr (h ex)) -> inv I Qr (try_except m h).
Proof.
  intros Hm Hh s Hs. unfold try_except. specialize (Hm s Hs).
  destruct (m s) as [[a | r | ex] s']; auto. now apply Hh.
Qed.

Lemma inv_when (c : bool) (m : M S R unit) :
  inv I Qr m -> inv I Qr (when c m).
Proof. intros H. destruct c; [exact H | apply inv_ret]. Qed.

(** A call made as an expression: the callee keeps [I]. *)
Lemma inv_of_call {A} (c : S -> result A * S) :
  (forall s, I s -> I (snd (c s))) -> inv I Qr (of_call c).
Proof.
  intros H s Hs. unfold of_call. specialize (H s Hs).
  destruct (c s) as [[a | ex] s']; exact H.
Qed.

End InvRules.

(** A function whose body keeps [I], also at its [return]s, keeps [I]. *)
Lemma call_keeps {S R} (I : S -> Prop) (none : R) (body : M S R unit) :
  inv I (fun _ => I) body -> forall s, I s -> I (snd (call none body s)).
Proof.
  intros H s Hs. unfold call. specialize (H s Hs).
  destruct (body s) as [[a | r | ex] s']; exact H.
Qed.

Ltac inv_step :=
  lazymatch goal with
  | |- inv _ _ (bind (lift _) _) => apply inv_bind_lift; intros ? ?
  | |- inv _ _ (bind _ _) => apply inv_bind; [| intros ?]
  | |- inv _ _ (try_except _ _) => apply inv_try; [| intros ?]
  | |- inv _ _ (when _ _) => apply inv_when
  | |- inv _ _ (lift _) => apply inv_lift
  | |- inv _ _ (ret _) => apply inv_ret
  | |- inv _ _ (raise _) => apply inv_raise
  | |- inv _ _ (modify _) => apply inv_modify
  | |- inv _ _ (if ?b then _ else _) => destruct b
  | |- inv _ _ (match ?x with _ => _ end) => destruct x
  end.

(** ** Webhook gateway: the signature check *)

Lemma strip_0x_keccak_hex (data : list N) :
  Gateway.strip_0x (Gateway.keccak_hex data) = Keccak.hex (Keccak.keccak256 data).
Proof. reflexivity. Qed.

(** C6 (as amended): under [DEV_MODE] the check accepts every request.
    Outside it, the check accepts exactly when the header is present and
    not empty, the secret is set, body followed by secret is well-formed
    UTF-8, and the header without one leading [0x] is, character for
    character, the lower-case hex Keccak-256 digest of body followed by
    secret; a second body accepted under the same header has the same
    digest. *)
Theorem verify_moralis_signature_exact :
  forall (cfg : Gateway.config) (req : Gateway.request),
    let data b := (map Byte.to_N b
                   ++ Keccak.bytes_of_string (Gateway.MORALIS_SECRET_KEY cfg))%list in
    let digest b := Keccak.hex (Keccak.keccak256 (data b)) in
    (Gateway.DEV_MODE cfg = true ->
     Gateway.verify_moralis_signature cfg req = true)
    /\ (Gateway.DEV_MODE cfg = false ->
        (Gateway.verify_moralis_signature cfg req = true <->
           exists p, Gateway.x_signature req = Some p
                     /\ p <> ""
                     /\ Gateway.MORALIS_SECRET_KEY cfg <> ""
                     /\ Keccak.utf8_valid (data (Gateway.body req)) = true
                     /\ Gateway.strip_0x p = digest (Gateway.body req))
        /\ (forall body' json',
              Gateway.verify_moralis_signature cfg req = true ->
              Gateway.verify_moralis_signature cfg
                (Gateway.mk_request (Gateway.x_signature req) body' json')
              = true ->
              digest body' = digest (Gateway.body req))).
Proof.
  intros cfg req data digest.
  split; [intros Hdev; unfold Gateway.verify_moralis_signature;
          now rewrite Hdev |].
  intros Hdev.
  assert (Hiff : forall rq,
    Gateway.verify_moralis_signature cfg rq = true <->
    exists p, Gateway.x_signature rq = Some p
              /\ p <> ""
              /\ Gateway.MORALIS_SECRET_KEY cfg <> ""
              /\ Keccak.utf8_valid (data (Gateway.body rq)) = true
              /\ Gateway.strip_0x p = digest (Gateway.body rq)).
  { intros rq. unfold Gateway.verify_moralis_signature. rewrite Hdev.
    destruct (Gateway.x_signature rq) as [p |].
    - destruct (String.eqb_spec p "") as [-> | Hp].
      + split; [discriminate |]. intros (p & Hs & Hp & _). congruence.
      + destruct (String.eqb_spec (Gateway.MORALIS_SECRET_KEY cfg) "")
          as [Hk | Hk].
        * split; [discriminate |]. intros (q & _ & _ & Hq & _). contradiction.
        * fold (data (Gateway.body rq)).
          destruct (Keccak.utf8_valid (data (Gateway.body rq))) eqn:Hu.
          -- rewrite strip_0x_keccak_hex. fold (digest (Gateway.body rq)).
             split.
             ++ intros H. apply String.eqb_eq in H. exists p. auto.
             ++ intros (q & Hs & _ & _ & _ & Hd). inversion Hs; subst q.
                now apply String.eqb_eq.
          -- split; [discriminate |].
             intros (q & _ & _ & _ & Hq & _). discriminate.
    - split; [discriminate |]. intros (p & Hs & _). discriminate. }
  split; [apply Hiff |].
  intros body' json' H1 H2.
  apply Hiff in H1. apply Hiff in H2.
  destruct H1 as (p & Hs & _ & _ & _ & Hd).
  destruct H2 as (p' & Hs' & _ & _ & _ & Hd').
  simpl in Hs', Hd'. rewrite Hs in Hs'. inversion Hs'; subst p'.
  now rewrite <- Hd, <- Hd'.
Qed.

Lemma verify_moralis_signature_exact_witness :
  Gateway.DEV_MODE Examples.gateway_cfg = false
  /\ Gateway.verify_moralis_signature Examples.gateway_cfg
       Examples.empty_object_request = true
  /\ exists p, Gateway.x_signature Examples.empty_object_request = Some p
               /\ Gateway.strip_0x p
                  = Keccak.hex
                      (Keccak.keccak256
                         (map Byte.to_N (Examples.bytes "{}")
                          ++ Keccak.bytes_of_string "s3cret")%list).
Proof.
  split; [reflexivity |].
  destruct (verify_moralis_signature_exact Examples.gateway_cfg
              Examples.empty_object_request) as [_ Hprod].
  destruct (Hprod eq_refl) as [Hiff _].
  assert (Hv : Gateway.verify_moralis_signature Examples.gateway_cfg
                 Examples.empty_object_request = true) by (vm_compute; reflexivity).
  split; [exact Hv |].
  destruct (proj1 Hiff Hv) as (p & Hs & _ & _ & _ & Hd).
  exists p. split; [exact Hs | exact Hd].
Defined.

(** C6 (as stated, refuted): the digest of this request's body and secret,
    sent in upper case, equals the recomputed digest up to letter case and
    is rejected. *)
Lemma verify_moralis_signature_is_case_sensitive :
  Gateway.DEV_MODE Examples.gateway_cfg = false
  /\ (exists p, Gateway.x_signature Examples.upper_case_request = Some p
        /\ lower (Gateway.strip_0x p)
           = lower (Gateway.strip_0x
                      (Gateway.keccak_hex
                         (map Byte.to_N (Gateway.body Examples.upper_case_request)
                          ++ Keccak.bytes_of_string
                               (Gateway.MORALIS_SECRET_KEY Examples.gateway_cfg))%list)))
  /\ Gateway.verify_moralis_signature Examples.gateway_cfg
       Examples.upper_case_request = false.
Proof.
  split; [reflexivity |]. split.
  - eexists. split; [reflexivity |]. vm_compute. reflexivity.
  - vm_compute. reflexivity.
Qed.

(** ** Webhook gateway: the response *)

Lemma queue_each_never_returns (Qr : Gateway.response -> redis -> Prop)
    (job : nat -> value -> result value) (addresses : list value) :
  forall i queued, inv (fun _ => True) Qr (Gateway.queue_each job i addresses queued).
Proof.
  induction addresses as [| a rest IH]; intros i queued; simpl.
  - apply inv_ret.
  - repeat inv_step; auto.
Qed.


(** ** Structural equality of values *)

Lemma value_ind_nested (P : value -> Prop) :
  P VNone ->
  (forall b, P (VBool b)) ->
  (forall n, P (VInt n)) ->
  (forall q, P (VFloat q)) ->
  (forall s, P (VStr s)) ->
  (forall l, Forall P l -> P (VList l)) ->
  (forall d, Forall (fun kv => P (snd kv)) d -> P (VDict d)) ->
  forall v, P v.
Proof.
  intros HN HB HI HF HS HL HD.
  fix IH 1. intros [| b | n | q | s | l | d].
  - exact HN.
  - apply HB.
  - apply HI.
  - apply HF.
  - apply HS.
  - apply HL. induction l as [| x l IHl]; constructor; [apply IH | exact IHl].
  - apply HD. induction d as [| [k x] d IHd]; constructor;
      [apply IH | exact IHd].
Qed.

Lemma Q_eqb_eq (a b : Q) : Q_eqb a b = true <-> a = b.
Proof.
  unfold Q_eqb. destruct a as [an ad], b as [bn bd]. simpl.
  rewrite andb_true_iff, Z.eqb_eq, Pos.eqb_eq.
  split; [intros [-> ->]; reflexivity | intros H; inversion H; auto].
Qed.

Lemma value_eqb_eq : forall a b, value_eqb a b = true <-> a = b.
Proof.
  induction a as [| x | x | x | x | l IHl | d IHd] using value_ind_nested;
    intros [| y | y | y | y | l' | d']; simpl;
    try (split; [discriminate | intros H; discriminate H]).
  - tauto.
  - rewrite Bool.eqb_true_iff. split; [intros -> | intros H; inversion H]; auto.
  - rewrite Z.eqb_eq. split; [intros -> | intros H; inversion H]; auto.
  - rewrite Q_eqb_eq. split; [intros -> | intros H; inversion H]; auto.
  - rewrite String.eqb_eq. split; [intros -> | intros H; inversion H]; auto.
  - revert l'. induction IHl as [| x l Hx _ IH]; intros [| y l'];
      try (split; [discriminate | intros H; discriminate H]);
      [tauto |].
    rewrite andb_true_iff, Hx, IH.
    split; [intros [-> H]; inversion H; reflexivity
           | intros H; inversion H; auto].
  - revert d'. induction IHd as [| [k x] d Hx _ IH]; intros [| [k' y] d'];
      try (split; [discriminate | intros H; discriminate H]);
      [tauto |].
    simpl in Hx.
    rewrite !andb_true_iff, String.eqb_eq, Hx, IH.
    split; [intros [[-> ->] H]; inversion H; reflexivity
           | intros H; inversion H; auto].
Qed.

Lemma value_eqb_refl (v : value) : value_eqb v v = true.
Proof. now apply value_eqb_eq. Qed.

Lemma first_seen_In (l : list value) (x : value) :
  In x (Examples.first_seen l) <-> In x l.
Proof.
  induction l as [| y l IH]; simpl; [tauto |].
  rewrite filter_In, IH.
  split.
  - intros [H | [H _]]; auto.
  - intros [H | H]; auto.
    destruct (value_eqb y x) eqn:E.
    + left. now apply value_eqb_eq.
    + right. auto.
Qed.

Lemma first_seen_NoDup (l : list value) : NoDup (Examples.first_seen l).
Proof.
  induction l as [| y l IH]; simpl; constructor.
  - rewrite filter_In, value_eqb_refl. intros [_ H]. discriminate.
  - now apply NoDup_filter.
Qed.

Lemma first_seen_ok : Gateway.set_order_ok Examples.gateway_env.
Proof. intros l _. split; [apply first_seen_NoDup | apply first_seen_In]. Qed.

Lemma strings_hashable (l : list value) :
  forallb Gateway.is_str l = true -> forallb Gateway.hashable l = true.
Proof.
  induction l as [| v l IH]; simpl; [reflexivity |].
  intros H. apply andb_prop in H. destruct H as [Hv Hl].
  rewrite (IH Hl). destruct v; try discriminate; reflexivity.
Qed.

(** ** Webhook gateway: the jobs queued *)

Lemma traverse_tag (ls : list value) (addrs : list value) :
  Gateway.traverse (fun log => py_get log "address" VNone) ls = Ok addrs ->
  exists tagged,
    Gateway.traverse (fun log => rbind (py_get log "address" VNone)
                                       (fun a => Ok (log, a))) ls = Ok tagged.
Proof.
  revert addrs. induction ls as [| x ls IH]; simpl; intros addrs H.
  - eauto.
  - destruct (py_get x "address" VNone) as [a |]; simpl in *; [| discriminate].
    destruct (Gateway.traverse (fun log => py_get log "address" VNone) ls)
      as [r |] eqn:E; simpl in H; [| discriminate].
    destruct (IH r eq_refl) as [t Ht]. rewrite Ht. simpl. eauto.
Qed.

(** When the address list is not empty, the logs could be read. *)
Lemma extract_addresses_nonempty (e : Gateway.env) (logs : value) :
  Gateway.extract_addresses_from_logs e logs <> [] ->
  exists ls tagged,
    Gateway.py_iter logs = Ok ls
    /\ Gateway.traverse (fun log => rbind (py_get log "address" VNone)
                                          (fun a => Ok (log, a))) ls = Ok tagged.
Proof.
  unfold Gateway.extract_addresses_from_logs, Gateway.log_addresses.
  destruct (Gateway.py_iter logs) as [ls |]; simpl; [| congruence].
  destruct (Gateway.traverse (fun log => py_get log "address" VNone) ls)
    as [addrs |] eqn:E; simpl; [| congruence].
  intros _. destruct (traverse_tag _ E) as [t Ht]. eauto.
Qed.

Lemma queue_each_total (job : nat -> value -> result value) (key : string) :
  (forall i a, exists dj id,
      job i a = Ok (VDict dj)
      /\ dict_get dj "event_id" = Some id /\ dict_get dj key = Some a) ->
  forall addresses i queued r,
  exists queued' r' jobs,
    Gateway.queue_each job i addresses queued r = (Normal queued', r')
    /\ webhook_queue r' = (webhook_queue r ++ jobs)%list
    /\ map (fun j => py_item j key) jobs = map Ok addresses.
Proof.
  intros Hjob. induction addresses as [| a rest IH]; intros i queued r.
  - exists queued, r, []. simpl. rewrite app_nil_r. auto.
  - destruct (Hjob i a) as (dj & id & Hj & Hid & Hkey).
    destruct (IH (S i) (queued ++ [id])%list (rpush_webhook_queue (VDict dj) r))
      as (q' & r' & jobs & Hrun & Hq & Hmap).
    exists q', r', (VDict dj :: jobs).
    split; [| split].
    + simpl. unfold bind at 1. unfold lift. rewrite Hj.
      unfold bind at 1. unfold modify at 1.
      unfold bind at 1. simpl py_item. unfold subscript. rewrite Hid.
      exact Hrun.
    + rewrite Hq. simpl. now rewrite <- app_assoc.
    + simpl. unfold subscript. rewrite Hkey, Hmap. reflexivity.
Qed.

Lemma new_token_job_total (e : Gateway.env) (d : dict) (et : string)
    (bn : value) (ls : list value) (tagged : list (value * value)) :
  Gateway.block_number_of d = Ok bn ->
  Gateway.py_iter (get_default d "logs" (VList [])) = Ok ls ->
  Gateway.traverse (fun log => rbind (py_get log "address" VNone)
                                     (fun a => Ok (log, a))) ls = Ok tagged ->
  forall i a, exists dj id,
    Gateway.new_token_job e d et i a = Ok (VDict dj)
    /\ dict_get dj "event_id" = Some id /\ dict_get dj "address" = Some a.
Proof.
  intros Hb Hl Ht i a. unfold Gateway.new_token_job.
  rewrite Hb, Hl. cbn [rbind]. rewrite Ht. cbn [rbind].
  eexists. eexists. split; [reflexivity |]. split; reflexivity.
Qed.

Lemma ownership_renounced_job_total (e : Gateway.env) (d : dict) (et : string)
    (bn : value) :
  Gateway.block_number_of d = Ok bn ->
  forall i a, exists dj id,
    Gateway.ownership_renounced_job e d et i a = Ok (VDict dj)
    /\ dict_get dj "event_id" = Some id /\ dict_get dj "token_address" = Some a.
Proof.
  intros Hb i a. unfold Gateway.ownership_renounced_job.
  rewrite Hb. cbn [rbind].
  eexists. eexists. split; [reflexivity |]. split; reflexivity.
Qed.

Ltac gateway_prefix Hv Hj Hd Hc Ht :=
  unfold Gateway.process_webhook, Gateway.process_webhook_body,
    call, try_except, bind, when, lift, ret, return_, modify;
  rewrite Hv, Hj; cbn [negb]; rewrite Hd; cbn [negb]; rewrite Hc;
  cbn [negb]; rewrite Ht.

(** C8 (as amended): for a request that passes the signature check and
    carries a confirmed payload whose block field can be read, the gateway
    appends to [webhook_queue]: for [new_token] and [ownership_renounced],
    one job per element of the address set of the logs, each carrying its
    address (the set has one element per distinct non-empty address when
    the logs can be read and the addresses are strings); for [new_pair],
    the one job built from the
    payload when the pair helper answers; for [lock_lp], one job when the
    lock transaction's input decodes, and none when it does not. *)
Theorem process_webhook_enqueues :
  forall (cfg : Gateway.config) (e : Gateway.env) (req : Gateway.request)
         (r : redis) (d : dict) (et : string) (bn : value),
    Gateway.verify_moralis_signature cfg req = true ->
    Gateway.json req = Ok (VDict d) ->
    truthy (VDict d) = true ->
    truthy (Gateway.is_confirmed d) = true ->
    Gateway.get_event_type cfg d = Ok et ->
    Gateway.block_number_of d = Ok bn ->
    let queue' := webhook_queue (snd (Gateway.process_webhook cfg e req r)) in
    let logs := get_default d "logs" (VList []) in
    let addresses := Gateway.extract_addresses_from_logs e logs in
    (et = "new_token" ->
       exists jobs, queue' = (webhook_queue r ++ jobs)%list
                    /\ map (fun j => py_item j "address") jobs = map Ok addresses)
    /\ (et = "ownership_renounced" ->
       exists jobs, queue' = (webhook_queue r ++ jobs)%list
                    /\ map (fun j => py_item j "token_address") jobs
                       = map Ok addresses)
    /\ (Gateway.set_order_ok e ->
        forall l, Gateway.log_addresses logs = Ok l ->
                  forallb Gateway.is_str l = true ->
                  NoDup addresses /\ (forall a, In a addresses <-> In a l))
    /\ (et = "new_pair" ->
        forall job, Gateway.new_pair_job e d et = Ok job ->
                    queue' = (webhook_queue r ++ [job])%list)
    /\ (et = "lock_lp" ->
        if truthy (Gateway.transform_lock_lp_data e d)
        then exists job, queue' = (webhook_queue r ++ [job])%list
        else queue' = webhook_queue r).
Proof.
  intros cfg e req r d et bn Hv Hj Hd Hc Ht Hb queue' logs addresses.
  split; [| split; [| split; [| split]]].
  - (* new_token *)
    intros ->. subst queue'.
    gateway_prefix Hv Hj Hd Hc Ht.
    change (("new_token" =? "unknown")%string) with false.
    change (("new_token" =? "new_token")%string) with true.
    cbv iota. fold logs. fold addresses.
    destruct addresses as [| a rest] eqn:Ea.
    + exists []. simpl. now rewrite app_nil_r.
    + assert (Hne : Gateway.extract_addresses_from_logs e logs <> [])
        by (fold addresses; rewrite Ea; discriminate).
      destruct (extract_addresses_nonempty _ _ Hne) as (ls & tagged & Hl & Htag).
      destruct (queue_each_total
                  (Gateway.new_token_job e d "new_token") "address"
                  (new_token_job_total e d "new_token" Hb Hl Htag)
                  (a :: rest) 0%nat [] r)
        as (q' & r' & jobs & Hrun & Hq & Hmap).
      cbn [truthy negb]. rewrite Hrun. simpl. eauto.
  - (* ownership_renounced *)
    intros ->. subst queue'.
    gateway_prefix Hv Hj Hd Hc Ht.
    change (("ownership_renounced" =? "unknown")%string) with false.
    change (("ownership_renounced" =? "new_token")%string) with false.
    change (("ownership_renounced" =? "new_pair")%string) with false.
    change (("ownership_renounced" =? "lock_lp")%string) with false.
    change (("ownership_renounced" =? "ownership_renounced")%string) with true.
    cbv iota. fold logs. fold addresses.
    destruct addresses as [| a rest] eqn:Ea.
    + exists []. simpl. now rewrite app_nil_r.
    + destruct (queue_each_total
                  (Gateway.ownership_renounced_job e d "ownership_renounced")
                  "token_address"
                  (ownership_renounced_job_total e d "ownership_renounced" Hb)
                  (a :: rest) 0%nat [] r)
        as (q' & r' & jobs & Hrun & Hq & Hmap).
      cbn [truthy negb]. rewrite Hrun. simpl. eauto.
  - (* the address set *)
    intros Hset l Hl Hs. subst addresses.
    unfold Gateway.extract_addresses_from_logs.
    rewrite Hl, (strings_hashable _ Hs).
    now apply Hset.
  - (* new_pair *)
    intros -> job Hjob. subst queue'.
    gateway_prefix Hv Hj Hd Hc Ht.
    change (("new_pair" =? "unknown")%string) with false.
    change (("new_pair" =? "new_token")%string) with false.
    change (("new_pair" =? "new_pair")%string) with true.
    cbv iota. rewrite Hjob.
    destruct (Gateway.accepted_one "new_pair" job); reflexivity.
  - (* lock_lp *)
    intros ->. subst queue'.
    gateway_prefix Hv Hj Hd Hc Ht.
    change (("lock_lp" =? "unknown")%string) with false.
    change (("lock_lp" =? "new_token")%string) with false.
    change (("lock_lp" =? "new_pair")%string) with false.
    change (("lock_lp" =? "lock_lp")%string) with true.
    cbv iota.
    destruct (truthy (Gateway.transform_lock_lp_data e d)); cbn [negb].
    + unfold Gateway.lock_lp_job. rewrite Hb. cbn [rbind].
      eexists. simpl. reflexivity.
    + reflexivity.
Qed.

Lemma process_webhook_enqueues_witness :
  Gateway.verify_moralis_signature Examples.gateway_cfg
    Examples.transfer_request = true
  /\ Gateway.get_event_type Examples.gateway_cfg Examples.transfer_payload
     = Ok "new_token"
  /\ Gateway.set_order_ok Examples.gateway_env
  /\ (exists jobs,
        webhook_queue
          (snd (Gateway.process_webhook Examples.gateway_cfg
                  Examples.gateway_env Examples.transfer_request Redis.empty))
        = jobs
        /\ map (fun j => py_item j "address") jobs
           = [Ok (VStr "0xaaa"); Ok (VStr "0xbbb")])
  /\ NoDup (Gateway.extract_addresses_from_logs Examples.gateway_env
              (get_default Examples.transfer_payload "logs" (VList []))).
Proof.
  assert (Hv : Gateway.verify_moralis_signature Examples.gateway_cfg
                 Examples.transfer_request = true) by (vm_compute; reflexivity).
  assert (Ht : Gateway.get_event_type Examples.gateway_cfg
                 Examples.transfer_payload = Ok "new_token")
    by (vm_compute; reflexivity).
  destruct (@process_webhook_enqueues Examples.gateway_cfg Examples.gateway_env
              Examples.transfer_request Redis.empty Examples.transfer_payload
              "new_token" (VStr "100") Hv eq_refl eq_refl eq_refl Ht eq_refl)
    as (Hnew & _ & Hset & _).
  split; [exact Hv |]. split; [exact Ht |]. split; [exact first_seen_ok |].
  split.
  - destruct (Hnew eq_refl) as (jobs & Hq & Hmap).
    exists jobs. split; [exact Hq | exact Hmap].
  - exact (proj1 (Hset first_seen_ok
                    [VStr "0xaaa"; VStr "0xbbb"; VStr "0xaaa"]
                    eq_refl eq_refl)).
Defined.

(** C8 (as stated, refuted): this confirmed payload passes the signature
    check and is classified [lock_lp]; its input names the LP token and a
    non-zero amount but no unlock time, and no job is queued. *)
Lemma lock_lp_payload_without_job :
  Gateway.verify_moralis_signature Examples.gateway_cfg
    Examples.short_lock_request = true
  /\ truthy (Gateway.is_confirmed Examples.short_lock_payload) = true
  /\ Gateway.get_event_type Examples.gateway_cfg Examples.short_lock_payload
     = Ok "lock_lp"
  /\ Gateway.process_webhook Examples.gateway_cfg Examples.gateway_env
       Examples.short_lock_request Redis.empty
     = (Ok (Gateway.skip_response "Failed to transform LP lock data"),
        Redis.empty).
Proof. repeat split; vm_compute; reflexivity. Qed.

(** ** Worker: the retry policy *)

Lemma Qle_bool_inject_Z (a b : Z) :
  Qle_bool (inject_Z a) (inject_Z b) = (a <=? b).
Proof. unfold Qle_bool, inject_Z. simpl. now rewrite !Z.mul_1_r. Qed.

Lemma handle_failed_event_int {R} (cfg : Worker.config) (e : Worker.env)
    (event_data : dict) (error : string) (w : Worker.world) (n : Z) (delay : Q) :
  get_default event_data "retry_count" (VInt 0) = VInt n ->
  (n + 1 <= Worker.MAX_RETRIES cfg ->
   0 <= n /\ Shape.backoff_float e (Worker.RETRY_DELAY cfg) n delay) ->
  @Worker.handle_failed_event R cfg e event_data error w
  = (Normal tt,
     let event_data' := Worker.mark_failed e event_data (VInt (n + 1)) error in
     if n + 1 <=? Worker.MAX_RETRIES cfg
     then Worker.on_redis
            (zadd_retry_queue (Worker.json_dumps e) (VDict event_data')
               (Worker.float_add e (Worker.time_time e) delay)) w
     else Worker.on_redis (rpush_failed_events (VDict event_data')) w).
Proof.
  intros H Hd. unfold Worker.handle_failed_event, Worker.incr_retry_count.
  rewrite H. cbn [as_number Worker.num_add rbind of_number].
  unfold bind at 1. cbn [lift].
  unfold Worker.within_retries. cbn [to_num].
  rewrite Qle_bool_inject_Z.
  destruct (n + 1 <=? Worker.MAX_RETRIES cfg) eqn:Hle; [| reflexivity].
  apply Z.leb_le in Hle. destruct (Hd Hle) as [Hn Hdelay].
  unfold Worker.backoff_delay.
  cbn [as_number Worker.num_sub rbind Worker.pow2].
  replace (n + 1 - 1) with n by lia.
  apply Z.leb_le in Hn. rewrite Hn. cbn [rbind].
  unfold Shape.backoff_float in Hdelay.
  destruct (Worker.RETRY_DELAY cfg) as [d | q].
  - cbn [Worker.num_mul]. unfold bind at 1. cbn [lift].
    unfold Worker.retry_time. cbn [to_float]. rewrite Hdelay. cbn [rbind].
    reflexivity.
  - destruct Hdelay as (p & Hp & ->).
    cbn [Worker.num_mul to_float rbind]. rewrite Hp. cbn [rbind].
    unfold bind at 1. cbn [lift].
    unfold Worker.retry_time. cbn [to_float rbind].
    reflexivity.
Qed.

Lemma record_after_retry_count (es : nat -> Worker.env) (errs : nat -> string)
    (event_data : dict) :
  get_default event_data "retry_count" (VInt 0) = VInt 0 ->
  forall k, exists event_data',
    Worker.record_after es errs k event_data = Ok event_data'
    /\ get_default event_data' "retry_count" (VInt 0) = VInt (Z.of_nat k).
Proof.
  intros H0. induction k as [| k (ev' & Hrec & Hrc)].
  - exists event_data. split; [reflexivity | exact H0].
  - eexists. split.
    + cbn [Worker.record_after]. rewrite Hrec. cbn [rbind].
      unfold Worker.incr_retry_count. rewrite Hrc.
      cbn [as_number Worker.num_add rbind of_number]. reflexivity.
    + unfold Worker.mark_failed, get_default.
      rewrite !dict_get_set_other by discriminate.
      rewrite dict_get_set_same. f_equal. lia.
Qed.

Lemma In_insert_by_score (text : value -> string) (x : value * Q)
    (l : list (value * Q)) :
  In x (insert_by_score text x l).
Proof.
  induction l as [| y l IH]; simpl; [auto |].
  destruct (precedes text y x); simpl; auto.
Qed.

(** C2: a failure of a job whose [retry_count] is the integer [n] (an
    absent count is 0) records [retry_count = n + 1].  When [n + 1] is at
    most [MAX_RETRIES], [n] is not negative and the back-off
    [RETRY_DELAY * 2^(n + 1 - 1)] is a number [delay] that a float holds,
    the updated job is put in [retry_queue] at the float sum of the clock
    reading and [delay], and [failed_events] is untouched; when [n + 1]
    exceeds [MAX_RETRIES] it is appended to [failed_events] and
    [retry_queue] is untouched.  With [MAX_RETRIES = 3], the record of a
    job queued with count 0 goes to [retry_queue] at each of its first
    three failures and to [failed_events] at its fourth. *)
Theorem handle_failed_event_policy :
  forall (cfg : Worker.config) (e : Worker.env) (event_data : dict)
         (error : string) (w : Worker.world) (n : Z),
    get_default event_data "retry_count" (VInt 0) = VInt n ->
    let event_data' := Worker.mark_failed e event_data (VInt (n + 1)) error in
    let run := @Worker.handle_failed_event value cfg e event_data error w in
    let r' := Worker.redis_of (snd run) in
    dict_get event_data' "retry_count" = Some (VInt (n + 1))
    /\ (n + 1 <= Worker.MAX_RETRIES cfg -> 0 <= n ->
        forall delay,
          Shape.backoff_float e (Worker.RETRY_DELAY cfg) n delay ->
          fst run = Normal tt
          /\ r' = zadd_retry_queue (Worker.json_dumps e) (VDict event_data')
                    (Worker.float_add e (Worker.time_time e) delay)
                    (Worker.redis_of w)
          /\ failed_events r' = failed_events (Worker.redis_of w))
    /\ (Worker.MAX_RETRIES cfg < n + 1 ->
        fst run = Normal tt
        /\ r' = rpush_failed_events (VDict event_data') (Worker.redis_of w)
        /\ retry_queue r' = retry_queue (Worker.redis_of w))
    /\ (Worker.MAX_RETRIES cfg = 3 -> n = 0 ->
        forall (es : nat -> Worker.env) (errs : nat -> string) (k : nat),
        exists record,
          Worker.record_after es errs k event_data = Ok record
          /\ get_default record "retry_count" (VInt 0) = VInt (Z.of_nat k)
          /\ let after :=
               Worker.redis_of
                 (snd (@Worker.handle_failed_event value cfg (es k) record
                         (errs k) w)) in
             let record' :=
               Worker.mark_failed (es k) record (VInt (Z.of_nat k + 1)) (errs k) in
             ((k < 3)%nat ->
                (exists delay,
                   Shape.backoff_float (es k) (Worker.RETRY_DELAY cfg)
                     (Z.of_nat k) delay) ->
                failed_events after = failed_events (Worker.redis_of w)
                /\ In (VDict record') (map fst (retry_queue after)))
             /\ (k = 3%nat ->
                 failed_events after
                 = (failed_events (Worker.redis_of w) ++ [VDict record'])%list
                 /\ retry_queue after = retry_queue (Worker.redis_of w))).
Proof.
  intros cfg e event_data error w n Hn event_data' run r'.
  split.
  { unfold event_data', Worker.mark_failed.
    rewrite !dict_get_set_other by discriminate. apply dict_get_set_same. }
  split.
  { intros Hle Hpos delay Hdelay. subst r' run.
    rewrite (@handle_failed_event_int value cfg e event_data error w n delay Hn)
      by (intros _; now split).
    cbn [fst snd]. fold event_data'.
    apply Z.leb_le in Hle. rewrite Hle. repeat split. }
  split.
  { intros Hlt. subst r' run.
    rewrite (@handle_failed_event_int value cfg e event_data error w n 0 Hn)
      by (intros Hle; lia).
    cbn [fst snd]. fold event_data'.
    apply Z.leb_gt in Hlt. rewrite Hlt. repeat split. }
  intros Hmax -> es errs k.
  destruct (record_after_retry_count es errs event_data Hn k)
    as (record & Hrec & Hrc).
  exists record. split; [exact Hrec |]. split; [exact Hrc |].
  cbv zeta. split.
  - intros Hk (delay & Hdelay).
    rewrite (@handle_failed_event_int value cfg (es k) record (errs k) w
               (Z.of_nat k) delay Hrc)
      by (intros _; split; [lia | exact Hdelay]).
    cbn [snd]. rewrite Hmax.
    assert (Hle : (Z.of_nat k + 1 <=? 3) = true) by (apply Z.leb_le; lia).
    rewrite Hle. split; [reflexivity |].
    cbn [Worker.on_redis Worker.redis_of zadd_retry_queue retry_queue].
    apply in_map_iff. eexists. split; [| apply In_insert_by_score]. reflexivity.
  - intros ->.
    rewrite (@handle_failed_event_int value cfg (es 3%nat) record (errs 3%nat) w
               (Z.of_nat 3) 0 Hrc)
      by (rewrite Hmax; simpl; lia).
    cbn [snd]. rewrite Hmax. split; reflexivity.
Qed.

Lemma handle_failed_event_policy_witness :
  get_default Examples.new_pair_job "retry_count" (VInt 0) = VInt 0
  /\ Worker.MAX_RETRIES Examples.worker_cfg = 3
  /\ Shape.backoff_float Examples.failing_env
       (Worker.RETRY_DELAY Examples.worker_cfg) 0 60
  /\ Worker.redis_of
       (snd (@Worker.handle_failed_event value Examples.worker_cfg
               Examples.failing_env Examples.new_pair_job "boom"
               Examples.world0))
     = zadd_retry_queue Examples.job_text
         (VDict (Worker.mark_failed Examples.failing_env Examples.new_pair_job
                   (VInt 1) "boom"))
         (1700000000 + 60)%Q Redis.empty.
Proof.
  split; [reflexivity |]. split; [reflexivity |].
  assert (Hdelay : Shape.backoff_float Examples.failing_env
                     (Worker.RETRY_DELAY Examples.worker_cfg) 0 60)
    by reflexivity.
  split; [exact Hdelay |].
  destruct (@handle_failed_event_policy Examples.worker_cfg
              Examples.failing_env Examples.new_pair_job "boom"
              Examples.world0 0 eq_refl) as (_ & Hretry & _).
  destruct (Hretry ltac:(simpl; lia) ltac:(lia) 60%Q Hdelay) as (_ & Hq & _).
  exact Hq.
Defined.

(** ** Worker: linked child records *)

(** C3 (the code departs from it): a [new_pair] job for a stored,
    non-scam token that links the audit record [audit-1] succeeds after
    sending an upsert that creates a new [gpl_audit] record and an update
    of the token that carries the new record's id, [audit-2]; the
    source-code and token-information ids are written back unchanged.  On
    the same store, [store_new_token_in_supabase] updates the audit record
    [audit-1] in place and writes [audit-1] back. *)
Theorem update_pair_relinks_audit :
  let e := Examples.worker_env [VDict (Examples.token_row false)] in
  let run := Worker.process_webhook Examples.worker_cfg e
               Examples.new_pair_job Examples.world0 in
  let stored := Worker.store_new_token_in_supabase e
                  [("address", VStr "0xToken"); ("blockchain", VStr "ethereum");
                   ("raw_results", VDict [("owner_address", VStr "0xowner")])]
                  Examples.world0 in
  dict_get (Examples.token_row false) "gpl_audit_id" = Some (VStr "audit-1")
  /\ fst run = Ok (VBool true)
  /\ (exists audit row,
        Worker.db_log (snd run)
        = [Worker.Upsert "gpl_audit" audit;
           Worker.Update "tokens" row
             [("address", VStr "0xToken"); ("blockchain", VStr "ethereum")]]
        /\ dict_get row "gpl_audit_id" = Some (VStr "audit-2")
        /\ dict_get row "source_code_id" = Some (VStr "src-1")
        /\ dict_get row "token_information_id" = Some (VStr "info-1"))
  /\ (exists audit row,
        Worker.db_log (snd stored)
        = [Worker.Update "gpl_audit" audit [("id", VStr "audit-1")];
           Worker.Insert "tokens" row]
        /\ dict_get row "gpl_audit_id" = Some (VStr "audit-1")).
Proof.
  cbv zeta. split; [reflexivity |]. split; [vm_compute; reflexivity |].
  split.
  - eexists. eexists. split; [vm_compute; reflexivity |].
    repeat split; reflexivity.
  - eexists. eexists. split; [vm_compute; reflexivity | reflexivity].
Qed.

(** ** Worker: scam tokens are terminal *)

(** C9: a [new_pair] job that carries its fields, whose chain and address
    resolve, and whose token the store returns with a true [is_scam], ends
    with [True] and leaves the world as it was: nothing is sent to the
    relational store or to the counters, and no queue changes. *)
Theorem new_pair_scam_is_terminal :
  forall (cfg : Worker.config) (e : Worker.env) (event_data : dict)
         (w : Worker.world)
         (chain_id block_number event_id pair_address token_address : value)
         (blockchain address : value) (row : dict) (rows : list value),
    get event_data "event_type" = VStr "new_pair" ->
    dict_get event_data "chain_id" = Some chain_id ->
    dict_get event_data "block_number" = Some block_number ->
    dict_get event_data "event_id" = Some event_id ->
    dict_get event_data "pair_address" = Some pair_address ->
    dict_get event_data "token_address" = Some token_address ->
    Worker.convert_chain_id_to_blockchain e chain_id = Ok blockchain ->
    Worker.initialize_infura_web3_object e blockchain = Ok tt ->
    Worker.to_checksum_address e token_address = Ok address ->
    Worker.db_select e "tokens"
      ["name"; "symbol"; "contract_verified"; "classification";
       "classification_certainty"; "is_scam"; "source_code_id";
       "gpl_audit_id"; "token_information_id"]
      [("address", address); ("blockchain", blockchain)]
    = Ok (VDict row :: rows) ->
    truthy (get row "is_scam") = true ->
    Worker.process_new_pair cfg e event_data w = (Ok (VBool true), w)
    /\ Worker.process_webhook cfg e event_data w = (Ok (VBool true), w).
Proof.
  intros cfg e event_data w chain_id block_number event_id pair_address
    token_address blockchain address row rows
    Htype Hc Hb Hi Hp Ht Hconv Hinit Hsum Hsel Hscam.
  assert (Hpair : Worker.process_new_pair cfg e event_data w
                  = (Ok (VBool true), w)).
  { unfold Worker.process_new_pair, Worker.db_query, call, try_except, bind,
      lift, when, return_, ret, subscript.
    rewrite Hc, Hb, Hi, Hp, Hconv, Hinit, Ht, Hsum, Hsel.
    cbn [truthy Worker.first_row Gateway.py_first py_get].
    unfold get in Hscam. rewrite Hscam. reflexivity. }
  split; [exact Hpair |].
  unfold Worker.process_webhook, call, try_except, bind, of_call, return_.
  rewrite Htype. cbn [Gateway.eq_str].
  change (("new_pair" =? "new_token")%string) with false.
  change (("new_pair" =? "new_pair")%string) with true.
  cbv beta iota. rewrite Hpair. reflexivity.
Qed.

Lemma new_pair_scam_is_terminal_witness :
  truthy (get (Examples.token_row true) "is_scam") = true
  /\ Worker.process_webhook Examples.worker_cfg
       (Examples.worker_env [VDict (Examples.token_row true)])
       Examples.new_pair_job Examples.world0
     = (Ok (VBool true), Examples.world0).
Proof.
  split; [reflexivity |].
  exact (proj2 (@new_pair_scam_is_terminal Examples.worker_cfg
                  (Examples.worker_env [VDict (Examples.token_row true)])
                  Examples.new_pair_job Examples.world0
                  (VStr "0x1") (VStr "101") (VStr "evt2") (VStr "0xPair")
                  (VStr "0xToken") (VStr "ethereum") (VStr "0xToken")
                  (Examples.token_row true) []
                  eq_refl eq_refl eq_refl eq_refl eq_refl eq_refl
                  eq_refl eq_refl eq_refl eq_refl eq_refl)).
Defined.

(** ** Worker: what a job run leaves alone *)

Create HintDb frame.

Ltac frame_step extra :=
  first
    [ extra
    | inv_step
    | solve [eauto with frame]
    | apply inv_return; intros ? ?; solve [assumption | discriminate] ].

Section Frame.

(** A property of the world that the worker's own writes keep. *)
Variable I : Worker.world -> Prop.
Hypothesis I_zadd :
  forall t m s w, I w -> I (Worker.on_redis (zadd_retry_queue t m s) w).
Hypothesis I_failed :
  forall v w, I w -> I (Worker.on_redis (rpush_failed_events v) w).
Hypothesis I_notify :
  forall v w, I w -> I (Worker.on_redis (rpush_notification_queue v) w).
Hypothesis I_db : forall op w, I w -> I (Worker.log_db op w).
Hypothesis I_firestore : forall f w, I w -> I (Worker.log_firestore f w).

Lemma db_exec_frame {R} (Qr : R -> Worker.world -> Prop) e op :
  inv I Qr (Worker.db_exec e op).
Proof. unfold Worker.db_exec. repeat inv_step. intros; now apply I_db. Qed.

Lemma db_query_frame {R} (Qr : R -> Worker.world -> Prop) e t c f :
  inv I Qr (Worker.db_query e t c f).
Proof. unfold Worker.db_query. apply inv_lift. Qed.

Lemma handle_failed_event_frame {R} (Qr : R -> Worker.world -> Prop)
    cfg e event_data error :
  inv I Qr (Worker.handle_failed_event cfg e event_data error).
Proof.
  unfold Worker.handle_failed_event. repeat inv_step; intros; auto.
Qed.

Lemma increment_firestore_counter_frame {R} (Qr : R -> Worker.world -> Prop)
    e token_data :
  inv I Qr (Worker.increment_firestore_counter e token_data).
Proof.
  unfold Worker.increment_firestore_counter. repeat inv_step; intros; auto.
Qed.

Lemma notify_frame {R} (Qr : R -> Worker.world -> Prop) event_type token_data :
  inv I Qr (Worker.notify event_type token_data).
Proof. unfold Worker.notify. apply inv_modify. intros; auto. Qed.

Hint Resolve db_exec_frame db_query_frame handle_failed_event_frame
  increment_firestore_counter_frame notify_frame : frame.

Lemma link_child_records_frame {R} (Qr : R -> Worker.world -> Prop)
    e token_data supabase_token_data address blockchain :
  inv I Qr (Worker.link_child_records e token_data supabase_token_data
              address blockchain).
Proof.
  unfold Worker.link_child_records. repeat frame_step fail.
Qed.

Lemma insert_or_update_token_frame {R} (Qr : R -> Worker.world -> Prop)
    e (none : R) supabase_token_data address blockchain :
  (forall w, I w -> Qr none w) ->
  inv I Qr (Worker.insert_or_update_token e none supabase_token_data
              address blockchain).
Proof.
  intros Hnone. unfold Worker.insert_or_update_token.
  repeat frame_step ltac:(apply inv_return; exact Hnone).
Qed.

Hint Resolve link_child_records_frame insert_or_update_token_frame : frame.

Lemma store_new_token_in_supabase_frame e token_data w :
  I w -> I (snd (Worker.store_new_token_in_supabase e token_data w)).
Proof.
  unfold Worker.store_new_token_in_supabase. apply call_keeps.
  repeat frame_step ltac:(apply inv_return; intros ? ?; assumption).
Qed.

Lemma store_new_pair_data_in_supabase_frame e token_data w :
  I w -> I (snd (Worker.store_new_pair_data_in_supabase e token_data w)).
Proof.
  unfold Worker.store_new_pair_data_in_supabase. apply call_keeps.
  repeat frame_step ltac:(apply inv_return; intros ? ?; assumption).
Qed.

Lemma update_pair_data_in_supabase_frame e token_data s g t w :
  I w -> I (snd (Worker.update_pair_data_in_supabase e token_data s g t w)).
Proof.
  unfold Worker.update_pair_data_in_supabase. apply call_keeps.
  repeat frame_step ltac:(apply inv_return; intros ? ?; assumption).
Qed.

Lemma update_renounced_status_in_supabase_frame e a c w :
  I w -> I (snd (Worker.update_renounced_status_in_supabase e a c w)).
Proof.
  unfold Worker.update_renounced_status_in_supabase. apply call_keeps.
  repeat frame_step ltac:(apply inv_return; intros ? ?; assumption).
Qed.

Hint Resolve store_new_token_in_supabase_frame
  store_new_pair_data_in_supabase_frame update_pair_data_in_supabase_frame
  update_renounced_status_in_supabase_frame : frame.

Ltac frame_body :=
  repeat frame_step
    ltac:(first [ apply inv_return; intros ? ?; assumption
                | apply inv_of_call; intros ? ?; solve [eauto with frame]
                | apply inv_gathered; intros ? ?; solve [eauto with frame] ]).

Lemma update_existing_pair_frame cfg e event_data event_type transformed_data
    token_data existing_data :
  inv I (fun _ => I)
      (Worker.update_existing_pair cfg e event_data event_type transformed_data
         token_data existing_data).
Proof. unfold Worker.update_existing_pair. frame_body. Qed.

Lemma store_fresh_pair_frame cfg e event_data token_data :
  inv I (fun _ => I) (Worker.store_fresh_pair cfg e event_data token_data).
Proof. unfold Worker.store_fresh_pair. frame_body. Qed.

Hint Resolve update_existing_pair_frame store_fresh_pair_frame : frame.

Lemma process_new_token_frame cfg e event_data w :
  I w -> I (snd (Worker.process_new_token cfg e event_data w)).
Proof. unfold Worker.process_new_token. apply call_keeps. frame_body. Qed.

Lemma process_new_pair_frame cfg e event_data w :
  I w -> I (snd (Worker.process_new_pair cfg e event_data w)).
Proof. unfold Worker.process_new_pair. apply call_keeps. frame_body. Qed.

Lemma process_lock_lp_frame cfg e event_data w :
  I w -> I (snd (Worker.process_lock_lp cfg e event_data w)).
Proof. unfold Worker.process_lock_lp. apply call_keeps. frame_body. Qed.

Lemma process_ownership_renounced_frame cfg e event_data w :
  I w -> I (snd (Worker.process_ownership_renounced cfg e event_data w)).
Proof.
  unfold Worker.process_ownership_renounced. apply call_keeps. frame_body.
Qed.

Hint Resolve process_new_token_frame process_new_pair_frame
  process_lock_lp_frame process_ownership_renounced_frame : frame.

(** Whatever the job and the collaborators' answers, [process_webhook]
    keeps [I]. *)
Lemma process_webhook_frame cfg e event_data w :
  I w -> I (snd (Worker.process_webhook cfg e event_data w)).
Proof. unfold Worker.process_webhook. apply call_keeps. frame_body. Qed.

Hint Resolve process_webhook_frame : frame.

Lemma retry_each_frame cfg envs ready_events :
  forall i, inv I (fun _ => I) (Worker.retry_each cfg envs i ready_events).
Proof.
  induction ready_events as [| event_json rest IH]; intros i; simpl.
  - apply inv_ret.
  - frame_body.
Qed.

End Frame.

(** ** Worker: the retry scheduler *)





(** ** Worker: failed jobs *)

Section Routing.

Variable cfg : Worker.config.
Variable e : Worker.env.
Variable event_data : dict.
Variable n : Z.
Hypothesis retry_count_int :
  get_default event_data "retry_count" (VInt 0) = VInt n.
Hypothesis backoff_is_float :
  n + 1 <= Worker.MAX_RETRIES cfg ->
  0 <= n /\ exists delay, Shape.backoff_float e (Worker.RETRY_DELAY cfg) n delay.

(** What a [return] of a handler must establish. *)
Let Qr (r : value) (w : Worker.world) : Prop :=
  r = VBool false -> Worker.routed e event_data n w.

Let T (w : Worker.world) : Prop := True.

Lemma handle_failed_event_routes (error : string) (w : Worker.world) :
  exists w',
    @Worker.handle_failed_event value cfg e event_data error w = (Normal tt, w')
    /\ Worker.routed e event_data n w'.
Proof.
  destruct (n + 1 <=? Worker.MAX_RETRIES cfg) eqn:Hle.
  - apply Z.leb_le in Hle.
    destruct (backoff_is_float Hle) as (Hn & delay & Hdelay).
    rewrite (@handle_failed_event_int value cfg e event_data error w n delay
               retry_count_int) by (intros _; now split).
    eexists. split; [reflexivity |].
    exists error. cbv zeta. apply Z.leb_le in Hle. rewrite Hle.
    left. simpl. apply in_map_iff. eexists.
    split; [| apply In_insert_by_score]. reflexivity.
  - apply Z.leb_gt in Hle.
    rewrite (@handle_failed_event_int value cfg e event_data error w n 0
               retry_count_int) by (intros Hle'; lia).
    eexists. split; [reflexivity |].
    exists error. cbv zeta. apply Z.leb_gt in Hle. rewrite Hle.
    right. simpl. apply in_or_app. right. now left.
Qed.

(** [handle_failed_event(...); return False] *)
Lemma fail_block_routes {A} (error : string) :
  inv T Qr (bind (Worker.handle_failed_event cfg e event_data error)
                 (fun _ => return_ (VBool false) : M Worker.world value A)).
Proof.
  intros w _. unfold bind.
  destruct (handle_failed_event_routes error w) as (w' & -> & Hr).
  intros _. exact Hr.
Qed.

Ltac routes_step :=
  frame_step
    ltac:(first
            [ apply fail_block_routes
            | apply inv_return; intros ? ?; intros ?; discriminate
            | apply inv_of_call; intros ? ?; exact Logic.I
            | apply inv_gathered; intros ? ?; exact Logic.I
            | apply db_exec_frame; intros; exact Logic.I
            | apply db_query_frame
            | apply handle_failed_event_frame; intros; exact Logic.I
            | apply increment_firestore_counter_frame; intros; exact Logic.I
            | apply notify_frame; intros; exact Logic.I ]).

Lemma update_existing_pair_routes event_type transformed_data token_data
    existing_data :
  inv T Qr (Worker.update_existing_pair cfg e event_data event_type
              transformed_data token_data existing_data).
Proof. unfold Worker.update_existing_pair. repeat routes_step. Qed.

Lemma store_fresh_pair_routes token_data :
  inv T Qr (Worker.store_fresh_pair cfg e event_data token_data).
Proof. unfold Worker.store_fresh_pair. repeat routes_step. Qed.

(** The result of a handler whose body establishes [Qr] at its returns. *)
Lemma call_routes (body : M Worker.world value unit) (w : Worker.world) :
  inv T Qr body ->
  fst (call VNone body w) = Ok (VBool false) ->
  Worker.routed e event_data n (snd (call VNone body w)).
Proof.
  intros H. specialize (H w Logic.I). unfold call.
  destruct (body w) as [[a | r | ex] w']; simpl; intros Hr;
    [discriminate | | discriminate].
  apply H. now inversion Hr.
Qed.

Lemma process_new_token_routes (w : Worker.world) :
  fst (Worker.process_new_token cfg e event_data w) = Ok (VBool false) ->
  Worker.routed e event_data n
    (snd (Worker.process_new_token cfg e event_data w)).
Proof.
  unfold Worker.process_new_token. apply call_routes. repeat routes_step.
Qed.

Lemma process_new_pair_routes (w : Worker.world) :
  fst (Worker.process_new_pair cfg e event_data w) = Ok (VBool false) ->
  Worker.routed e event_data n
    (snd (Worker.process_new_pair cfg e event_data w)).
Proof.
  unfold Worker.process_new_pair. apply call_routes.
  repeat first [ apply update_existing_pair_routes
               | apply store_fresh_pair_routes
               | routes_step ].
Qed.

Lemma process_ownership_renounced_routes (w : Worker.world) :
  fst (Worker.process_ownership_renounced cfg e event_data w)
  = Ok (VBool false) ->
  Worker.routed e event_data n
    (snd (Worker.process_ownership_renounced cfg e event_data w)).
Proof.
  unfold Worker.process_ownership_renounced. apply call_routes.
  repeat routes_step.
Qed.

Lemma process_lock_lp_routes (w : Worker.world) :
  (forall v, Worker.lp_token_of event_data = Ok v -> truthy v = true) ->
  fst (Worker.process_lock_lp cfg e event_data w) = Ok (VBool false) ->
  Worker.routed e event_data n
    (snd (Worker.process_lock_lp cfg e event_data w)).
Proof.
  intros Hlp. unfold Worker.process_lock_lp. apply call_routes.
  apply inv_try; [| intros ex; apply fail_block_routes].
  apply inv_bind_lift. intros lp_token Hv. rewrite (Hlp lp_token Hv).
  cbn [negb when].
  repeat first [ apply update_existing_pair_routes | routes_step ].
Qed.

End Routing.

(** A job of one of the four known types whose [retry_count] is an
    integer and whose back-off, when it is computed, is a number that a
    float holds, and which, if it is a [lock_lp] job, names an LP token,
    is never dropped when its processing returns [False]: after the run
    the job, with its failure recorded, is in [retry_queue] or in
    [failed_events]. *)
Lemma failed_job_is_routed :
  forall (cfg : Worker.config) (e : Worker.env) (event_data : dict) (n : Z)
         (w : Worker.world),
    get_default event_data "retry_count" (VInt 0) = VInt n ->
    (n + 1 <= Worker.MAX_RETRIES cfg ->
     0 <= n
     /\ exists delay, Shape.backoff_float e (Worker.RETRY_DELAY cfg) n delay) ->
    In (get event_data "event_type")
       [VStr "new_token"; VStr "new_pair"; VStr "lock_lp";
        VStr "ownership_renounced"] ->
    (get event_data "event_type" = VStr "lock_lp" ->
     forall v, Worker.lp_token_of event_data = Ok v -> truthy v = true) ->
    fst (Worker.process_webhook cfg e event_data w) = Ok (VBool false) ->
    Worker.routed e event_data n
      (snd (Worker.process_webhook cfg e event_data w)).
Proof.
  intros cfg e event_data n w Hn Hback Htype Hlp.
  assert (Hdispatch :
    forall (handler : Worker.world -> result value * Worker.world),
      (fst (handler w) = Ok (VBool false) ->
       Worker.routed e event_data n (snd (handler w))) ->
      let run := call VNone
                   (try_except
                      (bind (of_call handler) (fun r => return_ r))
                      (fun ex =>
                         bind (Worker.handle_failed_event cfg e event_data
                                 (str_exn ex))
                              (fun _ => return_ (VBool false)))) w in
      fst run = Ok (VBool false) -> Worker.routed e event_data n (snd run)).
  { intros handler Hh. unfold call, try_except, bind, of_call, return_.
    destruct (handler w) as [[r | ex] w']; simpl in *; [exact Hh |].
    destruct (handle_failed_event_routes cfg e event_data Hn Hback
                (str_exn ex) w')
      as (w'' & -> & Hr).
    intros _. exact Hr. }
  unfold Worker.process_webhook.
  destruct Htype as [Ht | [Ht | [Ht | [Ht | []]]]]; symmetry in Ht;
    rewrite Ht; cbn [Gateway.eq_str].
  - change (("new_token" =? "new_token")%string) with true. cbv iota.
    apply Hdispatch. now apply process_new_token_routes.
  - change (("new_pair" =? "new_token")%string) with false.
    change (("new_pair" =? "new_pair")%string) with true. cbv iota.
    apply Hdispatch. now apply process_new_pair_routes.
  - change (("lock_lp" =? "new_token")%string) with false.
    change (("lock_lp" =? "new_pair")%string) with false.
    change (("lock_lp" =? "lock_lp")%string) with true. cbv iota.
    apply Hdispatch. apply process_lock_lp_routes; auto.
  - change (("ownership_renounced" =? "new_token")%string) with false.
    change (("ownership_renounced" =? "new_pair")%string) with false.
    change (("ownership_renounced" =? "lock_lp")%string) with false.
    change (("ownership_renounced" =? "ownership_renounced")%string) with true.
    cbv iota.
    apply Hdispatch. now apply process_ownership_renounced_routes.
Qed.

(** A [lock_lp] job without an LP token, and a job of an unknown type,
    both end with [False] and leave the retry set and the dead-letter list
    empty: the two guards reject a malformed job without retry. *)
Lemma malformed_jobs_are_dropped :
  Worker.process_webhook Examples.worker_cfg (Examples.worker_env [])
    Examples.bare_lock_lp_job Examples.world0
  = (Ok (VBool false), Examples.world0)
  /\ Worker.process_webhook Examples.worker_cfg (Examples.worker_env [])
       Examples.unknown_job Examples.world0
     = (Ok (VBool false), Examples.world0)
  /\ retry_queue (Worker.redis_of Examples.world0) = []
  /\ failed_events (Worker.redis_of Examples.world0) = [].
Proof. repeat split; vm_compute; reflexivity. Qed.

(** C1 (the code departs from it): a [new_token] job whose enrichment
    answers while the relational store refuses every write ends with
    [True].  [store_new_token_in_supabase] has caught the failure and
    returned [None], which the test for a storage error of
    [process_new_token] does not see: every request sent to the store was
    refused, the job is neither in [retry_queue] nor in [failed_events],
    and the token is announced.  The same happens when the store cannot
    be reached at all.  On the same store the handler of [new_pair],
    which tests the [None], ends with [False] and puts its job, with the
    failure recorded, in [retry_queue]. *)
Theorem new_token_store_failure_is_lost :
  let e := MoreExamples.refusing_store_env in
  let run := Worker.process_webhook Examples.worker_cfg e
               MoreExamples.new_token_job Examples.world0 in
  let unreachable := Worker.process_webhook Examples.worker_cfg
                       MoreExamples.store_down_env
                       MoreExamples.new_token_job Examples.world0 in
  let sibling := Worker.process_webhook Examples.worker_cfg e
                   Examples.new_pair_job Examples.world0 in
  fst run = Ok (VBool true)
  /\ Worker.db_log (snd run) <> []
  /\ Forall (fun op => exists ex, Worker.db_response e op = Err ex)
            (Worker.db_log (snd run))
  /\ fst (Worker.store_new_token_in_supabase e
            [("address", VStr "0xToken"); ("blockchain", VStr "ethereum");
             ("raw_results", VDict [("owner_address", VStr "0xowner")])]
            Examples.world0) = Ok VNone
  /\ retry_queue (Worker.redis_of (snd run)) = []
  /\ failed_events (Worker.redis_of (snd run)) = []
  /\ List.length (notification_queue (Worker.redis_of (snd run))) = 1%nat
  /\ fst unreachable = Ok (VBool true)
  /\ Worker.db_log (snd unreachable) = []
  /\ retry_queue (Worker.redis_of (snd unreachable)) = []
  /\ failed_events (Worker.redis_of (snd unreachable)) = []
  /\ fst sibling = Ok (VBool false)
  /\ map fst (retry_queue (Worker.redis_of (snd sibling)))
     = [VDict (Worker.mark_failed e Examples.new_pair_job (VInt 1)
                 "Failed to store new pair data")].
Proof.
  cbv zeta.
  split; [vm_compute; reflexivity |].
  split; [vm_compute; discriminate |].
  split.
  { vm_compute. repeat constructor; eexists; reflexivity. }
  repeat split; vm_compute; reflexivity.
Qed.

(* ===================================================================== *)
(** * Further properties of the notification filters *)
(* ===================================================================== *)

Section MoreFilterFacts.

Variable float_of_string : string -> option Q.

Lemma chain_id_mapping_get_hashable (v : value) :
  Gateway.hashable v = true -> exists b, Filters.chain_id_mapping_get v = Ok b.
Proof. destruct v; simpl; intros H; try discriminate; eauto. Qed.

(** X1: A filter record whose classification is [all], whose alert type names
    no event kind, and whose other fields are absent or blank passes every
    snapshot whose text fields are text. *)
Theorem apply_filters_unconstrained :
  forall (filters message_data : dict) (a t r c et : string),
    truthy (get filters "buy_tax") = false ->
    truthy (get filters "sell_tax") = false ->
    get_default filters "risk_level" (VStr "") = VStr "" ->
    Filters.is_True (get filters "contract_verified") = false ->
    get_default filters "classification" (VStr "") = VStr a ->
    lower a = "all" ->
    get_default filters "alert_type" (VStr "") = VStr t ->
    lower t <> "new tge" -> lower t <> "new dex listing" ->
    Filters.is_True (get filters "has_social") = false ->
    truthy (get_default filters "blockchains" (VList [])) = false ->
    truthy (get filters "locked_lp") = false ->
    get_default message_data "risk_level" (VStr "") = VStr r ->
    get_default message_data "classification" (VStr "") = VStr c ->
    get_default message_data "event_type" (VStr "") = VStr et ->
    Gateway.hashable (get message_data "chain_id") = true ->
    Filters.apply_filters float_of_string filters message_data = Ok true.
Proof.
  intros filters message_data a t r c et Hb Hs Hr Hv Hc Ha Ht Ht1 Ht2 Hso Hbl
    Hl Hmr Hmc Hme Hch.
  destruct (chain_id_mapping_get_hashable _ Hch) as [mb Hmb].
  unfold Filters.apply_filters.
  rewrite Hr, Hc, Ht, Hmr, Hmc, Hme, Hmb. cbn [str_lower rbind].
  unfold Filters.blockchain_excludes. rewrite Hbl. cbn [andb rbind].
  rewrite Hso. cbn [andb].
  unfold Filters.event_type_excludes.
  apply String.eqb_neq in Ht1, Ht2. rewrite Ht1, Ht2. cbn [andb].
  replace (if negb (lower t =? "all")%string then false else false)
    with false by (destruct (negb _); reflexivity).
  unfold Filters.locked_lp_excludes. rewrite Hl. cbn [andb].
  replace (if negb (lower et =? "new_token")%string then false else false)
    with false by (destruct (negb _); reflexivity).
  unfold Filters.classification_excludes. rewrite Ha. cbn [String.eqb negb].
  change (("all" =? "all")%string) with true. cbn [negb].
  rewrite Hv. cbn [andb].
  unfold Filters.risk_ceiling_excludes. cbn [lower String.eqb negb].
  unfold Filters.tax_excludes. rewrite Hb, Hs. reflexivity.
Qed.

Ltac filters_prefix :=
  repeat first
    [ progress cbn [str_lower rbind]
    | match goal with
      | |- forall b, rbind ?c _ = Ok b -> _ =>
          destruct c; cbn [rbind]; [| intros ? ?; discriminate]
      end ].

Ltac filters_checks :=
  intros ?;
  repeat match goal with
         | |- context [if ?c then Ok false else _] =>
             lazymatch c with
             | true => fail
             | _ => destruct c
             end
         end;
  cbv iota; intros E; inversion E; reflexivity.

(** X2: The locked-liquidity floor.  For an event other than [new_token] and
    an alert type other than [new tge], both ASCII text, a snapshot whose
    locked percentage is a number below the float that the floor of the
    filter reads as is never passed. *)
Theorem apply_filters_locked_lp_floor :
  forall (filters message_data : dict) (t et : string) (floor locked : Q),
    get_default message_data "event_type" (VStr "") = VStr et ->
    is_ascii et = true ->
    lower et <> "new_token" ->
    get_default filters "alert_type" (VStr "") = VStr t ->
    is_ascii t = true ->
    lower t <> "new tge" ->
    truthy (get filters "locked_lp") = true ->
    Filters.py_float float_of_string (get filters "locked_lp") = Ok floor ->
    to_num (get_default message_data "locked_lp" (VFloat 0)) = Some locked ->
    (locked < floor)%Q ->
    forall b, Filters.apply_filters float_of_string filters message_data = Ok b ->
              b = false.
Proof.
  intros filters message_data t et floor locked He _ Hne Ht _ Hnt Htr Hfl Hml
    Hlt.
  assert (Hex : Filters.locked_lp_excludes float_of_string
                  (get filters "locked_lp") (lower t) (lower et)
                  (get_default message_data "locked_lp" (VFloat 0)) = true).
  { unfold Filters.locked_lp_excludes.
    apply String.eqb_neq in Hne, Hnt. rewrite Hne, Hnt, Htr. cbn [negb andb].
    rewrite Hfl. cbn [rbind].
    unfold Filters.lt_float. rewrite Hml. unfold Filters.Qlt_bool.
    destruct (Qle_bool floor locked) eqn:E; [| reflexivity].
    apply Qle_bool_iff in E. exfalso. now apply (Qlt_not_le _ _ Hlt). }
  unfold Filters.apply_filters. rewrite He, Ht.
  filters_prefix. cbn [str_lower rbind]. filters_prefix.
  cbn [str_lower rbind]. filters_prefix.
  rewrite Hex. filters_checks.
Qed.

(** X3: For a [new_token] event the locked-liquidity floor is not consulted:
    the outcome does not depend on the filter's [locked_lp]. *)
Theorem apply_filters_new_token_ignores_locked_lp :
  forall (filters message_data : dict) (et : string) (v : value),
    get_default message_data "event_type" (VStr "") = VStr et ->
    lower et = "new_token" ->
    Filters.apply_filters float_of_string
      (dict_set filters "locked_lp" v) message_data
    = Filters.apply_filters float_of_string filters message_data.
Proof.
  intros filters message_data et v He Hnt.
  unfold Filters.apply_filters, get, get_default in *.
  rewrite dict_get_set_same.
  rewrite !dict_get_set_other by discriminate.
  rewrite He. cbn [str_lower rbind].
  repeat match goal with
         | |- rbind ?c _ = rbind ?c _ =>
             destruct c; cbn [rbind]; [| reflexivity]
         end.
  unfold Filters.locked_lp_excludes. rewrite Hnt.
  change (("new_token" =? "new_token")%string) with true. cbn [negb].
  reflexivity.
Qed.

(** X4: Fail closed: a tax ceiling that is set and cannot be read as a number
    never lets a snapshot pass. *)
Theorem apply_filters_unreadable_tax_ceiling :
  forall (filters message_data : dict) (k : string) (ex : exn),
    k = "buy_tax" \/ k = "sell_tax" ->
    truthy (get filters k) = true ->
    Filters.py_float float_of_string (get filters k) = Err ex ->
    forall b, Filters.apply_filters float_of_string filters message_data = Ok b ->
              b = false.
Proof.
  intros filters message_data k ex Hk Htr Hfl.
  assert (Hex : forall m, Filters.tax_excludes float_of_string
                            (get filters k) m = true).
  { intros m. unfold Filters.tax_excludes. now rewrite Htr, Hfl. }
  unfold Filters.apply_filters.
  filters_prefix.
  destruct Hk as [-> | ->].
  - rewrite Hex. filters_checks.
  - rewrite Hex. filters_checks.
Qed.

Lemma lower_nonempty (s : string) : s <> "" -> lower s <> "".
Proof. destruct s; simpl; [congruence | discriminate]. Qed.

(** X5: Raising the risk ceiling never excludes more: a snapshot passed under
    a ceiling is passed under any ceiling of equal or higher rank. *)
Theorem apply_filters_risk_ceiling_monotone :
  forall (filters message_data : dict) (r1 r2 : string),
    r1 <> "" ->
    Filters.risk_value (lower r1) <= Filters.risk_value (lower r2) ->
    Filters.apply_filters float_of_string
      (dict_set filters "risk_level" (VStr r1)) message_data = Ok true ->
    Filters.apply_filters float_of_string
      (dict_set filters "risk_level" (VStr r2)) message_data = Ok true.
Proof.
  intros filters message_data r1 r2 Hr1 Hle.
  assert (Hmono : forall x,
            Filters.risk_ceiling_excludes (lower r1) x = false ->
            Filters.risk_ceiling_excludes (lower r2) x = false).
  { intros x. unfold Filters.risk_ceiling_excludes.
    apply lower_nonempty, String.eqb_neq in Hr1. rewrite Hr1. cbn [negb].
    destruct (negb (lower r2 =? "")%string); [| reflexivity].
    rewrite !Z.gtb_ltb, !Z.ltb_ge. lia. }
  unfold Filters.apply_filters, get, get_default.
  rewrite !dict_get_set_same.
  rewrite !dict_get_set_other by discriminate.
  cbn [str_lower rbind].
  repeat match goal with
         | |- rbind ?c _ = Ok true -> rbind ?c _ = Ok true =>
             destruct c; cbn [rbind]; [| discriminate]
         end.
  repeat match goal with
         | |- (if ?c then Ok false else _) = Ok true -> _ =>
             first [ is_var c; destruct c
                   | lazymatch c with
                     | Filters.risk_ceiling_excludes _ _ => fail
                     | _ => destruct c
                     end ];
             [discriminate |]
         end.
  match goal with
  | |- (if Filters.risk_ceiling_excludes (lower r1) ?x then _ else _) = _
       -> _ =>
      destruct (Filters.risk_ceiling_excludes (lower r1) x) eqn:E;
      [discriminate |]; rewrite (Hmono _ E)
  end.
  auto.
Qed.

(** X6: The [exclude memecoins] rule: a memecoin snapshot is never passed, and
    any other snapshot is filtered as under the classification [all]. *)
Theorem apply_filters_exclude_memecoins :
  forall (filters message_data : dict) (a c : string),
    dict_get filters "classification" = Some (VStr a) ->
    lower a = "exclude memecoins" ->
    get_default message_data "classification" (VStr "") = VStr c ->
    (lower c = "memecoins" ->
     forall b, Filters.apply_filters float_of_string filters message_data = Ok b ->
               b = false)
    /\ (lower c <> "memecoins" ->
        Filters.apply_filters float_of_string filters message_data
        = Filters.apply_filters float_of_string
            (dict_set filters "classification" (VStr "all")) message_data).
Proof.
  intros filters message_data a c Hf Ha Hc. split.
  - intros Hm.
    unfold Filters.apply_filters, get, get_default in *.
    rewrite Hf, Hc. cbn [str_lower rbind].
    filters_prefix. cbn [str_lower rbind]. filters_prefix.
    unfold Filters.classification_excludes. rewrite Ha, Hm.
    change (negb ("exclude memecoins" =? "all")%string) with true.
    change (("exclude memecoins" =? "exclude memecoins")%string) with true.
    change (("memecoins" =? "memecoins")%string) with true.
    cbv iota. filters_checks.
  - intros Hm.
    unfold Filters.apply_filters, get, get_default in *.
    rewrite dict_get_set_same.
    rewrite !dict_get_set_other by discriminate.
    rewrite Hf, Hc. cbn [str_lower rbind lower].
    repeat match goal with
           | |- rbind ?c _ = rbind ?c _ =>
               destruct c; cbn [rbind]; [| reflexivity]
           end.
    unfold Filters.classification_excludes. rewrite Ha.
    apply String.eqb_neq in Hm. rewrite Hm. reflexivity.
Qed.

End MoreFilterFacts.

Lemma apply_filters_unconstrained_witness :
  Filters.apply_filters (fun _ => None)
    [("classification", VStr "All"); ("alert_type", VStr "all");
     ("buy_tax", VStr "")]
    [("event_type", VStr "new_pair"); ("chain_id", VStr "0x1");
     ("classification", VStr "Memecoins"); ("risk_level", VStr "High")]
  = Ok true.
Proof.
  apply (@apply_filters_unconstrained (fun _ => None)
           [("classification", VStr "All"); ("alert_type", VStr "all");
            ("buy_tax", VStr "")]
           [("event_type", VStr "new_pair"); ("chain_id", VStr "0x1");
            ("classification", VStr "Memecoins"); ("risk_level", VStr "High")]
           "All" "all" "High" "Memecoins" "new_pair");
    try reflexivity; simpl; discriminate.
Defined.

Lemma apply_filters_locked_lp_floor_witness :
  Filters.apply_filters (fun _ => None)
    [("classification", VStr "all"); ("alert_type", VStr "all");
     ("locked_lp", VInt 10)]
    [("event_type", VStr "new_pair"); ("chain_id", VStr "0x1");
     ("locked_lp", VFloat 5)] = Ok false.
Proof.
  assert (Hrun : exists b,
             Filters.apply_filters (fun _ => None)
               [("classification", VStr "all"); ("alert_type", VStr "all");
                ("locked_lp", VInt 10)]
               [("event_type", VStr "new_pair"); ("chain_id", VStr "0x1");
                ("locked_lp", VFloat 5)] = Ok b)
    by (eexists; vm_compute; reflexivity).
  destruct Hrun as [b Hb]. rewrite Hb. f_equal.
  apply (@apply_filters_locked_lp_floor (fun _ => None)
           [("classification", VStr "all"); ("alert_type", VStr "all");
            ("locked_lp", VInt 10)]
           [("event_type", VStr "new_pair"); ("chain_id", VStr "0x1");
            ("locked_lp", VFloat 5)]
           "all" "new_pair" (inject_Z 10) 5%Q);
    try reflexivity; try exact Hb; simpl; discriminate.
Defined.

Lemma apply_filters_new_token_ignores_locked_lp_witness :
  Filters.apply_filters (fun _ => None)
    (dict_set [("classification", VStr "all")] "locked_lp" (VInt 90))
    [("event_type", VStr "new_token"); ("locked_lp", VFloat 0)]
  = Filters.apply_filters (fun _ => None)
      [("classification", VStr "all")]
      [("event_type", VStr "new_token"); ("locked_lp", VFloat 0)].
Proof.
  apply (@apply_filters_new_token_ignores_locked_lp (fun _ => None)
           [("classification", VStr "all")]
           [("event_type", VStr "new_token"); ("locked_lp", VFloat 0)]
           "new_token" (VInt 90)); reflexivity.
Defined.

Lemma apply_filters_unreadable_tax_ceiling_witness :
  Filters.apply_filters (fun _ => None)
    [("classification", VStr "all"); ("buy_tax", VStr "five")]
    [("event_type", VStr "new_token"); ("buy_tax", VStr "1%")] = Ok false.
Proof.
  assert (Hrun : exists b,
             Filters.apply_filters (fun _ => None)
               [("classification", VStr "all"); ("buy_tax", VStr "five")]
               [("event_type", VStr "new_token"); ("buy_tax", VStr "1%")]
             = Ok b)
    by (eexists; vm_compute; reflexivity).
  destruct Hrun as [b Hb]. rewrite Hb. f_equal.
  apply (@apply_filters_unreadable_tax_ceiling (fun _ => None)
           [("classification", VStr "all"); ("buy_tax", VStr "five")]
           [("event_type", VStr "new_token"); ("buy_tax", VStr "1%")]
           "buy_tax"
           (Exc "ValueError" "could not convert string to float"));
    [left; reflexivity | reflexivity | reflexivity | exact Hb].
Defined.

Lemma apply_filters_risk_ceiling_monotone_witness :
  Filters.apply_filters (fun _ => None)
    (dict_set [("classification", VStr "all")] "risk_level" (VStr "High"))
    [("risk_level", VStr "Low")] = Ok true.
Proof.
  apply (@apply_filters_risk_ceiling_monotone (fun _ => None)
           [("classification", VStr "all")] [("risk_level", VStr "Low")]
           "Low" "High").
  - discriminate.
  - vm_compute. discriminate.
  - reflexivity.
Defined.

Lemma apply_filters_exclude_memecoins_witness :
  (forall b,
     Filters.apply_filters (fun _ => None)
       [("classification", VStr "Exclude Memecoins")]
       [("classification", VStr "Memecoins")] = Ok b -> b = false)
  /\ Filters.apply_filters (fun _ => None)
       [("classification", VStr "Exclude Memecoins")]
       [("classification", VStr "DeFi")]
     = Filters.apply_filters (fun _ => None)
         (dict_set [("classification", VStr "Exclude Memecoins")]
                   "classification" (VStr "all"))
         [("classification", VStr "DeFi")].
Proof.
  split.
  - apply (proj1 (@apply_filters_exclude_memecoins (fun _ => None)
                    [("classification", VStr "Exclude Memecoins")]
                    [("classification", VStr "Memecoins")]
                    "Exclude Memecoins" "Memecoins"
                    eq_refl eq_refl eq_refl)).
    reflexivity.
  - apply (proj2 (@apply_filters_exclude_memecoins (fun _ => None)
                    [("classification", VStr "Exclude Memecoins")]
                    [("classification", VStr "DeFi")]
                    "Exclude Memecoins" "DeFi"
                    eq_refl eq_refl eq_refl)).
    simpl. discriminate.
Defined.


(** * Rules for specifications of blocks *)

Section TripleRules.

Context {S R : Type}.

Lemma triple_conseq {A} (P P' : S -> Prop) (m : M S R A)
    (Qn Qn' : A -> S -> Prop) (Qr Qr' : R -> S -> Prop)
    (Qe Qe' : exn -> S -> Prop) :
  triple P' m Qn' Qr' Qe' ->
  (forall s, P s -> P' s) ->
  (forall a s, Qn' a s -> Qn a s) ->
  (forall r s, Qr' r s -> Qr r s) ->
  (forall ex s, Qe' ex s -> Qe ex s) ->
  triple P m Qn Qr Qe.
Proof.
  intros H HP Hn Hr He s Hs. specialize (H s (HP s Hs)).
  destruct (m s) as [[a | r | ex] s']; auto.
Qed.

Lemma triple_ret {A} (P : S -> Prop) (a : A) Qn (Qr : R -> S -> Prop) Qe :
  (forall s, P s -> Qn a s) -> triple P (ret a) Qn Qr Qe.
Proof. intros H s Hs. now apply H. Qed.

Lemma triple_return {A} (P : S -> Prop) (r : R) (Qn : A -> S -> Prop) Qr Qe :
  (forall s, P s -> Qr r s) -> triple P (return_ r) Qn Qr Qe.
Proof. intros H s Hs. now apply H. Qed.

Lemma triple_raise {A} (P : S -> Prop) (ex : exn) (Qn : A -> S -> Prop)
    (Qr : R -> S -> Prop) Qe :
  (forall s, P s -> Qe ex s) -> triple P (raise ex) Qn Qr Qe.
Proof. intros H s Hs. now apply H. Qed.

Lemma triple_lift {A} (P : S -> Prop) (r : result A) Qn (Qr : R -> S -> Prop) Qe :
  (forall a s, r = Ok a -> P s -> Qn a s) ->
  (forall ex s, r = Err ex -> P s -> Qe ex s) ->
  triple P (lift r) Qn Qr Qe.
Proof. intros Hn He s Hs. unfold lift. destruct r; auto. Qed.

Lemma triple_modify (P : S -> Prop) (f : S -> S) Qn (Qr : R -> S -> Prop) Qe :
  (forall s, P s -> Qn tt (f s)) -> triple P (modify f) Qn Qr Qe.
Proof. intros H s Hs. now apply H. Qed.

Lemma triple_bind {A B} (P : S -> Prop) (m : M S R A) (f : A -> M S R B)
    (Qm : A -> S -> Prop) Qn Qr Qe :
  triple P m Qm Qr Qe ->
  (forall a, triple (Qm a) (f a) Qn Qr Qe) ->
  triple P (bind m f) Qn Qr Qe.
Proof.
  intros Hm Hf s Hs. unfold bind. specialize (Hm s Hs).
  destruct (m s) as [[a | r | ex] s']; auto. now apply Hf.
Qed.

(** The value bound from an expression is the one it evaluates to. *)
Lemma triple_bind_lift {A B} (P : S -> Prop) (r : result A)
    (f : A -> M S R B) Qn Qr Qe :
  (forall ex s, r = Err ex -> P s -> Qe ex s) ->
  (forall a, r = Ok a -> triple P (f a) Qn Qr Qe) ->
  triple P (bind (lift r) f) Qn Qr Qe.
Proof.
  intros He Hf s Hs. unfold bind, lift. destruct r as [a | ex]; auto.
  now apply Hf.
Qed.

Lemma triple_bind_modify {B} (P : S -> Prop) (g : S -> S)
    (f : unit -> M S R B) Qn Qr Qe :
  triple (fun s' => exists s, P s /\ s' = g s) (f tt) Qn Qr Qe ->
  triple P (bind (modify g) f) Qn Qr Qe.
Proof. intros H s Hs. unfold bind, modify. apply H. eauto. Qed.

(** [if c: m] followed by the rest of the block. *)
Lemma triple_bind_when {B} (P : S -> Prop) (c : bool) (m : M S R unit)
    (f : unit -> M S R B) Qn Qr Qe :
  (c = true -> triple P (bind m f) Qn Qr Qe) ->
  (c = false -> triple P (f tt) Qn Qr Qe) ->
  triple P (bind (when c m) f) Qn Qr Qe.
Proof. intros Ht Hf. destruct c; [now apply Ht | now apply Hf]. Qed.

Lemma triple_bind_return {A B} (P : S -> Prop) (r : R) (f : A -> M S R B)
    Qn Qr Qe :
  (forall s, P s -> Qr r s) -> triple P (bind (return_ r) f) Qn Qr Qe.
Proof. intros H s Hs. now apply H. Qed.

Lemma triple_bind_raise {A B} (P : S -> Prop) (ex : exn) (f : A -> M S R B)
    Qn (Qr : R -> S -> Prop) Qe :
  (forall s, P s -> Qe ex s) -> triple P (bind (raise ex) f) Qn Qr Qe.
Proof. intros H s Hs. now apply H. Qed.

Lemma triple_bind_ret {A B} (P : S -> Prop) (a : A) (f : A -> M S R B)
    Qn Qr Qe :
  triple P (f a) Qn Qr Qe -> triple P (bind (ret a) f) Qn Qr Qe.
Proof. intros H s Hs. now apply H. Qed.

Lemma triple_bind_assoc {A B C} (P : S -> Prop) (m : M S R A)
    (f : A -> M S R B) (g : B -> M S R C) Qn Qr Qe :
  triple P (bind m (fun a => bind (f a) g)) Qn Qr Qe ->
  triple P (bind (bind m f) g) Qn Qr Qe.
Proof.
  intros H s Hs. specialize (H s Hs). unfold bind in *.
  destruct (m s) as [[a | r | ex] s']; auto.
Qed.

Lemma triple_try {A} (P : S -> Prop) (m : M S R A) (h : exn -> M S R A)
    (Qx : exn -> S -> Prop) Qn Qr Qe :
  triple P m Qn Qr Qx ->
  (forall ex, triple (Qx ex) (h ex) Qn Qr Qe) ->
  triple P (try_except m h) Qn Qr Qe.
Proof.
  intros Hm Hh s Hs. unfold try_except. specialize (Hm s Hs).
  destruct (m s) as [[a | r | ex] s']; auto. now apply Hh.
Qed.

(** A call made as an expression of the caller. *)
Lemma triple_of_call {A} (P : S -> Prop) (c : S -> result A * S)
    Qn (Qr : R -> S -> Prop) Qe :
  (forall s, P s -> match c s with
                    | (Ok a, s') => Qn a s'
                    | (Err ex, s') => Qe ex s'
                    end) ->
  triple P (of_call c) Qn Qr Qe.
Proof.
  intros H s Hs. unfold of_call. specialize (H s Hs).
  destruct (c s) as [[a | ex] s']; exact H.
Qed.

Lemma triple_gathered {A} (P : S -> Prop) (c : S -> result A * S)
    Qn (Qr : R -> S -> Prop) Qe :
  (forall s, P s -> Qn (fst (c s)) (snd (c s))) ->
  triple P (gathered c) Qn Qr Qe.
Proof.
  intros H s Hs. unfold gathered. specialize (H s Hs).
  destruct (c s) as [r s']. exact H.
Qed.

(** A fact that does not depend on the state. *)
Lemma triple_pure_pre {A} (P : S -> Prop) (phi : Prop) (m : M S R A)
    Qn (Qr : R -> S -> Prop) Qe :
  (phi -> triple P m Qn Qr Qe) ->
  triple (fun s => P s /\ phi) m Qn Qr Qe.
Proof. intros H s [Hs Hphi]. now apply H. Qed.

(** Postconditions that hold of every outcome. *)
Lemma triple_any {A} (P : S -> Prop) (m : M S R A) Qn (Qr : R -> S -> Prop) Qe :
  (forall a s, Qn a s) -> (forall r s, Qr r s) -> (forall ex s, Qe ex s) ->
  triple P m Qn Qr Qe.
Proof.
  intros Hn Hr He s _. destruct (m s) as [[a | r | ex] s']; auto.
Qed.

(** A property of the final state alone. *)
Lemma triple_final_state {A} (P : S -> Prop) (m : M S R A) (Q : S -> Prop) :
  (forall s, P s -> Q (snd (m s))) ->
  triple P m (fun _ => Q) (fun _ => Q) (fun _ => Q).
Proof.
  intros H s Hs. specialize (H s Hs).
  destruct (m s) as [[a | r | ex] s']; exact H.
Qed.

(** The result of a function whose body meets a specification. *)
Lemma triple_call (P : S -> Prop) (none : R) (body : M S R unit)
    (Q : result R -> S -> Prop) :
  triple P body (fun _ => Q (Ok none)) (fun r => Q (Ok r)) (fun ex => Q (Err ex)) ->
  forall s, P s -> Q (fst (call none body s)) (snd (call none body s)).
Proof.
  intros H s Hs. unfold call. specialize (H s Hs).
  destruct (body s) as [[a | r | ex] s']; exact H.
Qed.

End TripleRules.

(** One step through a block: the first statement decides the rule. *)
Ltac triple_step :=
  lazymatch goal with
  | |- triple _ (bind (bind _ _) _) _ _ _ => apply triple_bind_assoc
  | |- triple _ (bind (lift _) _) _ _ _ => apply triple_bind_lift; [intros ? ? ? ? | intros ? ?]
  | |- triple _ (bind (when _ _) _) _ _ _ => apply triple_bind_when; intros ?
  | |- triple _ (bind (return_ _) _) _ _ _ => apply triple_bind_return; intros ? ?
  | |- triple _ (bind (raise _) _) _ _ _ => apply triple_bind_raise; intros ? ?
  | |- triple _ (bind (ret _) _) _ _ _ => apply triple_bind_ret
  | |- triple _ (bind (modify _) _) _ _ _ => apply triple_bind_modify
  | |- triple _ (return_ _) _ _ _ => apply triple_return; intros ? ?
  | |- triple _ (raise _) _ _ _ => apply triple_raise; intros ? ?
  | |- triple _ (ret _) _ _ _ => apply triple_ret; intros ? ?
  | |- triple _ (lift _) _ _ _ => apply triple_lift; [intros ? ? ? ? | intros ? ? ? ?]
  | |- triple _ (modify _) _ _ _ => apply triple_modify; intros ? ?
  | |- triple _ (if ?b then _ else _) _ _ _ => destruct b eqn:?
  end.


(** * Further properties of the webhook gateway *)

Lemma abi_event_type_lock_lp (cfg : Gateway.config) (d : dict) (t : string) :
  Gateway.abi_event_type cfg d = Ok (Some t) ->
  t = "lock_lp"
  /\ exists txs tx input amount,
       dict_get d "txs" = Some txs
       /\ Gateway.py_first txs = Ok tx
       /\ py_get tx "input" (VStr "") = Ok (VStr input)
       /\ startswith (Gateway.LOCK_LP_FUNCTION_SIGNATURE cfg) input = true
       /\ Gateway.lock_lp_amount input = Ok amount
       /\ 0 < amount.
Proof.
  unfold Gateway.abi_event_type.
  destruct (dict_get d "abi") as [abi |]; [| discriminate].
  destruct (truthy abi); [| discriminate].
  destruct (Gateway.py_first abi) as [abi0 |]; cbn [rbind]; [| discriminate].
  destruct (py_get abi0 "name" VNone) as [name |]; cbn [rbind]; [| discriminate].
  destruct (Gateway.eq_str name "LockLPToken"); [| discriminate].
  unfold subscript.
  destruct (dict_get d "txs") as [txs |] eqn:Htxs; cbn [rbind];
    [| discriminate].
  destruct (Gateway.py_first txs) as [tx |] eqn:Htx; cbn [rbind];
    [| discriminate].
  destruct (py_get tx "input" (VStr "")) as [input |] eqn:Hin; cbn [rbind];
    [| discriminate].
  destruct input as [| | | | input | |]; cbn [Gateway.as_str rbind];
    try discriminate.
  destruct (startswith (Gateway.LOCK_LP_FUNCTION_SIGNATURE cfg) input) eqn:Hsig;
    [| discriminate].
  destruct (Gateway.lock_lp_amount input) as [amount |] eqn:Ha; [| discriminate].
  destruct (amount >? 0) eqn:Hpos; [| discriminate].
  intros H. inversion H. split; [reflexivity |].
  exists txs, tx, input, amount.
  repeat (split; [solve [auto] |]).
  apply Z.gtb_lt in Hpos. lia.
Qed.

Lemma log_event_type_range (cfg : Gateway.config) (d : dict) (t : string) :
  Gateway.log_event_type cfg d = Ok (Some t) ->
  t = "ownership_renounced" \/ t = "new_token" \/ t = "new_pair".
Proof.
  unfold Gateway.log_event_type.
  destruct (dict_get d "logs") as [logs |]; [| discriminate].
  destruct (truthy logs); [| discriminate].
  destruct (Gateway.py_first logs) as [log |]; cbn [rbind]; [| discriminate].
  destruct (py_get log "topic0" VNone) as [sig |]; cbn [rbind]; [| discriminate].
  destruct (Gateway.eq_str sig (Gateway.OWNERSHIP_TRANSFERRED_SIGNATURE cfg)).
  - destruct (py_get log "topic2" (VStr "")) as [t2 |]; cbn [rbind];
      [| discriminate].
    destruct t2; cbn [rbind]; try discriminate.
    match goal with |- context [if ?c then _ else _] => destruct c end;
      intros H; inversion H; auto.
  - destruct (Gateway.eq_str sig (Gateway.PAIR_CREATED_SIGNATURE cfg));
      [| discriminate].
    intros H; inversion H; auto.
Qed.

Lemma get_event_type_range (cfg : Gateway.config) (d : dict) (et : string) :
  Gateway.get_event_type cfg d = Ok et ->
  In et ["lock_lp"; "ownership_renounced"; "new_token"; "new_pair"; "unknown"].
Proof.
  unfold Gateway.get_event_type.
  destruct (Gateway.abi_event_type cfg d) as [[t |] |] eqn:Ha; cbn [rbind];
    [| | discriminate].
  - intros H. inversion H; subst et.
    apply abi_event_type_lock_lp in Ha. destruct Ha as [-> _]. simpl. auto.
  - destruct (Gateway.log_event_type cfg d) as [[t |] |] eqn:Hl; cbn [rbind];
      [| | discriminate]; intros H; inversion H; subst et.
    + apply log_event_type_range in Hl. simpl. intuition.
    + simpl. auto 6.
Qed.

Lemma queue_each_never_answers (job : nat -> value -> result value)
    (addresses : list value) :
  forall (P : redis -> Prop) (Qr : Gateway.response -> redis -> Prop) i queued,
    triple P (Gateway.queue_each job i addresses queued)
           (fun _ _ => True) Qr (fun _ _ => True).
Proof.
  induction addresses as [| a rest IH]; intros P Qr i queued; simpl.
  - now apply triple_ret.
  - repeat first [ apply IH | triple_step ]; auto.
Qed.

Lemma accepted_one_shape (event_type : string) (event_data : value)
    (resp : Gateway.response) :
  Gateway.accepted_one event_type event_data = Ok resp ->
  exists fields,
    resp = Gateway.JSONResponse 202 (VDict fields)
    /\ dict_get fields "status" = Some (VStr "accepted").
Proof.
  unfold Gateway.accepted_one.
  destruct (py_item event_data "event_id"); simpl; [| discriminate].
  intros H. inversion H. eexists. split; reflexivity.
Qed.

(** ** The answer of the gateway *)











(** X7: The gateway always answers with a status object or the error 500:
    200 with status [success] when it skips, 202 with status [accepted]
    when it queued, and, whatever the request, never the empty answer of a
    handler that falls off its end. *)
Theorem gateway_answer_shape :
  forall (cfg : Gateway.config) (e : Gateway.env) (req : Gateway.request)
         (r : redis),
    match fst (Gateway.process_webhook cfg e req r) with
    | Ok (Gateway.JSONResponse status content) =>
        exists fields,
          content = VDict fields
          /\ ((status = 200 /\ dict_get fields "status" = Some (VStr "success"))
              \/ (status = 202
                  /\ dict_get fields "status" = Some (VStr "accepted")))
    | Err ex => exists detail, ex = HTTPException 500 detail
    end.
Proof.
  intros cfg e req r. unfold Gateway.process_webhook.
  apply (@triple_call _ _ (fun _ => True) (Gateway.JSONResponse 200 VNone) _
           (fun res _ =>
              match res with
              | Ok (Gateway.JSONResponse status content) =>
                  exists fields,
                    content = VDict fields
                    /\ ((status = 200
                         /\ dict_get fields "status" = Some (VStr "success"))
                        \/ (status = 202
                            /\ dict_get fields "status"
                               = Some (VStr "accepted")))
              | Err ex => exists detail, ex = HTTPException 500 detail
              end)); [| exact Logic.I].
  apply triple_try with (Qx := fun _ _ => True).
  2: { intros ex. apply triple_raise. intros _ _. eauto. }
  unfold Gateway.process_webhook_body.
  repeat first
    [ apply triple_bind with (Qm := fun _ _ => True);
      [ apply queue_each_never_answers
      | intros ? ]
    | triple_step ];
    try exact Logic.I;
    try (eexists; split; [reflexivity |]; simpl; auto; fail).
  - match goal with
    | H : Gateway.accepted_one _ _ = Ok _ |- _ =>
        apply accepted_one_shape in H; destruct H as (f & -> & Hf)
    end.
    eauto.
  - match goal with
    | H : Gateway.accepted_one _ _ = Ok _ |- _ =>
        apply accepted_one_shape in H; destruct H as (f & -> & Hf)
    end.
    eauto.
  - match goal with
    | H : Gateway.get_event_type _ _ = Ok ?et |- _ =>
        apply get_event_type_range in H; simpl in H;
        destruct H as [H | [H | [H | [H | [H | []]]]]]; subst et
    end; discriminate.
Qed.


Lemma jobs_appended_refl (r : redis) : Shape.jobs_appended r r.
Proof.
  repeat split. exists []. split; [now rewrite app_nil_r | constructor].
Qed.

Lemma jobs_appended_push (r s : redis) (j : value) :
  Shape.jobs_appended r s -> Shape.fresh_job j ->
  Shape.jobs_appended r (rpush_webhook_queue j s).
Proof.
  intros (Hr & Hf & Hn & jobs & Hq & Hall) Hj.
  repeat split; simpl; auto.
  exists (jobs ++ [j])%list. split.
  - rewrite Hq. now rewrite app_assoc.
  - apply Forall_app. split; [exact Hall | repeat constructor; exact Hj].
Qed.

Ltac fresh_fields :=
  eexists; eexists; eexists;
  split; [reflexivity |];
  split; [reflexivity |];
  split; [reflexivity |];
  split; [simpl; auto 6 | reflexivity].

Lemma new_token_job_fresh (e : Gateway.env) (d : dict) (i : nat)
    (a j : value) :
  Gateway.new_token_job e d "new_token" i a = Ok j -> Shape.fresh_job j.
Proof.
  unfold Gateway.new_token_job.
  destruct (Gateway.block_number_of d); cbn [rbind]; [| discriminate].
  destruct (Gateway.py_iter _); cbn [rbind]; [| discriminate].
  destruct (Gateway.traverse _ _); cbn [rbind]; [| discriminate].
  intros H. inversion H. fresh_fields.
Qed.

Lemma ownership_renounced_job_fresh (e : Gateway.env) (d : dict) (i : nat)
    (a j : value) :
  Gateway.ownership_renounced_job e d "ownership_renounced" i a = Ok j ->
  Shape.fresh_job j.
Proof.
  unfold Gateway.ownership_renounced_job.
  destruct (Gateway.block_number_of d); cbn [rbind]; [| discriminate].
  intros H. inversion H. fresh_fields.
Qed.

Lemma new_pair_job_fresh (e : Gateway.env) (d : dict) (j : value) :
  Gateway.new_pair_job e d "new_pair" = Ok j -> Shape.fresh_job j.
Proof.
  unfold Gateway.new_pair_job.
  destruct (Gateway.block_number_of d); cbn [rbind]; [| discriminate].
  destruct (Gateway.get_token_from_pair e (VDict d)) as [pair_data |];
    cbn [rbind]; [| discriminate].
  destruct (truthy pair_data).
  - destruct (Gateway.py_index pair_data 0); cbn [rbind]; [| discriminate].
    destruct (Gateway.py_index pair_data 1); cbn [rbind]; [| discriminate].
    intros H. inversion H. fresh_fields.
  - intros H. inversion H. fresh_fields.
Qed.

Lemma lock_lp_job_fresh (e : Gateway.env) (d : dict) (block_data j : value) :
  Gateway.lock_lp_job e d "lock_lp" block_data = Ok j -> Shape.fresh_job j.
Proof.
  unfold Gateway.lock_lp_job.
  destruct (Gateway.block_number_of d); cbn [rbind]; [| discriminate].
  intros H. inversion H. fresh_fields.
Qed.

Lemma queue_each_appends (r : redis) (job : nat -> value -> result value)
    (addresses : list value) :
  (forall i a j, job i a = Ok j -> Shape.fresh_job j) ->
  forall i queued,
    triple (Shape.jobs_appended r)
           (Gateway.queue_each job i addresses queued)
           (fun _ => Shape.jobs_appended r)
           (fun _ => Shape.jobs_appended r)
           (fun _ => Shape.jobs_appended r).
Proof.
  intros Hjob. induction addresses as [| a rest IH]; intros i queued; simpl.
  - now apply triple_ret.
  - apply triple_bind_lift; [auto |]. intros j Hj.
    apply triple_bind with (Qm := fun _ => Shape.jobs_appended r).
    + apply triple_modify. intros s Hs. apply jobs_appended_push; eauto.
    + intros _. apply triple_bind_lift; [auto |]. intros id _. apply IH.
Qed.

(** X8: Whatever the request, the gateway leaves [retry_queue],
    [failed_events] and [notification_queue] as they are and only appends
    to [webhook_queue]; every job it appends is an object with an
    [event_id], one of the four event types, and [retry_count] 0. *)
Theorem gateway_only_appends_fresh_jobs :
  forall (cfg : Gateway.config) (e : Gateway.env) (req : Gateway.request)
         (r : redis),
    Shape.jobs_appended r (snd (Gateway.process_webhook cfg e req r)).
Proof.
  intros cfg e req r. unfold Gateway.process_webhook.
  apply (@triple_call _ _ (Shape.jobs_appended r) (Gateway.JSONResponse 200 VNone)
           _ (fun _ => Shape.jobs_appended r));
    [| apply jobs_appended_refl].
  apply triple_try with (Qx := fun _ => Shape.jobs_appended r).
  2: { intros ex. now apply triple_raise. }
  unfold Gateway.process_webhook_body.
  repeat first
    [ match goal with
      | H : (?et =? _)%string = true |- _ => apply String.eqb_eq in H; subst et
      end
    | apply triple_bind with (Qm := fun _ => Shape.jobs_appended r);
      [ first
          [ apply queue_each_appends; intros ? ? ? ?;
            eauto using new_token_job_fresh, ownership_renounced_job_fresh
          | apply triple_modify; intros ? ?; apply jobs_appended_push;
            eauto using new_pair_job_fresh, lock_lp_job_fresh ]
      | intros ? ]
    | triple_step ];
    auto.
Qed.


(** X9: A payload classified [lock_lp] that the gateway can transform carries
    a positive raw amount, the amount the classification read; the job
    queued for it holds the float quotient of that amount by [10 ** 18]
    and the checksummed LP token of the first input word, and the worker
    reads that token back from the job. *)
Theorem lock_lp_job_carries_positive_amount :
  forall (cfg : Gateway.config) (e : Gateway.env) (d : dict),
    Gateway.get_event_type cfg d = Ok "lock_lp" ->
    truthy (Gateway.transform_lock_lp_data e d) = true ->
    exists input raw lp amount,
      Gateway.lock_lp_amount input = Ok raw
      /\ 0 < raw
      /\ Gateway.to_checksum_address e
           ("0x" ++ last_n 40 (slice 0 64 (drop 10 input))) = Ok lp
      /\ Gateway.int_truediv e raw (10 ^ 18) = Ok amount
      /\ py_item (Gateway.transform_lock_lp_data e d) "amount"
         = Ok (VFloat amount)
      /\ py_item (Gateway.transform_lock_lp_data e d) "lp_token"
         = Ok (VStr lp)
      /\ forall job,
           Gateway.lock_lp_job e d "lock_lp" (Gateway.transform_lock_lp_data e d)
           = Ok (VDict job) ->
           Worker.lp_token_of job = Ok (VStr lp).
Proof.
  intros cfg e d Ht Htr.
  assert (Ha : Gateway.abi_event_type cfg d = Ok (Some "lock_lp")).
  { unfold Gateway.get_event_type in Ht.
    destruct (Gateway.abi_event_type cfg d) as [[t |] |] eqn:Ha;
      cbn [rbind] in Ht; [congruence | | discriminate].
    destruct (Gateway.log_event_type cfg d) as [[t |] |] eqn:Hl;
      cbn [rbind] in Ht; [| discriminate | discriminate].
    apply log_event_type_range in Hl. inversion Ht; subst t.
    destruct Hl as [Hl | [Hl | Hl]]; discriminate. }
  apply abi_event_type_lock_lp in Ha.
  destruct Ha as (_ & txs & tx & input & raw & Htxs & Htx & Hin & _ & Hraw & Hpos).
  exists input, raw.
  unfold Gateway.transform_lock_lp_data in *.
  unfold subscript in *. rewrite Htxs in *. cbn [rbind] in *.
  rewrite Htx in *. cbn [rbind] in *.
  destruct tx as [| | | | | | td]; try discriminate.
  cbn [py_get] in Hin. inversion Hin as [Hin']. clear Hin.
  unfold get_default in Hin'.
  cbn [py_item] in *. unfold subscript in *.
  destruct (dict_get td "input") as [v |]; cbn [rbind] in *;
    [| discriminate].
  subst v.
  unfold Gateway.decode_lock_lp_input in *. cbn [rbind] in *.
  unfold Gateway.lock_lp_amount in Hraw. rewrite Hraw in *. cbn [rbind] in *.
  destruct (Gateway.int_truediv e raw (10 ^ 18)) as [amount |];
    cbn [rbind] in *; [| discriminate].
  destruct (Gateway.int16 (slice 128 192 (drop 10 input))) as [unlock |];
    cbn [rbind] in *; [| discriminate].
  destruct (Gateway.to_checksum_address e
              ("0x" ++ last_n 40 (slice 0 64 (drop 10 input)))) as [lp |];
    cbn [rbind] in *; [| discriminate].
  exists lp, amount.
  cbn [truthy negb] in *.
  destruct (py_get (get_default d "block" (VDict [])) "number" VNone)
    as [bn |] eqn:Hbn; cbn [rbind py_get] in *; [| discriminate].
  cbn [py_item]. unfold subscript. cbn [dict_get String.eqb Ascii.eqb Bool.eqb].
  repeat (split; [solve [auto] |]).
  intros job. unfold Gateway.lock_lp_job, Gateway.block_number_of.
  rewrite Hbn. cbn [rbind]. intros H. inversion H. reflexivity.
Qed.

Lemma lock_lp_job_carries_positive_amount_witness :
  exists input raw lp amount,
    Gateway.lock_lp_amount input = Ok raw
    /\ 0 < raw
    /\ Gateway.to_checksum_address Examples.gateway_env
         ("0x" ++ last_n 40 (slice 0 64 (drop 10 input))) = Ok lp
    /\ Gateway.int_truediv Examples.gateway_env raw (10 ^ 18) = Ok amount
    /\ py_item (Gateway.transform_lock_lp_data Examples.gateway_env
                  MoreExamples.full_lock_payload) "amount"
       = Ok (VFloat amount)
    /\ py_item (Gateway.transform_lock_lp_data Examples.gateway_env
                  MoreExamples.full_lock_payload) "lp_token"
       = Ok (VStr lp)
    /\ forall job,
         Gateway.lock_lp_job Examples.gateway_env MoreExamples.full_lock_payload
           "lock_lp"
           (Gateway.transform_lock_lp_data Examples.gateway_env
              MoreExamples.full_lock_payload)
         = Ok (VDict job) ->
         Worker.lp_token_of job = Ok (VStr lp).
Proof.
  apply (@lock_lp_job_carries_positive_amount Examples.gateway_cfg
           Examples.gateway_env MoreExamples.full_lock_payload);
    vm_compute; reflexivity.
Defined.


Lemma length_lower (s : string) : String.length (lower s) = String.length s.
Proof. induction s as [| c s IH]; simpl; congruence. Qed.

Lemma lower_drop (n : nat) (s : string) : lower (drop n s) = drop n (lower s).
Proof.
  revert s. induction n as [| n IH]; intros s; [reflexivity |].
  destruct s as [| c s]; simpl; auto.
Qed.

Lemma lower_last_n (n : nat) (s : string) :
  lower (last_n n s) = last_n n (lower s).
Proof. unfold last_n. now rewrite lower_drop, length_lower. Qed.

Lemma abi_event_type_set_logs (cfg : Gateway.config) (d : dict) (v : value) :
  Gateway.abi_event_type cfg (dict_set d "logs" v)
  = Gateway.abi_event_type cfg d.
Proof.
  unfold Gateway.abi_event_type, subscript.
  now rewrite !dict_get_set_other by discriminate.
Qed.

(** X10: For a payload without a lock call whose first log is an ownership
    transfer, the event is [ownership_renounced] exactly when the new
    owner, the last 40 characters of [topic2], is one of the configured
    burn addresses up to letter case, and [new_token] otherwise; writing
    [topic2] in another letter case does not change the classification. *)
Theorem ownership_transfer_classification :
  forall (cfg : Gateway.config) (d log : dict) (rest : list value) (t : string),
    Gateway.abi_event_type cfg d = Ok None ->
    dict_get d "logs" = Some (VList (VDict log :: rest)) ->
    dict_get log "topic0"
    = Some (VStr (Gateway.OWNERSHIP_TRANSFERRED_SIGNATURE cfg)) ->
    get_default log "topic2" (VStr "") = VStr t ->
    (Gateway.get_event_type cfg d = Ok "ownership_renounced"
     <-> exists a, In a (Gateway.RENOUNCED_ADDRESSES cfg)
                   /\ lower a = lower ("0x" ++ last_n 40 t))
    /\ (Gateway.get_event_type cfg d = Ok "ownership_renounced"
        \/ Gateway.get_event_type cfg d = Ok "new_token")
    /\ (forall t',
          lower t' = lower t ->
          Gateway.get_event_type cfg
            (dict_set d "logs"
               (VList (VDict (dict_set log "topic2" (VStr t')) :: rest)))
          = Gateway.get_event_type cfg d).
Proof.
  intros cfg d log rest t Habi Hlogs Htopic0 Htopic2.
  assert (Hcls : forall (d' log' : dict) u,
            Gateway.abi_event_type cfg d' = Ok None ->
            dict_get d' "logs" = Some (VList (VDict log' :: rest)) ->
            dict_get log' "topic0"
            = Some (VStr (Gateway.OWNERSHIP_TRANSFERRED_SIGNATURE cfg)) ->
            get_default log' "topic2" (VStr "") = VStr u ->
            Gateway.get_event_type cfg d'
            = Ok (if existsb (String.eqb (lower ("0x" ++ last_n 40 u)))
                             (map lower (Gateway.RENOUNCED_ADDRESSES cfg))
                  then "ownership_renounced" else "new_token")).
  { intros d' log' u Ha Hl H0 H2.
    unfold Gateway.get_event_type, Gateway.log_event_type.
    rewrite Ha, Hl. cbn [rbind truthy Gateway.py_first py_get].
    unfold get_default at 1. rewrite H0. cbn [Gateway.eq_str].
    rewrite String.eqb_refl. rewrite H2. cbn [rbind].
    destruct (existsb _ _); reflexivity. }
  rewrite (Hcls d log t Habi Hlogs Htopic0 Htopic2).
  split; [| split].
  - destruct (existsb _ _) eqn:Hex.
    + split; [intros _ | reflexivity].
      apply existsb_exists in Hex. destruct Hex as (x & Hin & Hx).
      apply in_map_iff in Hin. destruct Hin as (a & <- & Hin).
      apply String.eqb_eq in Hx. eauto.
    + split; [discriminate |]. intros (a & Hin & Ha).
      assert (Hex' : existsb (String.eqb (lower ("0x" ++ last_n 40 t)))
                       (map lower (Gateway.RENOUNCED_ADDRESSES cfg)) = true).
      { apply existsb_exists. exists (lower a). split.
        - now apply in_map.
        - rewrite Ha. apply String.eqb_refl. }
      congruence.
  - destruct (existsb _ _); auto.
  - intros t' Ht'.
    rewrite (Hcls (dict_set d "logs"
                     (VList (VDict (dict_set log "topic2" (VStr t')) :: rest)))
                  (dict_set log "topic2" (VStr t')) t').
    + assert (Hl : lower ("0x" ++ last_n 40 t') = lower ("0x" ++ last_n 40 t)).
      { change (String "0" (String "x" (lower (last_n 40 t')))
                = String "0" (String "x" (lower (last_n 40 t)))).
        now rewrite !lower_last_n, Ht'. }
      now rewrite Hl.
    + now rewrite abi_event_type_set_logs.
    + apply dict_get_set_same.
    + rewrite dict_get_set_other by discriminate. exact Htopic0.
    + unfold get_default. now rewrite dict_get_set_same.
Qed.

Lemma ownership_transfer_classification_witness :
  Gateway.get_event_type Examples.gateway_cfg Examples.transfer_payload
  = Ok "new_token".
Proof.
  destruct (@ownership_transfer_classification Examples.gateway_cfg
              Examples.transfer_payload
              [("address", VStr "0xaaa");
               ("topic0",
                VStr (Gateway.OWNERSHIP_TRANSFERRED_SIGNATURE Examples.gateway_cfg));
               ("topic2",
                VStr "0x0000000000000000000000001111111111111111111111111111111111111111")]
              [VDict [("address", VStr "0xbbb")];
               VDict [("address", VStr "0xaaa")]]
              "0x0000000000000000000000001111111111111111111111111111111111111111"
              eq_refl eq_refl eq_refl eq_refl)
    as (_ & [H | H] & _).
  - vm_compute in H. discriminate.
  - exact H.
Defined.


Lemma append_inj_l (p a b : string) : (p ++ a = p ++ b)%string -> a = b.
Proof. induction p as [| c p IH]; simpl; intros H; [exact H |]. inversion H. auto. Qed.

Lemma NoDup_map_on {A B} (f : A -> B) (l : list A) :
  (forall x y, In x l -> In y l -> f x = f y -> x = y) ->
  NoDup l -> NoDup (map f l).
Proof.
  intros Hinj Hnd. induction Hnd as [| x l Hx Hnd IH]; simpl; constructor.
  - intros Hin. apply in_map_iff in Hin. destruct Hin as (y & Hy & Hin).
    assert (y = x) by (apply Hinj; simpl; auto). subst y. contradiction.
  - apply IH. intros a b Ha Hb. apply Hinj; simpl; auto.
Qed.

Lemma In_firstn {A} (k : nat) (l : list A) (x : A) :
  In x (firstn k l) -> In x l.
Proof.
  revert l. induction k as [| k IH]; intros [| y l]; simpl; try tauto.
  intros [H | H]; auto.
Qed.

Lemma NoDup_firstn_of {A} (k : nat) (l : list A) : NoDup l -> NoDup (firstn k l).
Proof.
  intros H. rewrite <- (firstn_skipn k l) in H.
  now apply NoDup_app_remove_r in H.
Qed.

Lemma extract_addresses_NoDup (e : Gateway.env) (logs : value) :
  Gateway.set_order_ok e ->
  (forall l, Gateway.log_addresses logs = Ok l ->
             forallb Gateway.hashable l = true ->
             forallb Gateway.is_str l = true) ->
  NoDup (Gateway.extract_addresses_from_logs e logs)
  /\ Forall Shape.is_str (Gateway.extract_addresses_from_logs e logs).
Proof.
  intros Hset Hstr. unfold Gateway.extract_addresses_from_logs.
  destruct (Gateway.log_addresses logs) as [l |]; [| split; constructor].
  destruct (forallb Gateway.hashable l) eqn:Hh; [| split; constructor].
  specialize (Hstr l eq_refl Hh).
  destruct (Hset l Hstr) as [Hnd Hin]. split; [exact Hnd |].
  apply Forall_forall. intros x Hx. apply Hin in Hx.
  rewrite forallb_forall in Hstr. specialize (Hstr x Hx).
  destruct x; try discriminate. eexists. reflexivity.
Qed.

(** The jobs pushed by the loop are those of a prefix of the addresses,
    whether it ends or raises. *)
Lemma queue_each_event_ids (job : nat -> value -> result value)
    (f : value -> value) :
  (forall i a j, job i a = Ok j -> py_item j "event_id" = Ok (f a)) ->
  forall addresses i queued s,
  exists k jobs,
    webhook_queue (snd (Gateway.queue_each job i addresses queued s))
    = (webhook_queue s ++ jobs)%list
    /\ map (fun j => py_item j "event_id") jobs
       = map (fun a => Ok (f a)) (firstn k addresses).
Proof.
  intros Hjob. induction addresses as [| a rest IH]; intros i queued s.
  - exists 0%nat, []. simpl. now rewrite app_nil_r.
  - simpl. unfold bind at 1. unfold lift.
    destruct (job i a) as [j |] eqn:Hj.
    + unfold bind at 1. unfold modify at 1. unfold bind at 1.
      rewrite (Hjob _ _ _ Hj).
      destruct (IH (S i) (queued ++ [f a])%list (rpush_webhook_queue j s))
        as (k & jobs & Hq & Hmap).
      exists (S k), (j :: jobs). split.
      * rewrite Hq. simpl. now rewrite <- app_assoc.
      * simpl. now rewrite (Hjob _ _ _ Hj), Hmap.
    + exists 0%nat, []. simpl. now rewrite app_nil_r.
Qed.

Lemma event_ids_of_strings_NoDup (pre : string) (py_str : value -> string)
    (k : nat) (addresses : list value) :
  (forall s, py_str (VStr s) = s) ->
  NoDup addresses -> Forall Shape.is_str addresses ->
  NoDup (map (fun a => @Ok value (VStr (pre ++ "_" ++ py_str a)))
             (firstn k addresses)).
Proof.
  intros Hstr Hnd Hall. apply NoDup_map_on; [| now apply NoDup_firstn_of].
  intros x y Hx Hy Heq.
  apply In_firstn in Hx. apply In_firstn in Hy.
  rewrite Forall_forall in Hall.
  destruct (Hall x Hx) as [a ->]. destruct (Hall y Hy) as [b ->].
  rewrite !Hstr in Heq. inversion Heq as [H].
  apply append_inj_l in H. inversion H as [H']. now subst.
Qed.

(** X11: The jobs one webhook queues have pairwise distinct [event_id]s, when
    the payload names its [id] and the addresses of its logs are strings:
    each id is the payload's id, an underscore and the address, and the
    address set holds no address twice. *)
Theorem queued_event_ids_distinct :
  forall (cfg : Gateway.config) (e : Gateway.env) (req : Gateway.request)
         (r : redis) (d : dict) (id : value),
    Gateway.set_order_ok e ->
    Gateway.json req = Ok (VDict d) ->
    dict_get d "id" = Some id ->
    (forall l, Gateway.log_addresses (get_default d "logs" (VList [])) = Ok l ->
               forallb Gateway.hashable l = true ->
               forallb Gateway.is_str l = true) ->
    exists jobs,
      webhook_queue (snd (Gateway.process_webhook cfg e req r))
      = (webhook_queue r ++ jobs)%list
      /\ NoDup (map (fun j => py_item j "event_id") jobs).
Proof.
  intros cfg e req r d id Hset Hj Hid Hlogs.
  destruct (@extract_addresses_NoDup e (get_default d "logs" (VList []))
              Hset Hlogs) as [Hnodup Hstr].
  set (Q := fun s' : redis =>
              exists jobs,
                webhook_queue s' = (webhook_queue r ++ jobs)%list
                /\ NoDup (map (fun j => py_item j "event_id") jobs)).
  assert (Q0 : Q r).
  { exists []. split; [now rewrite app_nil_r | constructor]. }
  assert (Q1 : forall j, Q (rpush_webhook_queue j r)).
  { intros j. exists [j]. split; [reflexivity |].
    simpl. constructor; [simpl; tauto | constructor]. }
  assert (Qeach : forall job queued,
             (forall i a j, job i a = Ok j ->
                py_item j "event_id"
                = Ok (VStr (Gateway.py_str e id ++ "_" ++ Gateway.py_str e a))) ->
             Q (snd (Gateway.queue_each job 0
                       (Gateway.extract_addresses_from_logs e
                          (get_default d "logs" (VList [])))
                       queued r))).
  { intros job queued Hjob.
    destruct (queue_each_event_ids job
                (fun a => VStr (Gateway.py_str e id ++ "_" ++ Gateway.py_str e a))
                Hjob
                (Gateway.extract_addresses_from_logs e
                   (get_default d "logs" (VList [])))
                0%nat queued r) as (k & jobs & Hq & Hmap).
    exists jobs. split; [exact Hq |]. rewrite Hmap.
    apply event_ids_of_strings_NoDup; auto. }
  assert (Hwid : forall i, Gateway.webhook_id e d i = id).
  { intros i. unfold Gateway.webhook_id, get_default. now rewrite Hid. }
  assert (Hnt : forall et i a j,
             Gateway.new_token_job e d et i a = Ok j ->
             py_item j "event_id"
             = Ok (VStr (Gateway.py_str e id ++ "_" ++ Gateway.py_str e a))).
  { intros et i a j. unfold Gateway.new_token_job. rewrite Hwid.
    destruct (Gateway.block_number_of d); cbn [rbind]; [| discriminate].
    destruct (Gateway.py_iter _); cbn [rbind]; [| discriminate].
    destruct (Gateway.traverse _ _); cbn [rbind]; [| discriminate].
    intros E. inversion E. reflexivity. }
  assert (Hor : forall et i a j,
             Gateway.ownership_renounced_job e d et i a = Ok j ->
             py_item j "event_id"
             = Ok (VStr (Gateway.py_str e id ++ "_" ++ Gateway.py_str e a))).
  { intros et i a j. unfold Gateway.ownership_renounced_job. rewrite Hwid.
    destruct (Gateway.block_number_of d); cbn [rbind]; [| discriminate].
    intros E. inversion E. reflexivity. }
  change (Q (snd (Gateway.process_webhook cfg e req r))).
  unfold Gateway.process_webhook.
  apply (@triple_call _ _ (fun s => s = r) (Gateway.JSONResponse 200 VNone) _
           (fun _ => Q)); [| reflexivity].
  apply triple_try with (Qx := fun _ => Q).
  2: { intros ex. now apply triple_raise. }
  unfold Gateway.process_webhook_body. rewrite Hj.
  repeat first
    [ match goal with
      | H : Ok _ = Ok ?y |- _ => injection H as H; subst y
      | H : Ok _ = Err _ |- _ => discriminate H
      | H : ?s = r |- Q ?s => rewrite H; exact Q0
      end
    | apply triple_bind with (Qm := fun _ => Q);
      [ first
          [ apply triple_final_state; intros ? ->; apply Qeach;
            first [apply Hnt | apply Hor]
          | apply triple_modify; intros ? ->; apply Q1 ]
      | intros ? ]
    | triple_step ];
    auto.
Qed.

Lemma queued_event_ids_distinct_witness :
  exists jobs,
    webhook_queue
      (snd (Gateway.process_webhook Examples.gateway_cfg Examples.gateway_env
              Examples.transfer_request Redis.empty))
    = ([] ++ jobs)%list
    /\ NoDup (map (fun j => py_item j "event_id") jobs).
Proof.
  apply (@queued_event_ids_distinct Examples.gateway_cfg Examples.gateway_env
           Examples.transfer_request Redis.empty Examples.transfer_payload
           (VStr "evt1") first_seen_ok eq_refl eq_refl).
  intros l Hl _. vm_compute in Hl. injection Hl as <-. reflexivity.
Defined.


(** * Further properties of the processing worker *)

Lemma fetch_loop_attempts (api_call : nat -> result value) (n : nat) :
  forall fuel attempt,
    (0 < fuel)%nat -> (attempt + fuel = n)%nat ->
    (forall j, (j < attempt)%nat ->
       exists ex, api_call j = Err ex /\ contains "429" (str_exn ex) = true) ->
    exists k,
      (k < n)%nat
      /\ Worker.fetch_loop api_call n attempt fuel = api_call k
      /\ (forall j, (j < k)%nat ->
            exists ex, api_call j = Err ex
                       /\ contains "429" (str_exn ex) = true)
      /\ ((k < n - 1)%nat ->
          forall ex, api_call k = Err ex -> contains "429" (str_exn ex) = false).
Proof.
  induction fuel as [| fuel IH]; intros attempt Hpos Hsum Hbefore; [lia |].
  cbn [Worker.fetch_loop].
  destruct (api_call attempt) as [v | ex] eqn:Hcall.
  - exists attempt. repeat split; auto; [lia |]. intros _ ex H. congruence.
  - destruct (contains "429" (str_exn ex)) eqn:H429; cbn [andb].
    + destruct (Nat.ltb attempt (n - 1)) eqn:Hlt.
      * apply Nat.ltb_lt in Hlt.
        apply IH; [lia | lia |].
        intros j Hj. destruct (Nat.eq_dec j attempt) as [-> | Hne].
        -- eauto.
        -- apply Hbefore. lia.
      * apply Nat.ltb_ge in Hlt.
        exists attempt. repeat split; auto; [lia |]. intros Hk. lia.
    + exists attempt. repeat split; auto; [lia |].
      intros _ ex' H. congruence.
Qed.

(** X12: [fetch_with_retry] makes at most three attempts and gives the outcome
    of the last one it makes: every attempt before it failed with an error
    text that holds [429], and unless it is the third attempt it either
    succeeded or failed with another error. *)
Theorem fetch_with_retry_attempts :
  forall (api_call : nat -> result value),
    exists k,
      (k < 3)%nat
      /\ Worker.fetch_with_retry api_call = api_call k
      /\ (forall j, (j < k)%nat ->
            exists ex, api_call j = Err ex
                       /\ contains "429" (str_exn ex) = true)
      /\ ((k < 2)%nat ->
          forall ex, api_call k = Err ex -> contains "429" (str_exn ex) = false).
Proof.
  intros api_call. unfold Worker.fetch_with_retry.
  apply (fetch_loop_attempts api_call (n := 3)); [lia | lia |].
  intros j Hj. lia.
Qed.

(** X13: The counter update never raises and leaves the queues and the
    relational store alone; it always asks for [total_counter] first and
    then for at most one further counter, [scams_counter] for risk level
    [High] and [risky_counter] for [Medium] when the first update went
    through. *)
Theorem increment_firestore_counter_counts :
  forall (e : Worker.env) (token_data : dict) (w : Worker.world),
    exists fields,
      @Worker.increment_firestore_counter value e token_data w
      = (Normal tt,
         Worker.mk_world (Worker.redis_of w) (Worker.db_log w)
           (Worker.firestore_log w ++ "total_counter" :: fields))
      /\ (forall u, Worker.firestore_update e "total_counter" = Ok u ->
          fields
          = if Gateway.eq_str (get token_data "risk_level") "High"
            then ["scams_counter"]
            else if Gateway.eq_str (get token_data "risk_level") "Medium"
                 then ["risky_counter"] else [])
      /\ (forall ex, Worker.firestore_update e "total_counter" = Err ex ->
          fields = []).
Proof.
  intros e token_data w.
  unfold Worker.increment_firestore_counter, try_except, bind, modify, lift,
    ret, Worker.log_firestore.
  cbn [Worker.redis_of Worker.db_log Worker.firestore_log].
  destruct (Worker.firestore_update e "total_counter") as [u |] eqn:Ht.
  - destruct (Gateway.eq_str (get token_data "risk_level") "High").
    + exists ["scams_counter"]. split; [| split; [reflexivity | discriminate]].
      destruct (Worker.firestore_update e "scams_counter") as [[] |]; simpl;
        now rewrite <- app_assoc.
    + destruct (Gateway.eq_str (get token_data "risk_level") "Medium").
      * exists ["risky_counter"].
        split; [| split; [reflexivity | discriminate]].
        destruct (Worker.firestore_update e "risky_counter") as [[] |]; simpl;
          now rewrite <- app_assoc.
      * exists []. split; [| split; [reflexivity | discriminate]].
        reflexivity.
  - exists []. split; [reflexivity |]. split; [discriminate | reflexivity].
Qed.

Lemma extends_refl {A} (l : list A) : Shape.extends l l.
Proof. exists []. now rewrite app_nil_r. Qed.

Lemma extends_snoc {A} (l l' : list A) (x : A) :
  Shape.extends l l' -> Shape.extends l (l' ++ [x]).
Proof. intros [new ->]. exists (new ++ [x])%list. now rewrite app_assoc. Qed.

(** X14: A job run and a scheduler step only add history: they never write to
    [webhook_queue], and [failed_events], [notification_queue], the
    requests sent to the relational store and the counter updates only
    grow at their end. *)
Theorem worker_history_is_append_only :
  forall (cfg : Worker.config) (e : Worker.env) (event_data : dict)
         (now : Q) (envs : nat -> Worker.env) (w : Worker.world),
    let only_grows w' :=
      webhook_queue (Worker.redis_of w') = webhook_queue (Worker.redis_of w)
      /\ Shape.extends (failed_events (Worker.redis_of w))
                       (failed_events (Worker.redis_of w'))
      /\ Shape.extends (notification_queue (Worker.redis_of w))
                       (notification_queue (Worker.redis_of w'))
      /\ Shape.extends (Worker.db_log w) (Worker.db_log w')
      /\ Shape.extends (Worker.firestore_log w) (Worker.firestore_log w') in
    only_grows (snd (Worker.process_webhook cfg e event_data w))
    /\ only_grows (snd (Worker.process_retry_queue cfg now envs w)).
Proof.
  intros cfg e event_data now envs w only_grows.
  assert (H0 : only_grows w).
  { subst only_grows. cbv beta. repeat split; apply extends_refl. }
  assert (Hz : forall t m s w', only_grows w' ->
                 only_grows (Worker.on_redis (zadd_retry_queue t m s) w')).
  { intros t m s w' H. exact H. }
  assert (Hf : forall v w', only_grows w' ->
                 only_grows (Worker.on_redis (rpush_failed_events v) w')).
  { intros v w' (H1 & H2 & H3 & H4 & H5). repeat split; auto.
    simpl. now apply extends_snoc. }
  assert (Hn : forall v w', only_grows w' ->
                 only_grows (Worker.on_redis (rpush_notification_queue v) w')).
  { intros v w' (H1 & H2 & H3 & H4 & H5). repeat split; auto.
    simpl. now apply extends_snoc. }
  assert (Hd : forall op w', only_grows w' -> only_grows (Worker.log_db op w')).
  { intros v w' (H1 & H2 & H3 & H4 & H5). repeat split; auto.
    simpl. now apply extends_snoc. }
  assert (Hc : forall f w', only_grows w' ->
                 only_grows (Worker.log_firestore f w')).
  { intros v w' (H1 & H2 & H3 & H4 & H5). repeat split; auto.
    simpl. now apply extends_snoc. }
  split.
  - now apply process_webhook_frame.
  - unfold Worker.process_retry_queue.
    apply (@call_keeps _ _ only_grows tt); [| exact H0].
    intros w' Hw'.
    destruct (truthy (VList (zrangebyscore_retry_queue 0 now
                               (Worker.redis_of w')))).
    + assert (Hstep : inv only_grows (fun _ => only_grows)
                        (bind (modify (Worker.on_redis
                                         (zremrangebyscore_retry_queue 0 now)))
                              (fun _ => Worker.retry_each cfg envs 0
                                          (zrangebyscore_retry_queue 0 now
                                             (Worker.redis_of w'))))).
      { apply inv_bind.
        - apply inv_modify. intros w'' H. exact H.
        - intros _. now apply retry_each_frame. }
      exact (Hstep w' Hw').
    + exact Hw'.
Qed.


(** ** Worker: notifications are guarded by the scam flag *)

Section GuardedNotifications.

(** A property of the world kept by the worker's writes, the notification
    of a token whose [is_scam] is not set among them. *)
Variable I : Worker.world -> Prop.
Hypothesis I_zadd :
  forall t m s w, I w -> I (Worker.on_redis (zadd_retry_queue t m s) w).
Hypothesis I_failed :
  forall v w, I w -> I (Worker.on_redis (rpush_failed_events v) w).
Hypothesis I_clean :
  forall event_type token_data w,
    truthy (get token_data "is_scam") = false ->
    I w ->
    I (Worker.on_redis
         (rpush_notification_queue
            (VDict [("event_type", VStr event_type);
                    ("token_data", VDict token_data)])) w).
Hypothesis I_db : forall op w, I w -> I (Worker.log_db op w).
Hypothesis I_firestore : forall f w, I w -> I (Worker.log_firestore f w).

Lemma guarded_notify_keeps {R} (Qr : R -> Worker.world -> Prop)
    event_type token_data :
  inv I Qr (when (negb (truthy (get token_data "is_scam")))
                 (Worker.notify event_type token_data)).
Proof.
  destruct (truthy (get token_data "is_scam")) eqn:Hscam; cbn [negb when].
  - apply inv_ret.
  - unfold Worker.notify. apply inv_modify. intros w Hw. now apply I_clean.
Qed.

Lemma store_new_token_in_supabase_keeps e token_data w :
  I w -> I (snd (Worker.store_new_token_in_supabase e token_data w)).
Proof. now apply store_new_token_in_supabase_frame. Qed.

Lemma store_new_pair_data_in_supabase_keeps e token_data w :
  I w -> I (snd (Worker.store_new_pair_data_in_supabase e token_data w)).
Proof. now apply store_new_pair_data_in_supabase_frame. Qed.

Lemma update_pair_data_in_supabase_keeps e token_data s g t w :
  I w -> I (snd (Worker.update_pair_data_in_supabase e token_data s g t w)).
Proof. now apply update_pair_data_in_supabase_frame. Qed.

Lemma process_ownership_renounced_keeps cfg e event_data w :
  I w -> I (snd (Worker.process_ownership_renounced cfg e event_data w)).
Proof. now apply process_ownership_renounced_frame. Qed.

Hint Resolve db_exec_frame db_query_frame handle_failed_event_frame
  increment_firestore_counter_frame store_new_token_in_supabase_keeps
  store_new_pair_data_in_supabase_keeps update_pair_data_in_supabase_keeps
  update_existing_pair_frame store_fresh_pair_frame
  process_ownership_renounced_keeps : frame.

Ltac guarded_body :=
  repeat frame_step
    ltac:(first [ apply guarded_notify_keeps
                | apply inv_return; intros ? ?; assumption
                | apply inv_of_call; intros ? ?; solve [eauto with frame]
                | apply inv_gathered; intros ? ?; solve [eauto with frame] ]).

Lemma process_new_token_guarded cfg e event_data w :
  I w -> I (snd (Worker.process_new_token cfg e event_data w)).
Proof. unfold Worker.process_new_token. apply call_keeps. guarded_body. Qed.

Lemma process_new_pair_guarded cfg e event_data w :
  I w -> I (snd (Worker.process_new_pair cfg e event_data w)).
Proof. unfold Worker.process_new_pair. apply call_keeps. guarded_body. Qed.

Lemma process_lock_lp_guarded cfg e event_data w :
  I w -> I (snd (Worker.process_lock_lp cfg e event_data w)).
Proof. unfold Worker.process_lock_lp. apply call_keeps. guarded_body. Qed.

Hint Resolve process_new_token_guarded process_new_pair_guarded
  process_lock_lp_guarded : frame.

Lemma process_webhook_guarded cfg e event_data w :
  I w -> I (snd (Worker.process_webhook cfg e event_data w)).
Proof. unfold Worker.process_webhook. apply call_keeps. guarded_body. Qed.

End GuardedNotifications.

(** X15: Whatever the job and the collaborators' answers, every notification a
    job run queues is an object with the event type and the token data of
    a token whose [is_scam] is not set: a token flagged as a scam is never
    notified. *)
Theorem scam_tokens_are_never_notified :
  forall (cfg : Worker.config) (e : Worker.env) (event_data : dict)
         (w : Worker.world),
    exists new,
      notification_queue
        (Worker.redis_of (snd (Worker.process_webhook cfg e event_data w)))
      = (notification_queue (Worker.redis_of w) ++ new)%list
      /\ Forall Shape.clean_notification new.
Proof.
  intros cfg e event_data w.
  apply (@process_webhook_guarded
           (fun w' =>
              exists new,
                notification_queue (Worker.redis_of w')
                = (notification_queue (Worker.redis_of w) ++ new)%list
                /\ Forall Shape.clean_notification new)).
  - intros t m s w' H. exact H.
  - intros v w' H. exact H.
  - intros et td w' Hscam (new & Hq & Hall).
    exists (new ++ [VDict [("event_type", VStr et); ("token_data", VDict td)]])%list.
    split.
    + simpl. rewrite Hq. now rewrite app_assoc.
    + apply Forall_app. split; [exact Hall |].
      repeat constructor. exists et, td. auto.
  - intros op w' H. exact H.
  - intros f w' H. exact H.
  - exists []. split; [now rewrite app_nil_r | constructor].
Qed.


(** ** Worker: a job run ends with a verdict *)

(** One step through a block whose specification does not depend on the
    state. *)
Ltac verdict_step :=
  lazymatch goal with
  | |- triple _ (bind (lift _) _) _ _ _ =>
      apply triple_bind_lift; [intros ? ? ? ? | intros ? ?]
  | |- triple _ (bind (when _ _) _) _ _ _ => apply triple_bind_when; intros ?
  | |- triple _ (bind (return_ _) _) _ _ _ => apply triple_bind_return; intros ? ?
  | |- triple _ (bind (raise _) _) _ _ _ => apply triple_bind_raise; intros ? ?
  | |- triple _ (bind _ _) _ _ _ =>
      apply triple_bind with (Qm := fun _ _ => True); [| intros ?]
  | |- triple _ (try_except _ _) _ _ _ =>
      apply triple_try with (Qx := fun _ _ => True); [| intros ?]
  | |- triple _ (return_ _) _ _ _ => apply triple_return; intros ? ?
  | |- triple _ (raise _) _ _ _ => apply triple_raise; intros ? ?
  | |- triple _ (ret _) _ _ _ => apply triple_ret; intros ? ?
  | |- triple _ (lift _) _ _ _ =>
      apply triple_lift; [intros ? ? ? ? | intros ? ? ? ?]
  | |- triple _ (modify _) _ _ _ => apply triple_modify; intros ? ?
  | |- triple _ (of_call ?c) _ _ _ =>
      apply triple_of_call; intros ? ?; destruct c as [[? | ?] ?]
  | |- triple _ (gathered _) _ _ _ => apply triple_gathered; intros ? ?
  | |- triple _ (if ?b then _ else _) _ _ _ => destruct b eqn:?
  | |- triple _ (match ?x with _ => _ end) _ _ _ => destruct x eqn:?
  end.

Section Verdict.

Variables (cfg : Worker.config) (e : Worker.env) (event_data : dict)
          (retry_count : value).
Hypothesis numeric_retry_count :
  Worker.incr_retry_count e event_data = Ok retry_count.
Hypothesis backoff_is_float :
  Worker.within_retries cfg retry_count = true ->
  exists delay retry_at,
    Worker.backoff_delay cfg e retry_count = Ok delay
    /\ Worker.retry_time e delay = Ok retry_at.

(** When the count and the back-off can be computed the failure handler
    ends normally. *)
Lemma handle_failed_event_ends {R} (P : Worker.world -> Prop)
    (Qr : R -> Worker.world -> Prop) (Qe : exn -> Worker.world -> Prop)
    (error : string) :
  triple P (Worker.handle_failed_event cfg e event_data error)
         (fun _ _ => True) Qr Qe.
Proof.
  intros w _. unfold Worker.handle_failed_event, bind, lift, modify.
  rewrite numeric_retry_count.
  destruct (Worker.within_retries cfg retry_count); [| exact Logic.I].
  destruct (backoff_is_float eq_refl) as (delay & retry_at & -> & ->).
  exact Logic.I.
Qed.

Ltac verdict_body :=
  repeat first
    [ apply handle_failed_event_ends
    | verdict_step ];
  try exact Logic.I;
  try (cbv beta; unfold Shape.is_verdict; eauto; fail).

Lemma update_existing_pair_verdict (P : Worker.world -> Prop) event_type
    transformed_data token_data existing_data :
  triple P
    (Worker.update_existing_pair cfg e event_data event_type transformed_data
       token_data existing_data)
    (fun _ _ => True) (fun r _ => Shape.is_verdict (Ok r)) (fun _ _ => True).
Proof.
  unfold Worker.update_existing_pair. verdict_body.
Qed.

Lemma store_fresh_pair_verdict (P : Worker.world -> Prop) token_data :
  triple P (Worker.store_fresh_pair cfg e event_data token_data)
    (fun _ _ => True) (fun r _ => Shape.is_verdict (Ok r)) (fun _ _ => True).
Proof.
  unfold Worker.store_fresh_pair, Worker.increment_firestore_counter.
  verdict_body.
Qed.

Ltac handler_verdict :=
  repeat first
    [ apply handle_failed_event_ends
    | apply update_existing_pair_verdict
    | apply store_fresh_pair_verdict
    | verdict_step ];
  try exact Logic.I;
  try (cbv beta; unfold Shape.is_verdict; eauto; fail).

Lemma process_new_token_verdict (w : Worker.world) :
  Shape.is_verdict (fst (Worker.process_new_token cfg e event_data w)).
Proof.
  unfold Worker.process_new_token.
  apply (@triple_call _ _ (fun _ => True) VNone _ (fun r _ => Shape.is_verdict r));
    [| exact Logic.I].
  apply triple_try with (Qx := fun _ _ => True).
  - unfold Worker.increment_firestore_counter, Worker.notify.
    handler_verdict.
  - intros ex. handler_verdict.
Qed.

Lemma process_new_pair_verdict (w : Worker.world) :
  Shape.is_verdict (fst (Worker.process_new_pair cfg e event_data w)).
Proof.
  unfold Worker.process_new_pair, Worker.db_query, Worker.notify.
  apply (@triple_call _ _ (fun _ => True) VNone _ (fun r _ => Shape.is_verdict r));
    [| exact Logic.I].
  apply triple_try with (Qx := fun _ _ => True).
  - handler_verdict.
  - intros ex. handler_verdict.
Qed.

Lemma process_lock_lp_verdict (w : Worker.world) :
  Shape.is_verdict (fst (Worker.process_lock_lp cfg e event_data w)).
Proof.
  unfold Worker.process_lock_lp, Worker.db_query, Worker.notify.
  apply (@triple_call _ _ (fun _ => True) VNone _ (fun r _ => Shape.is_verdict r));
    [| exact Logic.I].
  apply triple_try with (Qx := fun _ _ => True).
  - handler_verdict.
  - intros ex. handler_verdict.
Qed.

Lemma process_ownership_renounced_verdict (w : Worker.world) :
  Shape.is_verdict (fst (Worker.process_ownership_renounced cfg e event_data w)).
Proof.
  unfold Worker.process_ownership_renounced.
  apply (@triple_call _ _ (fun _ => True) VNone _ (fun r _ => Shape.is_verdict r));
    [| exact Logic.I].
  apply triple_try with (Qx := fun _ _ => True).
  - verdict_step.
    + exact Logic.I.
    + verdict_step; [exact Logic.I |].
      apply triple_try with (Qx := fun _ _ => True).
      * handler_verdict.
      * intros ex. handler_verdict.
  - intros ex. handler_verdict.
Qed.

Lemma process_webhook_verdict (w : Worker.world) :
  Shape.is_verdict (fst (Worker.process_webhook cfg e event_data w)).
Proof.
  unfold Worker.process_webhook.
  apply (@triple_call _ _ (fun _ => True) VNone _ (fun r _ => Shape.is_verdict r));
    [| exact Logic.I].
  apply triple_try with (Qx := fun _ _ => True).
  - repeat lazymatch goal with
           | |- triple _ (if ?b then _ else _) _ _ _ => destruct b
           end.
    + apply triple_bind with (Qm := fun r _ => Shape.is_verdict (Ok r)).
      * apply triple_of_call. intros w' _.
        pose proof (process_new_token_verdict w') as H.
        destruct (Worker.process_new_token cfg e event_data w') as [[r | ex] w''];
          [exact H | exact Logic.I].
      * intros r. now apply triple_return.
    + apply triple_bind with (Qm := fun r _ => Shape.is_verdict (Ok r)).
      * apply triple_of_call. intros w' _.
        pose proof (process_new_pair_verdict w') as H.
        destruct (Worker.process_new_pair cfg e event_data w') as [[r | ex] w''];
          [exact H | exact Logic.I].
      * intros r. now apply triple_return.
    + apply triple_bind with (Qm := fun r _ => Shape.is_verdict (Ok r)).
      * apply triple_of_call. intros w' _.
        pose proof (process_lock_lp_verdict w') as H.
        destruct (Worker.process_lock_lp cfg e event_data w') as [[r | ex] w''];
          [exact H | exact Logic.I].
      * intros r. now apply triple_return.
    + apply triple_bind with (Qm := fun r _ => Shape.is_verdict (Ok r)).
      * apply triple_of_call. intros w' _.
        pose proof (process_ownership_renounced_verdict w') as H.
        destruct (Worker.process_ownership_renounced cfg e event_data w')
          as [[r | ex] w'']; [exact H | exact Logic.I].
      * intros r. now apply triple_return.
    + apply triple_return. intros _ _. exists false. reflexivity.
  - intros ex. handler_verdict.
Qed.

End Verdict.


(** X16: A job whose retry count can be incremented (it is a number, or
    absent), and whose back-off, when the new count is within
    [MAX_RETRIES], can be computed and added to the clock reading (no
    number involved is too large for a float), is run to a verdict:
    whatever the collaborators answer, [process_webhook] returns [True] or
    [False]; it neither raises nor ends without a result. *)
Theorem job_run_ends_with_verdict :
  forall (cfg : Worker.config) (e : Worker.env) (event_data : dict)
         (retry_count : value) (w : Worker.world),
    Worker.incr_retry_count e event_data = Ok retry_count ->
    (Worker.within_retries cfg retry_count = true ->
     exists delay retry_at,
       Worker.backoff_delay cfg e retry_count = Ok delay
       /\ Worker.retry_time e delay = Ok retry_at) ->
    exists b, fst (Worker.process_webhook cfg e event_data w) = Ok (VBool b).
Proof.
  intros cfg e event_data retry_count w H Hb.
  exact (@process_webhook_verdict cfg e event_data retry_count H Hb w).
Qed.

Lemma job_run_ends_with_verdict_witness :
  Worker.incr_retry_count Examples.failing_env Examples.new_pair_job
  = Ok (VInt 1)
  /\ Worker.backoff_delay Examples.worker_cfg Examples.failing_env (VInt 1)
     = Ok (NInt 60)
  /\ exists b,
       fst (Worker.process_webhook Examples.worker_cfg Examples.failing_env
              Examples.new_pair_job Examples.world0) = Ok (VBool b).
Proof.
  split; [reflexivity |]. split; [reflexivity |].
  apply (@job_run_ends_with_verdict Examples.worker_cfg Examples.failing_env
           Examples.new_pair_job (VInt 1) Examples.world0).
  - reflexivity.
  - intros _. eexists. eexists. split; reflexivity.
Defined.

Lemma In_insert_by_score_inv (text : value -> string) (x : value * Q)
    (l : list (value * Q)) (y : value * Q) :
  In y (insert_by_score text x l) <-> y = x \/ In y l.
Proof.
  induction l as [| z l IH]; simpl.
  - intuition.
  - destruct (precedes text z x); simpl; rewrite ?IH; intuition.
Qed.

(** X17: A job that failed within its retry budget comes back exactly when its
    back-off has elapsed.  When the count [n] of the job is not negative
    and the back-off [RETRY_DELAY * 2^n] is a number [delay] that a float
    holds, the scheduler's range query at time [now] returns the failed
    record if and only if the float sum of the clock reading and [delay]
    is at most [now]. *)
Theorem failed_job_is_due_after_backoff :
  forall (cfg : Worker.config) (e : Worker.env) (event_data : dict)
         (error : string) (w : Worker.world) (n : Z) (now delay : Q),
    get_default event_data "retry_count" (VInt 0) = VInt n ->
    0 <= n ->
    n + 1 <= Worker.MAX_RETRIES cfg ->
    Shape.backoff_float e (Worker.RETRY_DELAY cfg) n delay ->
    let failed := VDict (Worker.mark_failed e event_data (VInt (n + 1)) error) in
    let retry_at := Worker.float_add e (Worker.time_time e) delay in
    (0 <= retry_at)%Q ->
    let w' := snd (@Worker.handle_failed_event value cfg e event_data error w) in
    In failed (zrangebyscore_retry_queue 0 now (Worker.redis_of w'))
    <-> (retry_at <= now)%Q.
Proof.
  intros cfg e event_data error w n now delay Hn Hpos Hle Hdelay failed
    retry_at Hat w'.
  subst w'.
  rewrite (@handle_failed_event_int value cfg e event_data error w n delay Hn)
    by (intros _; now split).
  apply Z.leb_le in Hle. cbn [snd]. rewrite Hle.
  fold failed. fold retry_at.
  unfold zrangebyscore_retry_queue.
  cbn [Worker.on_redis Worker.redis_of zadd_retry_queue retry_queue].
  rewrite in_map_iff. split.
  - intros ([m s] & Hm & Hin). simpl in Hm. subst m.
    apply filter_In in Hin. destruct Hin as [Hin Hrange].
    apply In_insert_by_score_inv in Hin. destruct Hin as [Heq | Hin].
    + inversion Heq; subst s. unfold in_range in Hrange. simpl in Hrange.
      apply andb_prop in Hrange. now apply Qle_bool_iff.
    + apply filter_In in Hin. destruct Hin as [_ Hne].
      cbn [fst] in Hne. rewrite String.eqb_refl in Hne. discriminate.
  - intros Hdue. exists (failed, retry_at). split; [reflexivity |].
    apply filter_In. split.
    + apply In_insert_by_score_inv. now left.
    + unfold in_range. simpl. apply andb_true_intro.
      split; now apply Qle_bool_iff.
Qed.

Lemma failed_job_is_due_after_backoff_witness :
  Shape.backoff_float Examples.failing_env
    (Worker.RETRY_DELAY Examples.worker_cfg) 0 60
  /\ In (VDict (Worker.mark_failed Examples.failing_env Examples.new_pair_job
                  (VInt 1) "boom"))
        (zrangebyscore_retry_queue 0 1700000060
           (Worker.redis_of
              (snd (@Worker.handle_failed_event value Examples.worker_cfg
                      Examples.failing_env Examples.new_pair_job "boom"
                      Examples.world0)))).
Proof.
  assert (Hdelay : Shape.backoff_float Examples.failing_env
                     (Worker.RETRY_DELAY Examples.worker_cfg) 0 60)
    by reflexivity.
  split; [exact Hdelay |].
  apply (@failed_job_is_due_after_backoff Examples.worker_cfg
           Examples.failing_env Examples.new_pair_job "boom" Examples.world0
           0 1700000060 60 eq_refl).
  - lia.
  - simpl. lia.
  - exact Hdelay.
  - vm_compute. discriminate.
  - vm_compute. discriminate.
Defined.


(** ** Worker: jobs that do not apply *)

(** X18: A [lock_lp] job whose LP token is not a pair the store tracks, or is
    the pair of a token flagged as a scam, ends with [True] and leaves the
    world as it was: nothing is written, queued or notified, and the job is
    not scheduled again. *)
Theorem lock_lp_for_untracked_or_scam_pair_is_terminal :
  forall (cfg : Worker.config) (e : Worker.env) (event_data : dict)
         (w : Worker.world) (lp_token chain_id blockchain : value)
         (rows : list value),
    get event_data "event_type" = VStr "lock_lp" ->
    Worker.lp_token_of event_data = Ok lp_token ->
    truthy lp_token = true ->
    dict_get event_data "chain_id" = Some chain_id ->
    Worker.convert_chain_id_to_blockchain e chain_id = Ok blockchain ->
    Worker.db_select e "tokens"
      ["address"; "name"; "symbol"; "contract_verified"; "classification";
       "classification_certainty"; "is_scam"; "source_code_id";
       "gpl_audit_id"; "token_information_id"]
      [("dex_pair", lp_token); ("blockchain", blockchain)]
    = Ok rows ->
    (rows = []
     \/ exists row rest,
          rows = VDict row :: rest /\ truthy (get row "is_scam") = true) ->
    Worker.process_lock_lp cfg e event_data w = (Ok (VBool true), w)
    /\ Worker.process_webhook cfg e event_data w = (Ok (VBool true), w).
Proof.
  intros cfg e event_data w lp_token chain_id blockchain rows
    Htype Hlp Htruthy Hc Hconv Hsel Hrows.
  assert (Hlock : Worker.process_lock_lp cfg e event_data w
                  = (Ok (VBool true), w)).
  { unfold Worker.process_lock_lp, Worker.db_query, call, try_except, bind,
      lift, when, return_, ret, subscript.
    rewrite Hlp, Htruthy. cbn [negb]. rewrite Hc, Hconv, Hsel.
    destruct Hrows as [-> | (row & rest & -> & Hscam)].
    - reflexivity.
    - cbn [truthy negb Worker.first_row Gateway.py_first py_get].
      unfold get in Hscam. rewrite Hscam. reflexivity. }
  split; [exact Hlock |].
  unfold Worker.process_webhook, call, try_except, bind, of_call, return_.
  rewrite Htype. cbn [Gateway.eq_str].
  change (("lock_lp" =? "new_token")%string) with false.
  change (("lock_lp" =? "new_pair")%string) with false.
  change (("lock_lp" =? "lock_lp")%string) with true.
  cbv beta iota. rewrite Hlock. reflexivity.
Qed.

(** X19: An [ownership_renounced] job sends the relational store one request,
    the update that sets [is_renounced] on the token with the checksummed
    address on the job's chain, and ends with [True] whether or not a
    token matched: renouncing a token that is not tracked is a success and
    is not retried. *)
Theorem ownership_renounced_sends_one_update :
  forall (cfg : Worker.config) (e : Worker.env) (event_data : dict)
         (w : Worker.world) (token_address chain_id blockchain address : value)
         (rows : list value),
    dict_get event_data "token_address" = Some token_address ->
    dict_get event_data "chain_id" = Some chain_id ->
    Worker.convert_chain_id_to_blockchain e chain_id = Ok blockchain ->
    Worker.to_checksum_address e token_address = Ok address ->
    let update :=
      Worker.Update "tokens"
        [("is_renounced", VBool true);
         ("updated_at", VStr (Worker.now_isoformat e))]
        [("address", address); ("blockchain", blockchain)] in
    Worker.db_response e update = Ok rows ->
    (rows = []
     \/ exists row rest a,
          rows = VDict row :: rest /\ dict_get row "address" = Some a) ->
    Worker.process_ownership_renounced cfg e event_data w
    = (Ok (VBool true), Worker.log_db update w).
Proof.
  intros cfg e event_data w token_address chain_id blockchain address rows
    Ht Hc Hconv Hsum update Hresp Hrows.
  unfold Worker.process_ownership_renounced,
    Worker.update_renounced_status_in_supabase, Worker.db_exec,
    call, try_except, bind, of_call, lift, when, return_, ret, modify,
    subscript.
  rewrite Ht, Hc. rewrite Hconv, Hsum. fold update. rewrite Hresp.
  destruct Hrows as [-> | (row & rest & a & -> & Ha)].
  - reflexivity.
  - cbn [truthy Worker.first_row Gateway.py_first py_item].
    unfold subscript. rewrite Ha. destruct (truthy a); reflexivity.
Qed.

Lemma store_new_token_in_supabase_returns (e : Worker.env) (token_data : dict)
    (w : Worker.world) :
  exists v, fst (Worker.store_new_token_in_supabase e token_data w) = Ok v.
Proof.
  unfold Worker.store_new_token_in_supabase.
  apply (@triple_call _ _ (fun _ => True) VNone _
           (fun r _ => exists v, r = Ok v)); [| exact Logic.I].
  apply triple_try with (Qx := fun _ _ => True).
  - apply triple_any; intros; cbv beta; eauto.
  - intros ex. apply triple_return. intros; eauto.
Qed.

(** X20: [store_new_token_in_supabase] never raises: any exception inside it
    gives [None].  Token data without an address or a blockchain gives
    [None] without a request to the store. *)
Theorem store_new_token_in_supabase_never_raises :
  forall (e : Worker.env) (token_data : dict) (w : Worker.world),
    (exists v, fst (Worker.store_new_token_in_supabase e token_data w) = Ok v)
    /\ (truthy (get token_data "address") = false
        \/ truthy (get token_data "blockchain") = false ->
        Worker.store_new_token_in_supabase e token_data w = (Ok VNone, w)).
Proof.
  intros e token_data w. split.
  - apply store_new_token_in_supabase_returns.
  - intros Hmissing.
    unfold Worker.store_new_token_in_supabase, call, try_except, bind, when,
      return_.
    change (get [("address", get token_data "address");
                 ("blockchain", get token_data "blockchain");
                 ("block_number", get token_data "block_number");
                 ("name", get token_data "name");
                 ("symbol", get token_data "symbol");
                 ("classification", get token_data "classification");
                 ("classification_certainty",
                  get token_data "classification_certainty");
                 ("contract_verified", get token_data "contract_verified");
                 ("creator_address", get token_data "creator_address");
                 ("creator_percent", get token_data "creator_percent");
                 ("risk_level", get token_data "risk_level");
                 ("is_scam", get token_data "is_scam");
                 ("buy_tax", get token_data "buy_tax");
                 ("sell_tax", get token_data "sell_tax");
                 ("creator_security", get token_data "creator_security")]
                "address")
      with (get token_data "address").
    change (get [("address", get token_data "address");
                 ("blockchain", get token_data "blockchain");
                 ("block_number", get token_data "block_number");
                 ("name", get token_data "name");
                 ("symbol", get token_data "symbol");
                 ("classification", get token_data "classification");
                 ("classification_certainty",
                  get token_data "classification_certainty");
                 ("contract_verified", get token_data "contract_verified");
                 ("creator_address", get token_data "creator_address");
                 ("creator_percent", get token_data "creator_percent");
                 ("risk_level", get token_data "risk_level");
                 ("is_scam", get token_data "is_scam");
                 ("buy_tax", get token_data "buy_tax");
                 ("sell_tax", get token_data "sell_tax");
                 ("creator_security", get token_data "creator_security")]
                "blockchain")
      with (get token_data "blockchain").
    destruct Hmissing as [H | H]; rewrite H.
    + reflexivity.
    + rewrite orb_true_r. reflexivity.
Qed.

Lemma lock_lp_for_untracked_or_scam_pair_is_terminal_witness :
  Worker.process_webhook Examples.worker_cfg (Examples.worker_env [])
    MoreExamples.lock_lp_job Examples.world0
  = (Ok (VBool true), Examples.world0).
Proof.
  exact (proj2 (@lock_lp_for_untracked_or_scam_pair_is_terminal
                  Examples.worker_cfg (Examples.worker_env [])
                  MoreExamples.lock_lp_job Examples.world0
                  (VStr "0xPair") (VStr "0x1") (VStr "ethereum") []
                  eq_refl eq_refl eq_refl eq_refl eq_refl eq_refl
                  (or_introl eq_refl))).
Defined.

Lemma ownership_renounced_sends_one_update_witness :
  Worker.process_ownership_renounced Examples.worker_cfg
    (Examples.worker_env []) Examples.renounced_job Examples.world0
  = (Ok (VBool true),
     Worker.log_db
       (Worker.Update "tokens"
          [("is_renounced", VBool true);
           ("updated_at", VStr "2023-11-14T22:13:20+00:00")]
          [("address", VStr "0xToken"); ("blockchain", VStr "ethereum")])
       Examples.world0).
Proof.
  apply (@ownership_renounced_sends_one_update Examples.worker_cfg
           (Examples.worker_env []) Examples.renounced_job Examples.world0
           (VStr "0xToken") (VStr "0x1") (VStr "ethereum") (VStr "0xToken")
           [VDict [("address", VStr "0xToken")]]
           eq_refl eq_refl eq_refl eq_refl eq_refl).
  right. exists [("address", VStr "0xToken")], [], (VStr "0xToken").
  split; reflexivity.
Defined.

Lemma store_new_token_in_supabase_never_raises_witness :
  Worker.store_new_token_in_supabase (Examples.worker_env [])
    [("blockchain", VStr "ethereum")] Examples.world0
  = (Ok VNone, Examples.world0).
Proof.
  apply (proj2 (@store_new_token_in_supabase_never_raises
                  (Examples.worker_env []) [("blockchain", VStr "ethereum")]
                  Examples.world0)).
  left. reflexivity.
Defined.


(** ** Worker: the locked share of the liquidity *)

Lemma Qeq_bool_inject_Z_1 (n : Z) : Qeq_bool (inject_Z n) 1 = (n =? 1).
Proof.
  unfold Qeq_bool, inject_Z. simpl. now rewrite Z.mul_1_r.
Qed.

Lemma sum_holders_locked (e : Worker.env) (hs : list (Z * Q)) :
  forall acc,
    Worker.sum_holders e
      (map (fun h => MoreExamples.lp_holder (fst h) (snd h)) hs) acc
    = Ok (fold_left (Worker.float_add e)
            (map snd (filter (fun h => fst h =? 1) hs)) acc).
Proof.
  induction hs as [| [n p] hs IH]; intros acc; [reflexivity |].
  cbn [map fst snd Worker.sum_holders].
  unfold Worker.holder_locked_percent, MoreExamples.lp_holder.
  cbn [py_get rbind]. unfold get_default.
  cbn [dict_get String.eqb Ascii.eqb Bool.eqb].
  unfold Worker.is_locked_holder. cbn [to_num].
  rewrite Qeq_bool_inject_Z_1. cbn [filter fst].
  destruct (n =? 1); cbn [rbind Filters.py_float map snd fold_left]; apply IH.
Qed.

(** X21: Without a lock transaction, the locked share is computed from the
    audit's holder list alone: the percentages of the holders whose
    [is_locked] is 1 are added up by float additions, from 0 and in the
    order of the list, and the sum is multiplied by 100; holders that are
    not locked count for nothing, and a negative total gives 0. *)
Theorem sum_locked_lp_percent_adds_locked_holders :
  forall (e : Worker.env) (raw_results : dict) (transformed_data : value)
         (holders : list (Z * Q)),
    holders <> [] ->
    dict_get raw_results "lp_holders"
    = Some (VList (map (fun h => MoreExamples.lp_holder (fst h) (snd h))
                       holders)) ->
    truthy transformed_data = false ->
    Worker.sum_locked_lp_percent e (VDict raw_results) transformed_data
    = Worker.Qmax 0
        (Worker.float_mul e
           (fold_left (Worker.float_add e)
              (map snd (filter (fun h => fst h =? 1) holders)) 0%Q)
           100%Q).
Proof.
  intros e raw_results transformed_data holders Hne Hget Htd.
  unfold Worker.sum_locked_lp_percent.
  assert (Hraw : truthy (VDict raw_results) = true).
  { destruct raw_results; [discriminate | reflexivity]. }
  rewrite Hraw, Htd. cbn [py_get rbind andb]. unfold get_default.
  rewrite Hget. cbn [rbind].
  assert (Hh : truthy (VList (map (fun h => MoreExamples.lp_holder (fst h) (snd h))
                                  holders)) = true).
  { destruct holders; [congruence | reflexivity]. }
  rewrite Hh. cbn [Gateway.py_iter rbind].
  rewrite sum_holders_locked. reflexivity.
Qed.

Lemma sum_locked_lp_percent_adds_locked_holders_witness :
  Worker.sum_locked_lp_percent (Examples.worker_env [])
    (VDict [("lp_holders",
             VList (map (fun h => MoreExamples.lp_holder (fst h) (snd h))
                        MoreExamples.holders))])
    VNone
  = Worker.Qmax 0 ((0 + 0.25 + 0.125) * 100)%Q.
Proof.
  apply (@sum_locked_lp_percent_adds_locked_holders (Examples.worker_env [])
           [("lp_holders",
             VList (map (fun h => MoreExamples.lp_holder (fst h) (snd h))
                        MoreExamples.holders))]
           VNone MoreExamples.holders).
  - discriminate.
  - reflexivity.
  - reflexivity.
Defined.


(** ** Worker: linked child records of a stored token *)

Section KeepsLinks.

Variables (e : Worker.env) (w0 : Worker.world).
Variable okw : Worker.db_write -> Prop.

Lemma sent_refl : Shape.sent_since okw w0 w0.
Proof. exists []. split; [now rewrite app_nil_r | constructor]. Qed.

Lemma sent_log (op : Worker.db_write) (w : Worker.world) :
  okw op -> Shape.sent_since okw w0 w ->
  Shape.sent_since okw w0 (Worker.log_db op w).
Proof.
  intros Hop (new & Hlog & Hall). exists (new ++ [op])%list. split.
  - simpl. rewrite Hlog. now rewrite app_assoc.
  - apply Forall_app. split; [exact Hall | repeat constructor; exact Hop].
Qed.

Lemma db_exec_sent {R} (Qr : R -> Worker.world -> Prop) (op : Worker.db_write) :
  okw op ->
  triple (Shape.sent_since okw w0) (Worker.db_exec e op)
         (fun _ => Shape.sent_since okw w0) Qr
         (fun _ => Shape.sent_since okw w0).
Proof.
  intros Hop. unfold Worker.db_exec.
  apply triple_bind with (Qm := fun _ => Shape.sent_since okw w0).
  - apply triple_modify. intros w Hw. now apply sent_log.
  - intros _. apply triple_lift; auto.
Qed.

(** Insert, or update on a unique violation, of a token row [row]. *)
Lemma insert_or_update_token_sent {R} (Qr : R -> Worker.world -> Prop)
    (none : R) (row : dict) (address blockchain : value) :
  (forall w, Shape.sent_since okw w0 w -> Qr none w) ->
  okw (Worker.Insert "tokens" row) ->
  okw (Worker.Update "tokens"
         (dict_set row "updated_at" (VStr (Worker.now_isoformat e)))
         [("address", address); ("blockchain", blockchain)]) ->
  triple (Shape.sent_since okw w0)
         (Worker.insert_or_update_token e none row address blockchain)
         (fun _ => Shape.sent_since okw w0) Qr
         (fun _ => Shape.sent_since okw w0).
Proof.
  intros Hnone Hins Hupd. unfold Worker.insert_or_update_token.
  apply triple_bind with (Qm := fun _ => Shape.sent_since okw w0).
  - apply triple_try with (Qx := fun _ => Shape.sent_since okw w0).
    + apply triple_bind with (Qm := fun _ => Shape.sent_since okw w0);
        [now apply db_exec_sent | intros rows].
      repeat triple_step; auto.
    + intros ex. destruct ex as [| code msg |]; try (now apply triple_raise).
      destruct (code =? "23505")%string; [| now apply triple_raise].
      apply triple_bind with (Qm := fun _ => Shape.sent_since okw w0);
        [now apply db_exec_sent | intros rows].
      repeat triple_step; auto.
  - intros rows. repeat triple_step; auto.
Qed.

End KeepsLinks.

Lemma truthy_not_None (v : value) : truthy v = true -> Worker.is_None v = false.
Proof. destruct v; simpl; congruence. Qed.

(** X22: When the stored token links a source-code, an audit and a
    token-information record, [store_new_token_in_supabase] creates no
    child record: every request it sends is an update in place of the
    linked information or audit record, or the insert or update of the
    token row, which carries the three ids it found. *)
Theorem store_new_token_keeps_links :
  forall (e : Worker.env) (token_data : dict) (w : Worker.world)
         (row : dict) (rows : list value) (s g t : value),
    truthy (get token_data "address") = true ->
    truthy (get token_data "blockchain") = true ->
    Worker.db_select e "tokens"
      ["gpl_audit_id"; "source_code_id"; "token_information_id"]
      [("address", get token_data "address");
       ("blockchain", get token_data "blockchain")]
    = Ok (VDict row :: rows) ->
    get row "source_code_id" = s -> truthy s = true ->
    get row "gpl_audit_id" = g -> truthy g = true ->
    get row "token_information_id" = t -> truthy t = true ->
    exists new,
      Worker.db_log (snd (Worker.store_new_token_in_supabase e token_data w))
      = (Worker.db_log w ++ new)%list
      /\ Forall (Shape.keeps_links s g t) new.
Proof.
  intros e token_data w row rows s g t Ha Hb Hsel Hs Hst Hg Hgt Ht Htt.
  subst s g t. unfold get in Hst, Hgt, Htt.
  set (s := get_default row "source_code_id" VNone) in *.
  set (g := get_default row "gpl_audit_id" VNone) in *.
  set (t := get_default row "token_information_id" VNone) in *.
  set (J := Shape.sent_since (Shape.keeps_links s g t) w).
  change (J (snd (Worker.store_new_token_in_supabase e token_data w))).
  unfold Worker.store_new_token_in_supabase.
  match goal with
  | |- context [Worker.link_child_records e token_data ?d _ _] => set (sd0 := d)
  end.
  change (get sd0 "address") with (get token_data "address").
  change (get sd0 "blockchain") with (get token_data "blockchain").
  set (sd1 := dict_set (dict_set (dict_set sd0 "source_code_id" s)
                                 "gpl_audit_id" g)
                       "token_information_id" t).
  assert (Hlinked : Shape.linked s g t sd1).
  { unfold Shape.linked, sd1, sd0. split; [| split]; reflexivity. }
  destruct Hlinked as (Ls & Lg & Lt).
  apply (@triple_call _ _ J VNone _ (fun _ => J));
    [| apply (sent_refl w (Shape.keeps_links s g t))].
  apply triple_try with (Qx := fun _ => J);
    [| intros ex; now apply triple_return].
  rewrite Ha, Hb. cbn [negb orb when].
  apply triple_bind_ret.
  apply triple_bind with (Qm := fun sd w' => J w' /\ sd = sd1).
  - unfold Worker.link_child_records, Worker.db_query.
    rewrite Hsel.
    apply triple_bind_lift; [auto |]. intros rows' Hrows'.
    injection Hrows' as <-. cbn [truthy].
    (* the ids found *)
    apply triple_bind with (Qm := fun sd w' => J w' /\ sd = sd1).
    { apply triple_bind_lift; [auto |]. intros ed E.
      cbn in E. injection E as <-.
      apply triple_bind_lift; [auto |]. intros v1 E.
      cbn [py_get] in E. injection E as <-.
      apply triple_bind_lift; [auto |]. intros v2 E.
      cbn [py_get] in E. injection E as <-.
      apply triple_bind_lift; [auto |]. intros v3 E.
      cbn [py_get] in E. injection E as <-.
      fold s g t. unfold Worker.set_if_truthy. rewrite Hst, Hgt, Htt.
      now apply triple_ret. }
    intros sd. apply triple_pure_pre. intros ->.
    (* source code *)
    apply triple_bind with (Qm := fun sd w' => J w' /\ sd = sd1).
    { unfold get at 2. unfold get_default. rewrite Ls.
      rewrite (truthy_not_None _ Hst), andb_false_r.
      now apply triple_ret. }
    intros sd. apply triple_pure_pre. intros ->.
    (* socials *)
    apply triple_bind with (Qm := fun sd w' => J w' /\ sd = sd1).
    { destruct (Worker.check_socials_exist token_data);
        [| now apply triple_ret].
      unfold get, get_default. rewrite Lt, Htt.
      unfold subscript. rewrite Lt.
      apply triple_bind_lift; [auto |]. intros id E. injection E as <-.
      apply triple_bind with (Qm := fun _ => J).
      - apply db_exec_sent. simpl. auto.
      - intros _. now apply triple_ret. }
    intros sd. apply triple_pure_pre. intros ->.
    (* audit *)
    destruct (truthy (get token_data "raw_results"));
      [| now apply triple_ret].
    unfold get, get_default. rewrite Lg, Hgt.
    unfold subscript. rewrite Lg.
    apply triple_bind_lift; [auto |]. intros id E. injection E as <-.
    apply triple_bind with (Qm := fun _ => J).
    + apply db_exec_sent. simpl. auto.
    + intros _. now apply triple_ret.
  - intros sd. apply triple_pure_pre. intros ->.
    apply triple_bind with (Qm := fun _ => J).
    + apply insert_or_update_token_sent.
      * auto.
      * cbn [Shape.keeps_links]. unfold Shape.linked. auto.
      * cbn [Shape.keeps_links]. left. split; [reflexivity |].
        unfold Shape.linked.
        rewrite !dict_get_set_other by discriminate. auto.
    + intros a. now apply triple_return.
Qed.

Lemma store_new_token_keeps_links_witness :
  exists new,
    Worker.db_log
      (snd (Worker.store_new_token_in_supabase
              (Examples.worker_env [VDict (Examples.token_row false)])
              [("address", VStr "0xToken"); ("blockchain", VStr "ethereum");
               ("raw_results", VDict [("owner_address", VStr "0xowner")])]
              Examples.world0))
    = ([] ++ new)%list
    /\ Forall (Shape.keeps_links (VStr "src-1") (VStr "audit-1") (VStr "info-1"))
              new.
Proof.
  apply (@store_new_token_keeps_links
           (Examples.worker_env [VDict (Examples.token_row false)])
           [("address", VStr "0xToken"); ("blockchain", VStr "ethereum");
            ("raw_results", VDict [("owner_address", VStr "0xowner")])]
           Examples.world0 (Examples.token_row false) []
           (VStr "src-1") (VStr "audit-1") (VStr "info-1"));
    reflexivity.
Defined.


(** ** Worker: a renounced token stays renounced *)

Lemma set_if_truthy_other (d : dict) (k k' : string) (v : value) :
  k <> k' ->
  dict_get (Worker.set_if_truthy d k v) k' = dict_get d k'.
Proof.
  intros Hne. unfold Worker.set_if_truthy.
  destruct (truthy v); [now apply dict_get_set_other | reflexivity].
Qed.

Lemma link_child_records_renounced {R} (Qr : R -> Worker.world -> Prop)
    (e : Worker.env) (w0 : Worker.world) (token_data sd0 : dict)
    (address blockchain : value) :
  dict_get sd0 "is_renounced" = Some (VBool true) ->
  triple (Shape.sent_since Shape.writes_renounced w0)
    (Worker.link_child_records e token_data sd0 address blockchain)
    (fun sd w => Shape.sent_since Shape.writes_renounced w0 w
                 /\ dict_get sd "is_renounced" = Some (VBool true))
    Qr
    (fun _ => Shape.sent_since Shape.writes_renounced w0).
Proof.
  intros Hsd0.
  set (J := Shape.sent_since Shape.writes_renounced w0).
  set (Rn := fun sd : dict => dict_get sd "is_renounced" = Some (VBool true)).
  assert (Hchild : forall table row filters,
             table <> "tokens" ->
             Shape.writes_renounced (Worker.Upsert table row)
             /\ Shape.writes_renounced (Worker.Update table row filters)).
  { intros table row filters Hne. split; intros Heq; contradiction. }
  assert (Hset : forall sd k v, k <> "is_renounced" -> Rn sd ->
                                Rn (dict_set sd k v)).
  { intros sd k v Hk Hsd. unfold Rn. now rewrite dict_get_set_other. }
  assert (Hexec : forall (B : Type) op (k : list value -> M Worker.world R B)
                         Qn,
             Shape.writes_renounced op ->
             (forall rows, triple J (k rows) Qn Qr (fun _ => J)) ->
             triple J (bind (Worker.db_exec e op) k) Qn Qr (fun _ => J)).
  { intros B op k Qn Hop Hk.
    apply triple_bind with (Qm := fun _ => J); [| exact Hk].
    now apply db_exec_sent. }
  unfold Worker.link_child_records, Worker.db_query.
  apply triple_bind_lift; [auto |]. intros rows _.
  (* the ids found *)
  apply triple_bind with (Qm := fun sd w => J w /\ Rn sd).
  { destruct (truthy (VList rows)); [| now apply triple_ret].
    do 4 (apply triple_bind_lift; [auto |]; intros ? _).
    apply triple_ret. intros w Hw. split; [exact Hw |].
    unfold Rn. now rewrite !set_if_truthy_other by discriminate. }
  intros sd1. apply triple_pure_pre. intros H1.
  (* source code *)
  apply triple_bind with (Qm := fun sd w => J w /\ Rn sd).
  { destruct (_ && _); [| now apply triple_ret].
    apply Hexec; [apply (Hchild "source_code" _ []); discriminate |].
    intros res. destruct (truthy (VList res)); [| now apply triple_ret].
    apply triple_bind_lift; [auto |]. intros id _.
    apply triple_ret. intros w Hw. split; [exact Hw |].
    apply Hset; [discriminate | exact H1]. }
  intros sd2. apply triple_pure_pre. intros H2.
  (* socials *)
  apply triple_bind with (Qm := fun sd w => J w /\ Rn sd).
  { destruct (Worker.check_socials_exist token_data);
      [| now apply triple_ret].
    destruct (truthy (get sd2 "token_information_id")).
    - apply triple_bind_lift; [auto |]. intros id _.
      apply Hexec; [apply (Hchild "token_information" _ _); discriminate |].
      intros _. now apply triple_ret.
    - apply Hexec; [apply (Hchild "token_information" _ []); discriminate |].
      intros res. destruct (truthy (VList res)); [| now apply triple_ret].
      apply triple_bind_lift; [auto |]. intros id _.
      apply triple_ret. intros w Hw. split; [exact Hw |].
      apply Hset; [discriminate | exact H2]. }
  intros sd3. apply triple_pure_pre. intros H3.
  (* audit *)
  destruct (truthy (get token_data "raw_results")); [| now apply triple_ret].
  destruct (truthy (get sd3 "gpl_audit_id")).
  - apply triple_bind_lift; [auto |]. intros id _.
    apply Hexec; [apply (Hchild "gpl_audit" _ _); discriminate |].
    intros _. now apply triple_ret.
  - apply Hexec; [apply (Hchild "gpl_audit" _ []); discriminate |].
    intros res. destruct (truthy (VList res)); [| now apply triple_ret].
    apply triple_bind_lift; [auto |]. intros id _.
    apply triple_ret. intros w Hw. split; [exact Hw |].
    apply Hset; [discriminate | exact H3].
Qed.

(** X23: When the store already marks the token as renounced,
    [store_new_pair_data_in_supabase] writes it as renounced whatever the
    fresh token data says: every token row it inserts or updates carries
    [is_renounced = True], and so does the token data it hands back for
    the notification. *)
Theorem store_new_pair_keeps_renounced :
  forall (e : Worker.env) (token_data : dict) (w : Worker.world)
         (address chain_id : value),
    dict_get token_data "address" = Some address ->
    dict_get token_data "chain_id" = Some chain_id ->
    Worker.is_token_renounced e address chain_id = true ->
    let run := Worker.store_new_pair_data_in_supabase e token_data w in
    (exists token_data' stored,
       fst run = Ok (token_data', stored)
       /\ get token_data' "is_renounced" = VBool true)
    /\ exists new,
         Worker.db_log (snd run) = (Worker.db_log w ++ new)%list
         /\ Forall Shape.writes_renounced new.
Proof.
  intros e token_data w address chain_id Ha Hc Hren run.
  set (J := Shape.sent_since Shape.writes_renounced w).
  set (td := dict_set token_data "is_renounced" (VBool true)).
  assert (Htd : get td "is_renounced" = VBool true).
  { unfold td, get, get_default. now rewrite dict_get_set_same. }
  set (Q := fun (res : result (dict * value)) (w' : Worker.world) =>
              (exists token_data' stored,
                 res = Ok (token_data', stored)
                 /\ get token_data' "is_renounced" = VBool true)
              /\ J w').
  assert (HQ : forall v w', J w' -> Q (Ok (td, v)) w').
  { intros v w' Hw'. split; [| exact Hw']. exists td, v. auto. }
  change (Q (fst run) (snd run)). subst run.
  unfold Worker.store_new_pair_data_in_supabase.
  apply (@triple_call _ _ J _ _ Q);
    [| apply (sent_refl w Shape.writes_renounced)].
  unfold subscript. rewrite Ha, Hc.
  apply triple_bind_lift; [discriminate |]. intros a0 E. injection E as <-.
  apply triple_bind_lift; [discriminate |]. intros c0 E. injection E as <-.
  rewrite Hren. fold td.
  match goal with
  | |- context [Worker.set_if_truthy ?d "is_scam" _] => set (sd := d)
  end.
  assert (Hsd : dict_get (Worker.set_if_truthy sd "is_scam" (get td "is_scam"))
                         "is_renounced" = Some (VBool true)).
  { rewrite set_if_truthy_other by discriminate.
    unfold sd. cbn [dict_get String.eqb Ascii.eqb Bool.eqb].
    now rewrite Htd. }
  apply triple_try with (Qx := fun _ => J).
  2: { intros ex. apply triple_return. intros w' Hw'. now apply HQ. }
  apply triple_bind_when; intros _.
  { apply triple_bind_return. intros w' Hw'. now apply HQ. }
  apply triple_bind
    with (Qm := fun sd' w' =>
                  J w' /\ dict_get sd' "is_renounced" = Some (VBool true)).
  { now apply link_child_records_renounced. }
  intros sd'. apply triple_pure_pre. intros Hsd'.
  apply triple_bind with (Qm := fun _ => J).
  - apply insert_or_update_token_sent.
    + intros w' Hw'. now apply HQ.
    + intros _. exact Hsd'.
    + intros _. now rewrite dict_get_set_other by discriminate.
  - intros a. apply triple_return. intros w' Hw'. now apply HQ.
Qed.

Lemma store_new_pair_keeps_renounced_witness :
  let run :=
    Worker.store_new_pair_data_in_supabase
      (Examples.worker_env [VDict MoreExamples.renounced_row])
      MoreExamples.fresh_pair_data Examples.world0 in
  (exists token_data' stored,
     fst run = Ok (token_data', stored)
     /\ get token_data' "is_renounced" = VBool true)
  /\ exists new,
       Worker.db_log (snd run) = ([] ++ new)%list
       /\ Forall Shape.writes_renounced new.
Proof.
  apply (@store_new_pair_keeps_renounced
           (Examples.worker_env [VDict MoreExamples.renounced_row])
           MoreExamples.fresh_pair_data Examples.world0
           (VStr "0xToken") (VStr "0x1"));
    reflexivity.
Defined.


(** ** Worker: a [new_token] job after its first step *)

Lemma increment_firestore_counter_ends {R} (e : Worker.env) (token_data : dict)
    (w : Worker.world) :
  exists w',
    @Worker.increment_firestore_counter R e token_data w = (Normal tt, w')
    /\ Worker.redis_of w' = Worker.redis_of w.
Proof.
  unfold Worker.increment_firestore_counter, try_except, bind, modify, lift, ret.
  destruct (Worker.firestore_update e "total_counter") as [[] |];
    [| eexists; split; reflexivity].
  destruct (Gateway.eq_str (get token_data "risk_level") "High").
  - destruct (Worker.firestore_update e "scams_counter") as [[] |];
      eexists; split; reflexivity.
  - destruct (Gateway.eq_str (get token_data "risk_level") "Medium").
    + destruct (Worker.firestore_update e "risky_counter") as [[] |];
        eexists; split; reflexivity.
    + eexists; split; reflexivity.
Qed.

Ltac known_value H :=
  apply triple_bind_lift;
  [ let E := fresh in intros ? ? E; rewrite H in E; discriminate E
  | let E := fresh in intros ? E; rewrite H in E; injection E as <- ].

(** X24: Once the contract information of a [new_token] job has been read, the
    job succeeds whatever the later steps answer: the source-code,
    security and classification steps swallow their exceptions, the
    counter update and the store routine never raise, so the job returns
    [True] and is neither scheduled for a retry nor dead-lettered, also
    when the relational store could not be written. *)
Theorem new_token_job_succeeds_after_first_step :
  forall (cfg : Worker.config) (e : Worker.env) (event_data : dict)
         (w : Worker.world)
         (chain_id block_number event_id raw_address blockchain address : value)
         (basic_info : dict),
    dict_get event_data "chain_id" = Some chain_id ->
    dict_get event_data "block_number" = Some block_number ->
    dict_get event_data "event_id" = Some event_id ->
    dict_get event_data "address" = Some raw_address ->
    Worker.convert_chain_id_to_blockchain e chain_id = Ok blockchain ->
    Worker.initialize_infura_web3_object e blockchain = Ok tt ->
    Worker.to_checksum_address e raw_address = Ok address ->
    Worker.fetch_with_retry (Worker.get_eth_contract_info e address)
    = Ok (VDict basic_info) ->
    basic_info <> [] ->
    let run := Worker.process_new_token cfg e event_data w in
    fst run = Ok (VBool true)
    /\ retry_queue (Worker.redis_of (snd run)) = retry_queue (Worker.redis_of w)
    /\ failed_events (Worker.redis_of (snd run))
       = failed_events (Worker.redis_of w).
Proof.
  intros cfg e event_data w chain_id block_number event_id raw_address
    blockchain address basic_info Hc Hb Hi Ha Hconv Hinit Hsum Hfetch Hne run.
  set (I := fun w' : Worker.world =>
              retry_queue (Worker.redis_of w') = retry_queue (Worker.redis_of w)
              /\ failed_events (Worker.redis_of w')
                 = failed_events (Worker.redis_of w)).
  set (Q := fun (res : result value) (w' : Worker.world) =>
              res = Ok (VBool true) /\ I w').
  assert (HQ : Q (fst run) (snd run)); [| destruct HQ as [H1 [H2 H3]]; auto].
  subst run. unfold Worker.process_new_token.
  apply (@triple_call _ _ I VNone _ Q); [| split; reflexivity].
  apply triple_try with (Qx := fun _ _ => False); [| intros ex s []].
  unfold subscript. rewrite Hc, Hb, Hi, Ha.
  do 3 (apply triple_bind_lift;
        [discriminate | intros ? E; injection E as <-]).
  known_value Hconv. known_value Hinit.
  apply triple_bind_lift; [discriminate | intros ? E; injection E as <-].
  known_value Hsum. known_value Hfetch.
  assert (Htruthy : truthy (VDict basic_info) = true)
    by (destruct basic_info; [congruence | reflexivity]).
  rewrite Htruthy. cbn [negb].
  apply triple_bind_when; [discriminate | intros _].
  cbn [Worker.py_update].
  apply triple_bind_lift; [discriminate | intros ? E; injection E as <-].
  match goal with
  | |- context [Worker.increment_firestore_counter e ?td] => set (token_data := td)
  end.
  apply triple_bind with (Qm := fun _ => I).
  { intros w' Hw'.
    destruct (@increment_firestore_counter_ends value e token_data w')
      as (w'' & -> & Hredis).
    unfold I in *. now rewrite Hredis. }
  intros _.
  apply triple_bind
    with (Qm := fun (r : result value) w' => I w' /\ exists v, r = Ok v).
  { apply triple_gathered. intros w' Hw'. split.
    - apply (@store_new_token_in_supabase_frame I); [| exact Hw'].
      intros op w'' H. exact H.
    - apply store_new_token_in_supabase_returns. }
  intros r. apply triple_pure_pre. intros [v ->].
  apply triple_bind with (Qm := fun _ => I).
  - destruct (negb (truthy (get token_data "is_scam"))); cbn [when].
    + unfold Worker.notify. apply triple_modify. intros w' Hw'. exact Hw'.
    + now apply triple_ret.
  - intros _. apply triple_return. intros w' Hw'. split; [reflexivity | exact Hw'].
Qed.

Lemma new_token_job_succeeds_after_first_step_witness :
  let run := Worker.process_new_token Examples.worker_cfg
               MoreExamples.store_down_env MoreExamples.new_token_job
               Examples.world0 in
  fst run = Ok (VBool true)
  /\ retry_queue (Worker.redis_of (snd run)) = []
  /\ failed_events (Worker.redis_of (snd run)) = [].
Proof.
  apply (@new_token_job_succeeds_after_first_step Examples.worker_cfg
           MoreExamples.store_down_env MoreExamples.new_token_job
           Examples.world0
           (VStr "0x1") (VStr "100") (VStr "evt1_0xToken") (VStr "0xToken")
           (VStr "ethereum") (VStr "0xToken")
           [("name", VStr "Token"); ("symbol", VStr "TKN")]);
    try reflexivity.
  discriminate.
Defined.


(** * Properties of the notification worker *)

Lemma send_loop_attempts (cfg : Notifier.config) (tg : Notifier.telegram)
    (n : nat) :
  forall fuel attempt,
    (0 < fuel)%nat -> (attempt + fuel = n)%nat ->
    (forall j, (j < attempt)%nat -> Shape.retried cfg tg j) ->
    exists k,
      (k < n)%nat
      /\ snd (Notifier.send_loop cfg tg n attempt fuel) = S k
      /\ (forall j, (j < k)%nat -> Shape.retried cfg tg j)
      /\ (fst (Notifier.send_loop cfg tg n attempt fuel) = true ->
          Notifier.post tg k = Ok 200)
      /\ (Notifier.post tg k = Ok 200 -> Notifier.DEV_MODE cfg = false ->
          fst (Notifier.send_loop cfg tg n attempt fuel) = true)
      /\ ((k < n - 1)%nat -> ~ Shape.retried cfg tg k).
Proof.
  induction fuel as [| fuel IH]; intros attempt Hpos Hsum Hbefore; [lia |].
  assert (Hnext : Shape.retried cfg tg attempt ->
            (attempt < n - 1)%nat ->
            exists k,
              (k < n)%nat
              /\ snd (Notifier.send_loop cfg tg n (S attempt) fuel) = S k
              /\ (forall j, (j < k)%nat -> Shape.retried cfg tg j)
              /\ (fst (Notifier.send_loop cfg tg n (S attempt) fuel) = true ->
                  Notifier.post tg k = Ok 200)
              /\ (Notifier.post tg k = Ok 200 ->
                  Notifier.DEV_MODE cfg = false ->
                  fst (Notifier.send_loop cfg tg n (S attempt) fuel) = true)
              /\ ((k < n - 1)%nat -> ~ Shape.retried cfg tg k)).
  { intros Hr Hlt. apply IH; [lia | lia |].
    intros j Hj. destruct (Nat.eq_dec j attempt) as [-> | Hne]; [exact Hr |].
    apply Hbefore. lia. }
  assert (Hstop : forall b,
            (b = true -> Notifier.post tg attempt = Ok 200) ->
            (Notifier.post tg attempt = Ok 200 ->
             Notifier.DEV_MODE cfg = false -> b = true) ->
            ((attempt < n - 1)%nat -> ~ Shape.retried cfg tg attempt) ->
            exists k,
              (k < n)%nat
              /\ snd (b, S attempt) = S k
              /\ (forall j, (j < k)%nat -> Shape.retried cfg tg j)
              /\ (fst (b, S attempt) = true -> Notifier.post tg k = Ok 200)
              /\ (Notifier.post tg k = Ok 200 ->
                  Notifier.DEV_MODE cfg = false -> fst (b, S attempt) = true)
              /\ ((k < n - 1)%nat -> ~ Shape.retried cfg tg k)).
  { intros b H1 H2 H3. exists attempt. repeat split; auto. lia. }
  assert (Hexn : forall ex,
            (Notifier.post tg attempt = Err ex
             \/ (Notifier.post tg attempt = Ok 429
                 /\ Notifier.retry_after_sleep tg attempt = Err ex)
             \/ (Notifier.DEV_MODE cfg = true
                 /\ Notifier.post tg attempt = Ok 200
                 /\ Notifier.response_json tg attempt = Err ex)) ->
            let r := if Notifier.is_request_exception tg ex
                     then if Nat.eqb attempt (n - 1) then (false, S attempt)
                          else Notifier.send_loop cfg tg n (S attempt) fuel
                     else (false, S attempt) in
            exists k,
              (k < n)%nat
              /\ snd r = S k
              /\ (forall j, (j < k)%nat -> Shape.retried cfg tg j)
              /\ (fst r = true -> Notifier.post tg k = Ok 200)
              /\ (Notifier.post tg k = Ok 200 ->
                  Notifier.DEV_MODE cfg = false -> fst r = true)
              /\ ((k < n - 1)%nat -> ~ Shape.retried cfg tg k)).
  { intros ex Hcause r. subst r.
    destruct (Notifier.is_request_exception tg ex) eqn:Hreq.
    - destruct (Nat.eqb attempt (n - 1)) eqn:Hlast.
      + apply Nat.eqb_eq in Hlast. apply Hstop; [discriminate | | lia].
        intros H200 Hdev. destruct Hcause as [H | [[H _] | [H _]]]; congruence.
      + apply Nat.eqb_neq in Hlast. apply Hnext; [| lia].
        right. exists ex. auto.
    - apply Hstop; [discriminate | |].
      + intros H200 Hdev. destruct Hcause as [H | [[H _] | [H _]]]; congruence.
      + intros _ [[H429 [u Hu]] | (ex' & Hreq' & Hc)].
        * destruct Hcause as [H | [[_ H] | [_ [H _]]]]; congruence.
        * destruct Hcause as [H | [[H Hs] | [Hd [H Hj]]]];
            destruct Hc as [H' | [[H' Hs'] | [Hd' [H' Hj']]]]; congruence. }
  cbn [Notifier.send_loop]. cbv zeta.
  destruct (Notifier.post tg attempt) as [status | ex] eqn:Hpost.
  - destruct (Z.eqb_spec status 429) as [-> | H429].
    + destruct (Notifier.retry_after_sleep tg attempt) as [u | ex] eqn:Hsleep.
      * destruct (Nat.eq_dec attempt (n - 1)) as [Hlast | Hlast].
        -- (* the last attempt: the loop is over *)
           assert (fuel = 0%nat) by lia. subst fuel. cbn [Notifier.send_loop].
           apply Hstop; [discriminate | congruence | lia].
        -- apply Hnext; [| lia]. left. eauto.
      * apply (Hexn ex). auto.
    + destruct (Z.eqb_spec status 200) as [-> | H200]; cbn [negb].
      * destruct (Notifier.DEV_MODE cfg) eqn:Hdev.
        -- destruct (Notifier.response_json tg attempt) as [u | ex] eqn:Hjson.
           ++ apply Hstop; [auto | auto |].
              intros _ [[H [_ _]] | (ex & _ & [H | [[H _] | [_ [_ H]]]])];
                congruence.
           ++ apply (Hexn ex). auto.
        -- apply Hstop; [auto | auto |].
           intros _ [[H [_ _]] | (ex & _ & [H | [[H _] | [H _]]])];
             congruence.
      * apply Hstop; [discriminate | congruence |].
        intros _ [[H [_ _]] | (ex & _ & [H | [[H _] | [_ [H _]]]])];
          congruence.
  - apply (Hexn ex). auto.
Qed.

(** X25: [send_telegram_message] never raises and makes between one and three
    requests.  Every attempt before the last one was answered 429 or failed
    with a request exception; the result is [True] only when the last
    request was answered 200, and outside development mode always then;
    and the loop stops before its third attempt only on an outcome that is
    not retried. *)
Theorem send_telegram_message_attempts :
  forall (cfg : Notifier.config) (tg : Notifier.telegram),
    exists k,
      (k < 3)%nat
      /\ snd (Notifier.send_telegram_message cfg tg) = S k
      /\ (forall j, (j < k)%nat -> Shape.retried cfg tg j)
      /\ (fst (Notifier.send_telegram_message cfg tg) = true ->
          Notifier.post tg k = Ok 200)
      /\ (Notifier.post tg k = Ok 200 -> Notifier.DEV_MODE cfg = false ->
          fst (Notifier.send_telegram_message cfg tg) = true)
      /\ ((k < 2)%nat -> ~ Shape.retried cfg tg k).
Proof.
  intros cfg tg. unfold Notifier.send_telegram_message.
  apply (@send_loop_attempts cfg tg 3 3 0); [lia | lia |].
  intros j Hj. lia.
Qed.


Lemma for_each_triple {S R X} (P : S -> Prop) (Qr : R -> S -> Prop)
    (l : list X) (body : X -> M S R unit) :
  (forall x, In x l -> triple P (body x) (fun _ => P) Qr (fun _ => P)) ->
  triple P (for_each l body) (fun _ => P) Qr (fun _ => P).
Proof.
  induction l as [| x l IH]; intros Hbody; simpl.
  - now apply triple_ret.
  - apply triple_bind with (Qm := fun _ => P).
    + apply Hbody. now left.
    + intros _. apply IH. intros y Hy. apply Hbody. now right.
Qed.

Lemma for_each_app {S R X} (l1 l2 : list X) (body : X -> M S R unit) (s : S) :
  for_each (l1 ++ l2) body s
  = bind (for_each l1 body) (fun _ => for_each l2 body) s.
Proof.
  revert s. induction l1 as [| x l1 IH]; intros s; simpl.
  - reflexivity.
  - unfold bind.
    destruct (body x s) as [[[] | r | ex] s']; [| reflexivity | reflexivity].
    rewrite IH. reflexivity.
Qed.

(** X26: Handling one message never raises and only adds to what is sent; each
    message handed to [send_telegram_message] goes to the chat id of a
    scanned user whose stored filters accept the token data, with the text
    formatted by that user's display preference. *)
Theorem notifications_go_to_accepting_users :
  forall (e : Notifier.env) (message : value)
         (users : list Notifier.user_hash) (sent : Notifier.outbox),
    fst (Notifier.process_message e message users sent) = Ok tt
    /\ exists new,
         snd (Notifier.process_message e message users sent)
         = (sent ++ new)%list
         /\ match py_get message "token_data" (VDict []) with
            | Ok message_data => Forall (Shape.accepted e message_data users) new
            | Err _ => new = []
            end.
Proof.
  intros e message users sent.
  unfold Notifier.process_message.
  apply (@triple_call _ _ (fun s => s = sent) tt _
           (fun res s =>
              res = Ok tt
              /\ exists new,
                   s = (sent ++ new)%list
                   /\ match py_get message "token_data" (VDict []) with
                      | Ok message_data =>
                          Forall (Shape.accepted e message_data users) new
                      | Err _ => new = []
                      end)); [| reflexivity].
  destruct (py_get message "token_data" (VDict [])) as [md | ex0].
  2: { intros s ->. cbn. split; [reflexivity |]. exists [].
       split; [now rewrite app_nil_r | reflexivity]. }
  set (J := fun s : Notifier.outbox =>
              exists new, s = (sent ++ new)%list
                          /\ Forall (Shape.accepted e md users) new).
  assert (J0 : J sent).
  { exists []. split; [now rewrite app_nil_r | constructor]. }
  assert (HJ : forall s, J s ->
                 Ok tt = Ok tt
                 /\ exists new,
                      s = (sent ++ new)%list
                      /\ Forall (Shape.accepted e md users) new).
  { intros s (new & -> & Hall). split; [reflexivity |]. eauto. }
  apply triple_try with (Qx := fun _ => J);
    [| intros ex; apply triple_ret; exact HJ].
  apply triple_conseq
    with (P' := J) (Qn' := fun _ => J) (Qr' := fun _ => J) (Qe' := fun _ => J);
    [| intros s ->; exact J0 | intros _; exact HJ | intros []; exact HJ | auto].
  - apply triple_bind_lift; [auto |]. intros md' E. injection E as <-.
    apply for_each_triple. intros u Hu.
    unfold Notifier.notify_user.
    destruct u as [| f0 u0] eqn:Eu; [now apply triple_ret |].
    rewrite <- Eu in *. clear Eu.
    apply triple_bind_lift; [auto |]. intros text Htext.
    destruct (Notifier.hash_get u "filters") as [raw |] eqn:Hraw;
      [| discriminate].
    apply triple_bind_lift; [auto |]. intros filters Hfilters.
    destruct (Notifier.hash_get u "telegram_id") as [[| b tg] |] eqn:Htg;
      try (now apply triple_ret).
    apply triple_bind_lift; [auto |]. intros pass Hpass.
    destruct pass; cbn [when]; [| now apply triple_ret].
    apply triple_bind_lift; [auto |]. intros pref Hpref.
    apply triple_bind_lift; [auto |]. intros msg Hmsg.
    apply triple_bind_lift; [auto |]. intros chat Hchat.
    apply triple_modify. intros s (new & -> & Hall).
    exists (new ++ [(chat, msg)])%list. split; [now rewrite app_assoc |].
    apply Forall_app. split; [exact Hall |]. repeat constructor.
    exists u, raw, text, filters, (b :: tg), pref. repeat split; auto.
Qed.


(** X27: A user record that makes the loop raise ends the round for the
    message: a hash without a [filters] field (the default is a [str],
    which has no [decode]) or with filters that are not JSON stops the
    delivery, and no user scanned after it receives the message. *)
Theorem bad_user_record_ends_the_round :
  forall (e : Notifier.env) (message : value)
         (before after : list Notifier.user_hash) (bad : Notifier.user_hash)
         (sent : Notifier.outbox),
    bad <> [] ->
    (Notifier.hash_get bad "filters" = None
     \/ exists raw text ex,
          Notifier.hash_get bad "filters" = Some raw
          /\ Notifier.decode_utf8 raw = Ok text
          /\ Notifier.json_loads e text = Err ex) ->
    Notifier.process_message e message (before ++ bad :: after) sent
    = Notifier.process_message e message before sent.
Proof.
  intros e message before after bad sent Hne Hbad.
  assert (Hraise : forall md s, exists ex,
             Notifier.notify_user e md bad s = (Raise ex, s)).
  { intros md s. unfold Notifier.notify_user.
    destruct bad as [| f0 u0] eqn:Eb; [congruence |].
    rewrite <- Eb in *. unfold bind, lift.
    destruct Hbad as [-> | (raw & text & ex & -> & -> & ->)]; eauto. }
  unfold Notifier.process_message, call, try_except, bind, lift.
  destruct (py_get message "token_data" (VDict [])) as [md | ex0];
    [| reflexivity].
  rewrite for_each_app. unfold bind.
  destruct (for_each before (Notifier.notify_user e md) sent)
    as [[[] | r | ex] s1]; try reflexivity.
  cbn [for_each]. unfold bind.
  destruct (Hraise md s1) as [ex ->]. reflexivity.
Qed.

Lemma bad_user_record_ends_the_round_witness :
  Notifier.process_message MoreExamples.notifier_env MoreExamples.notification
    ([MoreExamples.subscriber] ++ MoreExamples.broken_user
       :: [MoreExamples.subscriber])
    []
  = Notifier.process_message MoreExamples.notifier_env
      MoreExamples.notification [MoreExamples.subscriber] [].
Proof.
  apply (@bad_user_record_ends_the_round MoreExamples.notifier_env
           MoreExamples.notification [MoreExamples.subscriber]
           [MoreExamples.subscriber] MoreExamples.broken_user []).
  - discriminate.
  - left. reflexivity.
Defined.


(** ** The filters stored for a user *)

Lemma dict_get_not_key (d : dict) (k : string) :
  ~ In k (map fst d) -> dict_get d k = None.
Proof.
  induction d as [| [k' v] d IH]; simpl; intros H; [reflexivity |].
  destruct (String.eqb_spec k' k) as [-> | Hne]; [tauto |].
  apply IH. tauto.
Qed.

Lemma In_key_filter (d : dict) (k : string) (p : string * value -> bool) :
  In k (map fst (filter p d)) -> In k (map fst d).
Proof.
  intros H. apply in_map_iff in H. destruct H as (kv & <- & Hin).
  apply filter_In in Hin. apply in_map. tauto.
Qed.

(** A column read from the stored filters and from the row without its
    NULL columns: the same value, or blank against absent. *)
Lemma cached_column (row : dict) (k : string) :
  NoDup (map fst row) ->
  let present :=
    filter (fun kv =>
              negb (existsb (String.eqb (fst kv)) Notifier.bookkeeping_fields)
              && negb (Worker.is_None (snd kv))) row in
  dict_get (Notifier.cached_filters row) k = dict_get present k
  \/ (dict_get (Notifier.cached_filters row) k = Some (VStr "")
      /\ dict_get present k = None).
Proof.
  intros Hnd. cbv zeta. unfold Notifier.cached_filters.
  induction row as [| [k0 v0] row IH]; [now left |].
  inversion Hnd as [| ? ? Hk0 Hnd']; subst.
  cbn [filter fst snd].
  destruct (existsb (String.eqb k0) Notifier.bookkeeping_fields);
    cbn [negb andb]; [now apply IH |].
  cbn [map fst snd dict_get].
  destruct (String.eqb_spec k0 k) as [-> | Hne].
  - destruct v0; cbn [Worker.is_None negb dict_get];
      rewrite ?String.eqb_refl; auto.
    right. split; [reflexivity |].
    apply dict_get_not_key. intros Hin. apply Hk0.
    eapply In_key_filter. exact Hin.
  - destruct v0; cbn [Worker.is_None negb dict_get];
      try (destruct (String.eqb_spec k0 k); [contradiction |]);
      now apply IH.
Qed.

Section CachedFilters.

Variable float_of_string : string -> option Q.
Variables (f1 f2 : dict).

(** Column by column, [f1] holds what [f2] holds, or a blank where [f2]
    holds nothing. *)
Hypothesis blank_or_same :
  forall k, dict_get f1 k = dict_get f2 k
            \/ (dict_get f1 k = Some (VStr "") /\ dict_get f2 k = None).

Lemma text_column_same (k : string) :
  get_default f1 k (VStr "") = get_default f2 k (VStr "").
Proof.
  unfold get_default.
  destruct (blank_or_same k) as [-> | [-> ->]]; reflexivity.
Qed.

Lemma tax_column_same (k : string) (message_tax : value) :
  Filters.tax_excludes float_of_string (get f1 k) message_tax
  = Filters.tax_excludes float_of_string (get f2 k) message_tax.
Proof.
  unfold get, get_default.
  destruct (blank_or_same k) as [-> | [-> ->]]; reflexivity.
Qed.

Lemma flag_column_same (k : string) :
  Filters.is_True (get f1 k) = Filters.is_True (get f2 k).
Proof.
  unfold get, get_default.
  destruct (blank_or_same k) as [-> | [-> ->]]; reflexivity.
Qed.

Lemma locked_lp_column_same (a b : string) (message_locked_lp : value) :
  Filters.locked_lp_excludes float_of_string (get f1 "locked_lp") a b
    message_locked_lp
  = Filters.locked_lp_excludes float_of_string (get f2 "locked_lp") a b
      message_locked_lp.
Proof.
  unfold get, get_default.
  destruct (blank_or_same "locked_lp") as [-> | [-> ->]]; [reflexivity |].
  unfold Filters.locked_lp_excludes. cbn [truthy String.eqb negb andb].
  destruct (negb (b =? "new_token")%string); reflexivity.
Qed.

Lemma blockchains_column_same (message_blockchain : value) :
  Filters.blockchain_excludes (get_default f1 "blockchains" (VList []))
    message_blockchain
  = Filters.blockchain_excludes (get_default f2 "blockchains" (VList []))
      message_blockchain.
Proof.
  unfold get_default.
  destruct (blank_or_same "blockchains") as [-> | [-> ->]]; reflexivity.
Qed.

Lemma apply_filters_blank_or_same (message_data : dict) :
  Filters.apply_filters float_of_string f1 message_data
  = Filters.apply_filters float_of_string f2 message_data.
Proof.
  unfold Filters.apply_filters.
  rewrite (text_column_same "risk_level"), (text_column_same "classification"),
    (text_column_same "alert_type").
  destruct (str_lower (get_default f2 "risk_level" (VStr ""))) as [fr |];
    cbn [rbind]; [| reflexivity].
  destruct (str_lower (get_default f2 "classification" (VStr ""))) as [fc |];
    cbn [rbind]; [| reflexivity].
  destruct (str_lower (get_default f2 "alert_type" (VStr ""))) as [fe |];
    cbn [rbind]; [| reflexivity].
  destruct (str_lower (get_default message_data "risk_level" (VStr "")))
    as [mr |]; cbn [rbind]; [| reflexivity].
  destruct (str_lower (get_default message_data "classification" (VStr "")))
    as [mc |]; cbn [rbind]; [| reflexivity].
  destruct (str_lower (get_default message_data "event_type" (VStr "")))
    as [me |]; cbn [rbind]; [| reflexivity].
  destruct (Filters.chain_id_mapping_get (get message_data "chain_id"))
    as [mb |]; cbn [rbind]; [| reflexivity].
  rewrite blockchains_column_same, locked_lp_column_same.
  rewrite (flag_column_same "has_social"), (flag_column_same "contract_verified").
  rewrite (tax_column_same "buy_tax"), (tax_column_same "sell_tax").
  reflexivity.
Qed.

End CachedFilters.

(** X28: A NULL column of a user's filter row acts as an absent one: the
    filters the cache stores (bookkeeping columns dropped, NULL stored as
    the empty string) give the same verdict, or the same exception, on
    every message as the row without its bookkeeping and NULL columns. *)
Theorem null_filter_columns_act_as_absent :
  forall (float_of_string : string -> option Q) (row message_data : dict),
    NoDup (map fst row) ->
    Filters.apply_filters float_of_string (Notifier.cached_filters row)
      message_data
    = Filters.apply_filters float_of_string
        (filter (fun kv =>
                   negb (existsb (String.eqb (fst kv))
                                 Notifier.bookkeeping_fields)
                   && negb (Worker.is_None (snd kv))) row)
        message_data.
Proof.
  intros fos row message_data Hnd.
  apply apply_filters_blank_or_same.
  intros k. now apply cached_column.
Qed.

Lemma null_filter_columns_act_as_absent_witness :
  Filters.apply_filters (fun _ => None)
    (Notifier.cached_filters MoreExamples.filter_row)
    [("event_type", VStr "new_pair"); ("risk_level", VStr "High")]
  = Filters.apply_filters (fun _ => None)
      (filter (fun kv =>
                 negb (existsb (String.eqb (fst kv))
                               Notifier.bookkeeping_fields)
                 && negb (Worker.is_None (snd kv))) MoreExamples.filter_row)
      [("event_type", VStr "new_pair"); ("risk_level", VStr "High")].
Proof.
  apply (@null_filter_columns_act_as_absent (fun _ => None)
           MoreExamples.filter_row
           [("event_type", VStr "new_pair"); ("risk_level", VStr "High")]).
  unfold MoreExamples.filter_row. cbn [map fst].
  repeat constructor; simpl; intuition discriminate.
Defined.


(** ** The user cache *)







(** Running a block on a state, as far as its first statements are
    known. *)
Ltac run_block :=
  cbv beta iota delta [bind lift ret when return_ call];
  cbn [py_get negb truthy Worker.first_row Gateway.py_first].

Ltac run_with H := rewrite H; run_block.

(** X30: For a user who is eligible for the cache, a change notice stores
    exactly what the start-up pass stores for the same row: the handler
    and the loop of [initialize_user_cache] leave the same cache and raise
    the same exceptions. *)
Theorem refresh_agrees_with_startup :
  forall (e : Cache.env) (payload user_id user telegram_account : value)
         (rest : list value) (s : Cache.store),
    Shape.names_user payload user_id ->
    Cache.select_user e user_id = Ok (user :: rest) ->
    py_get user "id" VNone = Ok user_id ->
    Shape.telegram_account_of user = Ok (Some telegram_account) ->
    Cache.handle_user_changes e payload s = Cache.cache_user e user s.
Proof.
  intros e payload user_id user telegram_account rest s
    (data & record & Hd & Hr & Hu & Ht) Hsel Hid Hacc.
  unfold Shape.telegram_account_of in Hacc.
  destruct (py_get user "user_subscriptions" VNone) as [subs |] eqn:Hsubs;
    cbn [rbind] in Hacc; [| discriminate].
  destruct (negb (truthy subs)) eqn:Hs; [discriminate |].
  destruct (py_get user "user_information" VNone) as [info |] eqn:Hinfo;
    cbn [rbind] in Hacc; [| discriminate].
  destruct (negb (truthy info)) eqn:Hi; [discriminate |].
  destruct (py_get info "linked_accounts" (VList [])) as [linked |] eqn:Hlinked;
    cbn [rbind] in Hacc; [| discriminate].
  destruct (Worker.is_None linked) eqn:Hn; [discriminate |].
  injection Hacc as Hfind.
  transitivity (call tt (@Cache.store_user unit e user_id user telegram_account) s).
  - unfold Cache.handle_user_changes. run_block.
    run_with Hd. run_with Hr.
    unfold get in Hu.
    destruct (truthy (get_default record "user_wallet_id" VNone));
      rewrite <- Hu; run_block; run_with Ht; run_with Hsel;
      run_with Hsubs; run_with Hs; run_with Hinfo; run_with Hi;
      run_with Hlinked; run_with Hn; rewrite Hfind; reflexivity.
  - unfold Cache.cache_user. run_block.
    run_with Hid. run_with Hsubs. run_with Hs. run_with Hinfo. run_with Hi.
    run_with Hlinked. run_with Hn. rewrite Hfind. reflexivity.
Qed.

Lemma refresh_agrees_with_startup_witness :
  Cache.handle_user_changes
    (MoreExamples.cache_env [MoreExamples.cached_user_row])
    MoreExamples.change_notice MoreExamples.warm_cache
  = Cache.cache_user (MoreExamples.cache_env [MoreExamples.cached_user_row])
      MoreExamples.cached_user_row MoreExamples.warm_cache.
Proof.
  apply (@refresh_agrees_with_startup
           (MoreExamples.cache_env [MoreExamples.cached_user_row])
           MoreExamples.change_notice (VStr "u1") MoreExamples.cached_user_row
           (VDict [("provider", VStr "telegram");
                   ("provider_id", VStr "4242")])
           [] MoreExamples.warm_cache).
  - exists [("table", VStr "user_filters"); ("type", VStr "UPDATE");
            ("record", VDict [("id", VInt 7); ("user_wallet_id", VStr "u1")])],
           [("id", VInt 7); ("user_wallet_id", VStr "u1")].
    repeat split; reflexivity.
  - reflexivity.
  - reflexivity.
  - reflexivity.
Defined.
